(* ===== verification/_CoqProject ===== *)
-Q . S2P
Prelude.v
Js.v
Base64.v
IsoDate.v
Braintree.v
SandboxBraintree.v
PayPal.v
SandboxPayPal.v
Server.v
