(* ===== verification/Prelude.v ===== *)
(** * ValuePay: a verification development of the payment gateway

    ValuePay (src/) is an Express server that proxies subscription
    billing to two processors.  src/server.js installs [express.json()]
    and mounts two routers: /braintree (src/routes/braintree.js, over the
    Braintree SDK client built in src/config/braintree.js) and /payment
    (src/routes/payment.js, over PayPal's REST API reached with axios and
    the access token of src/config/paypal.js).  Every route is an async
    handler that makes a few processor calls in sequence, reads fields of
    their results, and answers 200 with a projection or 500 with an
    error; nothing is stored by the program itself.

    ** Files

    - Prelude.v (this file): [outcome] (a value or a thrown exception),
      the state-and-exception monad [M] in which every async function is
      written ([let*] in [vp_scope]), its laws, the [post]/[nothrow]
      predicates with their composition lemmas (hint database [vp]), and
      the tactics [vp_eval] (run a handler symbolically, rewriting the
      equations that give unknown call results) and [vp_invert].
    - Js.v: the JavaScript runtime the handlers rely on: [jsval], property
      reads that throw V8's [TypeError] on [undefined]/[null] ([js_get],
      [js_index], [js_destructure]), [||], template literals, [find],
      [JSON.stringify] as [res.json] applies it, [request]/[response],
      [process.env] ([env], [process_env]), URL paths ([split_path]),
      and the [world] a handler runs in (processor state, console log,
      clock) with [JS P A := M (world P) jserror A], and the predicates
      that relate the error lines a computation prints to how it ends
      ([guarded], [throwing], [error_500]) with their rules and the
      tactic [solve_guarded].
    - Base64.v: [Buffer.from(s).toString('base64')] of paypal.js line 9,
      bit for bit (UTF-8 of each code unit, then sextets by [Z.shiftr] and
      [Z.land]), with a decoder and the round trips.
    - IsoDate.v: [new Date(t).toISOString()] of payment.js line 60 (TimeClip,
      the proleptic Gregorian calendar, the extended year form, the
      [RangeError] on an invalid date), and the calendar of ECMA-262 it
      is proved against.
    - Braintree.v: [BraintreeGateway], the SDK client as a type class (one
      method per SDK call); [Braintree.Config] the options
      src/config/braintree.js builds it with and the check of the
      credentials the SDK's constructor makes at load time; [Braintree.Routes] translates the four helpers
      and five handlers of src/routes/braintree.js generically in the
      gateway state; [BraintreeContract] states what the routes rely on
      from the processor, and the properties are proved for every gateway
      or every gateway meeting the contract.
    - SandboxBraintree.v: an executable Braintree service (nonces, vaulted
      payment methods, customers, subscriptions with statuses) instance of
      the gateway and of the contract, with its invariant along any
      sequence of calls ([bt_step] under stdpp's [rtc]); the spec's
      scenarios and the witnesses of the Braintree theorems run on it.
    - PayPal.v: [PayPalApi], one HTTP exchange with PayPal as a type class;
      [axios] on top of it (2xx resolves, other statuses reject with
      [error.response]); [Config] translates src/config/paypal.js
      ([PAYPAL_API], the client id printed at load, [getAccessToken]) and
      [Payment] the helpers and three handlers of src/routes/payment.js,
      generically in the server state and the environment;
      [Payment.PayPalContract] states what the check of a subscription
      relies on from PayPal, for the exchanges the routes make.
    - SandboxPayPal.v: an executable PayPal REST server (client
      credentials, tokens, products, plans, subscriptions as resources by
      path, [PayPal-Request-Id] replay, URL dot-segment resolution), a stub
      server for replies the sandbox never gives, the invariant of the
      server along any sequence of exchanges ([reaches], [persists]), the
      proof that it meets [PayPalContract] ([Contract]), and the scenarios
      and witnesses of the PayPal theorems.
    - Server.v: src/server.js: [express.json()], the mount points
      [/payment] and [/braintree], Express' route matching and the
      [decodeURIComponent] of route parameters ([Uri], [App.serve] on the
      pair of the processors' states, [App.serve_all] for a sequence of
      requests), the flat route table [App.route_table] with Express'
      first-match dispatch [App.table_match], and [App.startup], loading
      and starting the server (the config's log line, the Braintree
      gateway's construction, the listen callback); witnesses on both
      sandboxes.

    ** How the model follows the code

    Each async function is a definition of the same name in [JS P]: an
    [await] of a processor call is [call] (Braintree) or [axios]
    (PayPal), a property read is [get] (which throws the V8 [TypeError]),
    [console.log]/[console.error] append to the log, [Date.now()] reads
    the clock, [try]/[catch] is [catch], and the route's 500 answer is
    the [catch] handler.  Processor state is threaded through [w_proc];
    the program's own code keeps no state across requests.

    ** What is proved (claims C1-C34 of the manifest)

    - Totality and error shape (C1, C2, C11): on every request Express
      can deliver, no handler lets an exception escape, and every answer
      of the Braintree router is a 200 or a 500 [{ error: message }].
    - Functional behaviour per branch (C3-C7, C12-C17, C21, C27-C29):
      each route's result and final processor state on its success path
      and on each error path, including the TypeErrors the code raises on
      missing fields, and the resources left behind by non-atomic
      sequences.
    - Refinement against the processor contract (C8, C9, C30): what
      /subscribe and /update-card return is what a later
      /check-subscription reports, for Braintree and for PayPal; and over
      HTTP, through the server, the routers and the URI decoding (C31,
      C32): the id a client receives, sent back encoded in the URL, is
      found.
    - The PayPal idempotency key and URLs (C18-C20): the request id is a
      function of the millisecond only; against a server honouring it, two
      subscriptions of one millisecond get the same run whatever plans
      they name, after any interleaving of other exchanges (rule induction
      on [reaches]); an encoded [../] in the id reads another resource.
    - Credentials and configuration (C22, C23, C33): the Basic header
      decodes to [client_id:secret] (the base64 and UTF-8 round trips);
      starting the server logs the client id and then listens when the
      Braintree credentials are set, and throws the SDK's
      [configurationError] before listening when one is missing.
    - The application (C24): a parameter encoded by the client reaches
      either check-subscription handler exactly as written (the
      [decodeURIComponent] / [encodeURIComponent] round trip), which is
      how the traversal of C20 is delivered over HTTP.
    - C10: against Braintree's documented [paymentMethod.create], which
      requires [customerId], /update-card can never succeed.
    - The server as a whole: every sequence of requests gets exactly one
      response per request (C25); the mounted routers match exactly as
      the flat table of the eight routes (C26); a request that makes the
      server print a [console.error] line is answered 500 (C34), because
      every [console.error] of the code is followed by a [throw] or by
      [res.status(500)] ([Js.guarded], [Js.error_500] and their rules).
    - The date model is checked against ECMA-262
      ([IsoDate.civil_from_days_ecma]: the era arithmetic of
      [civil_from_days] computes the standard's calendar on every day);
      it is evidence for the definition C14 uses, not a claim about the
      program.

    ** Bounds and fuel

    Integers are [Z]: JavaScript numbers here are millisecond times and
    HTTP statuses, far below 2^53, and the only width that matters is the
    byte/sextet width of base64, kept by [Z.land].  The calendar check
    evaluates by [vm_compute] the 400 years of one era and the 366 days
    of a year, which is enough since the calendar repeats every 400
    years ([DayFromYear_era]).  No definition uses fuel: every recursion
    is structural (on strings, lists, or bytes by groups of three), and
    the source has no loop, so termination is by construction and no
    termination theorem is stated; that the server answers at all is the
    liveness theorem C25.  [Date] times are clipped at 8.64e15 ms as
    TimeClip does.

    ** Modelling choices

    - The clock: [Date.now()] reads the world's clock, which no step of a
      request moves.  Two reads in one request (PRODUCT- and PLAN- keys
      of /create-plan, the start time and the key of /subscribe) read
      the same millisecond, as they do when the exchanges in between
      take less than a millisecond; C12 and C14 are stated for that case.
    - Strings are Stdlib strings, whose characters are the 256 code units
      below 256: [utf8_bytes] and [decodeURIComponent] handle those (a
      percent escape of a 3- or 4-byte UTF-8 sequence is answered 400
      where Node would decode a character above U+00FF).
    - [express.json()] is Express 4's body parser in strict mode (only
      an object or an array; [{}] without a JSON body).
    - The Braintree SDK is an interface ([BraintreeGateway]); of the
      SDK's own code only the credential check of its constructor is
      modelled ([Braintree.Config.BraintreeGateway_new]), because it
      decides whether the server starts.

    ** Not modelled

    The socket I/O of [app.listen], JSON syntax errors of the body parser
    (its input is the parsed value), the Braintree SDK beyond its
    constructor's check (the processor is the interface
    [BraintreeGateway]), HTTP transport details (timeouts, headers
    other than those the code sets), [require('dotenv').config()] (a
    library that fills [process.env] from a file: the model's [env] is
    [process.env] after it), [require] and [module.exports] (module
    wiring, modelled by the files' imports and the order of [startup]),
    and the interleaving of two handlers at their [await]s: a handler
    runs to completion in one step of the model ([serve_all] serves
    requests one after another), and only C19 lets arbitrary exchanges
    (of other requests or clients) happen between two requests, through
    [reaches]. *)

From stdpp Require Export base list strings sets.
From Stdlib Require Export ZArith Lia.

Declare Scope vp_scope.
Delimit Scope vp_scope with vp.
Open Scope vp_scope.

Create HintDb vp.
Create Rewrite HintDb vp.

(** ** Outcomes of asynchronous code *)

(** An awaited promise either resolves with a value or rejects with an
    exception. *)
Inductive outcome (E A : Type) : Type :=
| Ok (a : A)
| Throw (e : E).
Arguments Ok {E A} a.
Arguments Throw {E A} e.

Definition is_ok {E A} (o : outcome E A) : bool :=
  match o with Ok _ => true | Throw _ => false end.

(** ** The state-and-exception monad *)

(** [M S E A] threads a world [S] through a computation that returns an
    [A] or throws an [E]; the world is kept when an exception is thrown,
    because side effects performed before a [throw] (log lines, calls to
    the processors) are not undone. *)
Definition M (S E A : Type) : Type := S -> outcome E A * S.

Section Monad.
Context {S E : Type}.

Definition ret {A} (a : A) : M S E A := fun s => (Ok a, s).

Definition bind {A B} (m : M S E A) (k : A -> M S E B) : M S E B :=
  fun s =>
    match m s with
    | (Ok a, s') => k a s'
    | (Throw e, s') => (Throw e, s')
    end.

Definition throw {A} (e : E) : M S E A := fun s => (Throw e, s).

(** [try { m } catch (e) { h e }] *)
Definition catch {A} (m : M S E A) (h : E -> M S E A) : M S E A :=
  fun s =>
    match m s with
    | (Ok a, s') => (Ok a, s')
    | (Throw e, s') => h e s'
    end.

Definition gets {A} (f : S -> A) : M S E A := fun s => (Ok (f s), s).

Definition modify (f : S -> S) : M S E unit := fun s => (Ok tt, f s).

(** Embeds an exception-only computation: [lift (Ok a)] returns [a],
    [lift (Throw e)] throws [e]. *)
Definition lift {A} (o : outcome E A) : M S E A := fun s => (o, s).
End Monad.

(** The combinators unfold as soon as they are applied, so that a symbolic
    run of a handler stops only at the unknown calls and reads. *)
Arguments ret {S E A} a /.
Arguments bind {S E A B} m k /.
Arguments throw {S E A} e /.
Arguments catch {S E A} m h /.
Arguments gets {S E A} f /.
Arguments modify {S E} f /.
Arguments lift {S E A} o /.

Notation "'let*' x ':=' m 'in' k" := (bind m (fun x => k))
  (at level 100, x name, m at next level, right associativity) : vp_scope.
Notation "m ;;; k" := (bind m (fun _ => k))
  (at level 100, right associativity) : vp_scope.

(** ** Monad laws *)

Section MonadLaws.
Context {S E : Type}.

Lemma bind_ret_l {A B} (a : A) (k : A -> M S E B) s :
  bind (ret a) k s = k a s.
Proof. reflexivity. Qed.

Lemma bind_ret_r {A} (m : M S E A) s : bind m ret s = m s.
Proof. unfold bind, ret. by destruct (m s) as [[] ?]. Qed.

Lemma bind_assoc {A B C} (m : M S E A) (k : A -> M S E B) (h : B -> M S E C) s :
  bind (bind m k) h s = bind m (fun a => bind (k a) h) s.
Proof. unfold bind. by destruct (m s) as [[] ?]. Qed.

Lemma bind_throw {A B} (e : E) (k : A -> M S E B) s :
  bind (throw e) k s = (Throw e, s).
Proof. reflexivity. Qed.

(** Running a bind whose first computation is known. *)
Lemma bind_step_ok {A B} (m : M S E A) (k : A -> M S E B) s a s' :
  m s = (Ok a, s') -> bind m k s = k a s'.
Proof. unfold bind. by intros ->. Qed.

Lemma bind_step_throw {A B} (m : M S E A) (k : A -> M S E B) s e s' :
  m s = (Throw e, s') -> bind m k s = (Throw e, s').
Proof. unfold bind. by intros ->. Qed.

Lemma catch_step_ok {A} (m : M S E A) h s a s' :
  m s = (Ok a, s') -> catch m h s = (Ok a, s').
Proof. unfold catch. by intros ->. Qed.

Lemma catch_step_throw {A} (m : M S E A) h s e s' :
  m s = (Throw e, s') -> catch m h s = h e s'.
Proof. unfold catch. by intros ->. Qed.

End MonadLaws.

#[export] Hint Rewrite @bind_ret_l @bind_throw : vp.

(** ** Postconditions and totality *)

(** [post P m]: every value [m] returns satisfies [P]; [nothrow m]: [m]
    never throws. Both compose along the structure of a handler, and the
    composition lemmas are hints of [vp]. *)
Section Post.
Context {S E : Type}.

Definition post {A} (P : A -> Prop) (m : M S E A) : Prop :=
  forall s a s', m s = (Ok a, s') -> P a.

Definition nothrow {A} (m : M S E A) : Prop :=
  forall s, exists a s', m s = (Ok a, s').

Lemma post_ret {A} (P : A -> Prop) a : P a -> post P (ret a).
Proof. intros H s b s' [= -> _]. done. Qed.

Lemma post_throw {A} (P : A -> Prop) e : post P (@throw S E A e).
Proof. by intros s b s' [=]. Qed.

Lemma post_bind {A B} (P : B -> Prop) (m : M S E A) (k : A -> M S E B) :
  (forall a, post P (k a)) -> post P (bind m k).
Proof.
  intros Hk s b s'. unfold bind.
  destruct (m s) as [[a|e] s1]; [apply Hk | by intros [=]].
Qed.

Lemma post_catch {A} (P : A -> Prop) (m : M S E A) h :
  post P m -> (forall e, post P (h e)) -> post P (catch m h).
Proof.
  intros Hm Hh s b s'. unfold catch.
  destruct (m s) as [[a|e] s1] eqn:Em; [intros [= <- _]; eapply Hm, Em | apply Hh].
Qed.

Lemma post_mono {A} (P Q : A -> Prop) (m : M S E A) :
  (forall a, P a -> Q a) -> post P m -> post Q m.
Proof. intros HPQ Hm s a s' Hr. eapply HPQ, Hm, Hr. Qed.

(** A bind whose first computation is known to satisfy [Q]. *)
Lemma post_bind_post {A B} (Q : A -> Prop) (P : B -> Prop) (m : M S E A) (k : A -> M S E B) :
  post Q m -> (forall a, Q a -> post P (k a)) -> post P (bind m k).
Proof.
  intros Hm Hk s b s'. unfold bind.
  destruct (m s) as [[a|e] s1] eqn:Em; [apply Hk; eapply Hm, Em | by intros [=]].
Qed.

Lemma nothrow_ret {A} (a : A) : nothrow (ret a).
Proof. intros s. eauto. Qed.

Lemma nothrow_modify f : nothrow (modify f).
Proof. intros s. eexists _, _. reflexivity. Qed.

Lemma nothrow_bind {A B} (m : M S E A) (k : A -> M S E B) :
  nothrow m -> (forall a, nothrow (k a)) -> nothrow (bind m k).
Proof.
  intros Hm Hk s. unfold bind. destruct (Hm s) as (a & s1 & ->). apply Hk.
Qed.

(** A [try] whose [catch] block never throws never throws. *)
Lemma nothrow_catch {A} (m : M S E A) h :
  (forall e, nothrow (h e)) -> nothrow (catch m h).
Proof.
  intros Hh s. unfold catch. destruct (m s) as [[a|e] s1]; [eauto | apply Hh].
Qed.

Lemma nothrow_lift_ok {A} (o : outcome E A) :
  (exists a, o = Ok a) -> nothrow (@lift S E A o).
Proof. intros [a ->] s. eauto. Qed.
End Post.

#[export] Hint Resolve post_ret post_throw post_bind post_catch : vp.
#[export] Hint Resolve nothrow_ret nothrow_modify nothrow_bind nothrow_catch : vp.

(** ** Generic lemmas on strings and lists *)

(** stdpp declares [String.append] [simpl never]; this equation unfolds it
    one character at a time. *)
Lemma string_app_cons (c : Ascii.ascii) (s t : string) :
  (String c s +:+ t)%string = String c (s +:+ t)%string.
Proof. reflexivity. Qed.

Lemma string_app_inj_l (p s1 s2 : string) :
  (p +:+ s1)%string = (p +:+ s2)%string -> s1 = s2.
Proof.
  induction p as [|c p IH]; [done|].
  rewrite !string_app_cons. intros H. injection H. auto.
Qed.

Lemma string_app_nil_l (s : string) : ("" +:+ s)%string = s.
Proof. reflexivity. Qed.

Lemma string_length_app (s t : string) :
  String.length (s +:+ t)%string = (String.length s + String.length t)%nat.
Proof. induction s as [|c s IH]; [done|]. rewrite string_app_cons. cbn. by rewrite IH. Qed.

#[export] Hint Rewrite string_length_app : vp.

Lemma string_app_nil_r (s : string) : (s +:+ "")%string = s.
Proof. induction s as [|c s IH]; [done|]. by rewrite string_app_cons, IH. Qed.

Lemma string_app_assoc (s1 s2 s3 : string) :
  (s1 +:+ (s2 +:+ s3))%string = ((s1 +:+ s2) +:+ s3)%string.
Proof. induction s1 as [|c s1 IH]; [done|]. by rewrite !string_app_cons, IH. Qed.

#[export] Hint Resolve string_app_inj_l : vp.

(** ** Tactics *)

(** [run_with H] rewrites one awaited call of the goal with the equation
    [H] giving its result and continues the computation. *)
Ltac run_with H :=
  first [ erewrite (bind_step_ok _ _ _ _ _ H)
        | erewrite (bind_step_throw _ _ _ _ _ H)
        | erewrite (catch_step_ok _ _ _ _ _ H)
        | erewrite (catch_step_throw _ _ _ _ _ H)
        | rewrite H ]; cbn.

(** [vp_eval] runs a handler symbolically: it evaluates the goal and
    rewrites, wherever the computation is stuck on one, the equations of
    the context that give the result of an unknown call or property read. *)
Ltac vp_eval :=
  repeat first [ progress (cbn; autorewrite with vp)
               | match goal with
                 | H : ?l = _ |- context [?l] => rewrite H
                 end ].

(** [vp_invert H] inverts a hypothesis [H : m s = (Ok a, s')] about a
    handler: it follows every branch of the computation, keeping the
    equations of the calls and reads on the branches that reach [Ok]. *)
Ltac vp_invert H :=
  cbn in H; repeat (case_match; simplify_eq/=).

(** Closes a decidable goal on literals, such as the distinctness of the
    keys of an object literal. *)
Ltac decide_lit := apply (bool_decide_unpack _); vm_compute; exact I.

(** [zbool] turns the boolean comparisons on [Z] of the context and the
    goal into propositions, so that [lia] can use them. *)
Ltac zbool :=
  repeat first [ rewrite andb_true_iff in * | rewrite orb_true_iff in * | rewrite negb_true_iff in *
               | rewrite Z.leb_le in * | rewrite Z.ltb_lt in * | rewrite Z.eqb_eq in *
               | rewrite Z.leb_gt in * | rewrite Z.ltb_ge in * | rewrite Z.eqb_neq in * ].
