(* ===== verification/Js.v ===== *)
(** * The JavaScript and Node.js runtime the handlers run on

    The values, property accesses, errors and I/O effects that the source
    files use, with the semantics of the ECMAScript operations involved:
    - [jsval]: JavaScript values as they flow through the handlers (parsed
      JSON, SDK result objects, request bodies); numbers are the integers
      the program handles (millisecond timestamps, counts, statuses);
    - [js_get], [js_index], [js_opt_get]: [o.k], [o[i]] and [o?.k], which
      throw a [TypeError] on [undefined] and [null];
    - [truthy], [js_or], [js_to_string]: [if (x)], [a || b] and template
      literals [`${x}`];
    - [jserror]: thrown errors ([new Error(m)], [TypeError], SDK errors
      and axios errors with their [response]);
    - [json_of]: what [res.json(v)] sends ([JSON.stringify]: object fields
      whose value is [undefined] are omitted);
    - [world]: the process state a handler sees: the processor's state,
      the console output and the clock read by [Date.now()];
    - [env], [process_env]: [process.env], read-only;
    - [split_path]: the segments of a URL path, as Express and the URL
      parser cut it;
    - [guarded], [throwing], [answers_500], [error_500]: how the error
      lines a computation appends to the console relate to the way it
      ends (a [throw], a 500), with one rule per construct of the
      handlers and the tactic [solve_guarded]. *)

From S2P Require Import Prelude.
From stdpp Require Import pretty.
From Stdlib Require Import Ascii.

Open Scope string_scope.
#[local] Set Warnings "-register-all".

(** ** Values *)

Inductive jsval : Type :=
| JUndef
| JNull
| JBool (b : bool)
| JNum (n : Z)
| JStr (s : string)
| JArr (l : list jsval)
| JObj (fs : list (string * jsval)).

(** Property lookup in an object: a later field with the same name wins,
    as for object literals and [JSON.parse]. *)
Fixpoint assoc_lookup (k : string) (fs : list (string * jsval)) : option jsval :=
  match fs with
  | [] => None
  | (k', v) :: fs' =>
      match assoc_lookup k fs' with
      | Some w => Some w
      | None => if String.eqb k k' then Some v else None
      end
  end.

Definition field (k : string) (fs : list (string * jsval)) : jsval :=
  default JUndef (assoc_lookup k fs).

(** ** Errors *)

(** An axios [error.response]: the HTTP status and the parsed body. *)
Record http_reply := mk_reply { reply_status : Z; reply_data : jsval }.

Record jserror := mk_error {
  err_name : string;
  err_message : string;
  err_response : option http_reply
}.

(** [String(v)], the conversion of template literals and [new Error(v)]. *)
Fixpoint js_to_string (v : jsval) : string :=
  match v with
  | JUndef => "undefined"
  | JNull => "null"
  | JBool b => if b then "true" else "false"
  | JNum n => pretty n
  | JStr s => s
  | JArr l =>
      (fix join (l : list jsval) : string :=
         match l with
         | [] => ""
         | x :: l' =>
             let sx := match x with JUndef | JNull => "" | _ => js_to_string x end in
             match l' with [] => sx | _ => sx +:+ "," +:+ join l' end
         end) l
  | JObj _ => "[object Object]"
  end.

(** [new Error(msg)]: an [undefined] message leaves the inherited empty
    message. *)
Definition new_error (msg : jsval) : jserror :=
  {| err_name := "Error";
     err_message := match msg with JUndef => "" | _ => js_to_string msg end;
     err_response := None |}.

(** The [TypeError] V8 throws for [v.k] when [v] is [undefined] or [null]. *)
Definition read_error (what k : string) : jserror :=
  {| err_name := "TypeError";
     err_message := "Cannot read properties of " +:+ what +:+ " (reading '" +:+ k +:+ "')";
     err_response := None |}.

Definition not_a_function (expr : string) : jserror :=
  {| err_name := "TypeError";
     err_message := expr +:+ " is not a function";
     err_response := None |}.

(** [error.message] and [error.response?.data] as values. *)
Definition error_message (e : jserror) : jsval := JStr (err_message e).

Definition error_response_data (e : jserror) : jsval :=
  match err_response e with Some r => reply_data r | None => JUndef end.

(** The first line of [error.stack] ("Name: message"); the call frames
    that follow it are not modelled. *)
Definition error_stack (e : jserror) : jsval :=
  JStr (if String.eqb (err_message e) "" then err_name e
        else err_name e +:+ ": " +:+ err_message e).

(** ** Property access *)

(** [v.k] for a property name [k] that is not an array index. *)
Definition js_get (v : jsval) (k : string) : outcome jserror jsval :=
  match v with
  | JUndef => Throw (read_error "undefined" k)
  | JNull => Throw (read_error "null" k)
  | JObj fs => Ok (field k fs)
  | JArr l => Ok (if String.eqb k "length" then JNum (Z.of_nat (length l)) else JUndef)
  | JStr s => Ok (if String.eqb k "length" then JNum (Z.of_nat (String.length s)) else JUndef)
  | JBool _ | JNum _ => Ok JUndef
  end.

(** [v[i]] for an integer literal index [i]. *)
Definition js_index (v : jsval) (i : nat) : outcome jserror jsval :=
  match v with
  | JUndef => Throw (read_error "undefined" (pretty i))
  | JNull => Throw (read_error "null" (pretty i))
  | JArr l => Ok (default JUndef (l !! i))
  | JObj fs => Ok (field (pretty i) fs)
  | JStr s => Ok (match String.get i s with Some c => JStr (String c "") | None => JUndef end)
  | JBool _ | JNum _ => Ok JUndef
  end.

(** [const { k } = v], where [expr] is the source text of [v]. *)
Definition js_destructure (expr : string) (v : jsval) (k : string) : outcome jserror jsval :=
  match v with
  | JUndef | JNull =>
      Throw {| err_name := "TypeError";
               err_message := "Cannot destructure property '" +:+ k +:+ "' of '" +:+ expr
                              +:+ "' as it is " +:+ js_to_string v +:+ ".";
               err_response := None |}
  | _ => js_get v k
  end.

(** [v?.k]: optional chaining never throws. *)
Definition js_opt_get (v : jsval) (k : string) : jsval :=
  match v with
  | JUndef | JNull => JUndef
  | _ => match js_get v k with Ok w => w | Throw _ => JUndef end
  end.

(** ** Truthiness, [||] and [===] *)

Definition truthy (v : jsval) : bool :=
  match v with
  | JUndef | JNull => false
  | JBool b => b
  | JNum n => negb (Z.eqb n 0)
  | JStr s => negb (String.eqb s "")
  | JArr _ | JObj _ => true
  end.

(** [a || b] *)
Definition js_or (a b : jsval) : jsval := if truthy a then a else b.

(** [v === "lit"] against a string literal. *)
Definition js_eq_str (v : jsval) (lit : string) : bool :=
  match v with JStr s => String.eqb s lit | _ => false end.

(** ** [Array.prototype.find] *)

Fixpoint find_first (p : jsval -> outcome jserror bool) (l : list jsval)
  : outcome jserror jsval :=
  match l with
  | [] => Ok JUndef
  | x :: l' =>
      match p x with
      | Throw e => Throw e
      | Ok true => Ok x
      | Ok false => find_first p l'
      end
  end.

(** [arr.find(p)], where [expr] is the source text of [arr.find]: a
    nullish receiver cannot be read, any other non-array has no [find]. *)
Definition js_find (expr : string) (arr : jsval) (p : jsval -> outcome jserror bool)
  : outcome jserror jsval :=
  match arr with
  | JArr l => find_first p l
  | JUndef => Throw (read_error "undefined" "find")
  | JNull => Throw (read_error "null" "find")
  | _ => Throw (not_a_function expr)
  end.

(** ** [JSON.stringify], as [res.json] applies it *)

(** The fields of a serialized object: those whose value serializes to
    [undefined] are left out. *)
Definition omit_undefined (f : jsval -> jsval) :=
  fix go (fs : list (string * jsval)) : list (string * jsval) :=
    match fs with
    | [] => []
    | (k, x) :: fs' =>
        match f x with
        | JUndef => go fs'
        | y => (k, y) :: go fs'
        end
    end.

Fixpoint json_of (v : jsval) : jsval :=
  match v with
  | JArr l => JArr (map (fun x => match json_of x with JUndef => JNull | y => y end) l)
  | JObj fs => JObj (omit_undefined json_of fs)
  | _ => v
  end.

(** ** Requests and responses *)

Record request := mk_request { req_params : jsval; req_body : jsval }.

Record response := mk_response { res_status : Z; res_body : jsval }.

(** [res.json(v)] and [res.status(s).json(v)] *)
Definition res_json (v : jsval) : response := mk_response 200 (json_of v).
Definition res_status_json (s : Z) (v : jsval) : response := mk_response s (json_of v).

(** ** The process world: processor state, console and clock *)

Inductive log_level := LogInfo | LogError.

Record log_entry := mk_log { log_lvl : log_level; log_args : list jsval }.

Record world (P : Type) := mk_world {
  w_proc : P;
  w_log : list log_entry;
  w_clock : Z
}.
Arguments mk_world {P} _ _ _.
Arguments w_proc {P} _.
Arguments w_log {P} _.
Arguments w_clock {P} _.

(** A handler of the program: a computation on the world that may throw. *)
Definition JS (P A : Type) : Type := M (world P) jserror A.

Section Runtime.
Context {P : Type}.

Definition console_out (lvl : log_level) (args : list jsval) : JS P unit :=
  modify (fun w => mk_world (w_proc w) (w_log w ++ [mk_log lvl args]) (w_clock w)).

(** [console.log(...)] and [console.error(...)] *)
Definition console_log (args : list jsval) : JS P unit := console_out LogInfo args.
Definition console_error (args : list jsval) : JS P unit := console_out LogError args.

(** [Date.now()] *)
Definition date_now : JS P Z := gets w_clock.

(** An awaited call into the processor's client library. *)
Definition call {A} (f : P -> outcome jserror A * P) : JS P A :=
  fun w => let '(o, p') := f (w_proc w) in (o, mk_world p' (w_log w) (w_clock w)).

(** Reading a property inside a handler: a [TypeError] is thrown. *)
Definition get (v : jsval) (k : string) : JS P jsval := lift (js_get v k).
Definition index (v : jsval) (i : nat) : JS P jsval := lift (js_index v i).
Definition destructure (expr : string) (v : jsval) (k : string) : JS P jsval :=
  lift (js_destructure expr v k).
End Runtime.

Arguments console_out {P} lvl args /.
Arguments console_log {P} args /.
Arguments console_error {P} args /.
Arguments date_now {P} /.
Arguments call {P A} f /.
Arguments get {P} v k /.
Arguments index {P} v i /.
Arguments destructure {P} expr v k /.

(** ** Evaluation lemmas *)

(** Proofs about handlers run them symbolically: the accessors below are
    only unfolded through the lemmas of this section, so that an equation
    about an unknown result object ([js_get r "success" = Ok s]) can be
    rewritten where the handler reads it. *)
Arguments js_get : simpl never.
Arguments js_index : simpl never.
Arguments js_destructure : simpl never.
Arguments truthy : simpl never.
Arguments json_of : simpl never.

Lemma js_get_obj fs k : js_get (JObj fs) k = Ok (field k fs).
Proof. reflexivity. Qed.

Lemma js_destructure_obj e fs k : js_destructure e (JObj fs) k = Ok (field k fs).
Proof. reflexivity. Qed.

(** Nullish values are exactly the values whose properties cannot be read. *)
Definition nullish (v : jsval) : bool :=
  match v with JUndef | JNull => true | _ => false end.

Lemma js_get_total v k : nullish v = false -> exists x, js_get v k = Ok x.
Proof. destruct v; simpl; try discriminate; eauto. Qed.

Lemma js_destructure_total e v k : nullish v = false -> exists x, js_destructure e v k = Ok x.
Proof. intros H. destruct v; try discriminate; apply js_get_total; done. Qed.

(** [JSON.stringify] leaves strings unchanged. *)
Lemma json_of_str s : json_of (JStr s) = JStr s.
Proof. reflexivity. Qed.

Lemma json_of_obj fs : json_of (JObj fs) = JObj (omit_undefined json_of fs).
Proof. reflexivity. Qed.

Lemma assoc_lookup_omit k fs :
  NoDup fs.*1 ->
  assoc_lookup k (omit_undefined json_of fs) =
  match assoc_lookup k fs with
  | Some x => match json_of x with JUndef => None | y => Some y end
  | None => None
  end.
Proof.
  induction fs as [|[k' x] fs IH]; intros Hnd; [done|].
  apply NoDup_cons in Hnd as [Hnin Hnd].
  assert (Hk : String.eqb k k' = true -> assoc_lookup k fs = None).
  { intros Hkk. apply String.eqb_eq in Hkk. subst k. clear -Hnin. induction fs as [|[k'' y] fs IH]; [done|].
    simpl in *. rewrite IH by set_solver.
    destruct (String.eqb_spec k' k''); [set_solver|done]. }
  cbn [omit_undefined assoc_lookup fst].
  destruct (String.eqb k k') eqn:Ek; [specialize (Hk eq_refl) | clear Hk];
    destruct (json_of x) eqn:Ex; cbn [assoc_lookup]; rewrite ?Ek, IH by done;
    rewrite ?Hk, ?Ex; try done;
    destruct (assoc_lookup k fs) as [w|]; try done; destruct (json_of w); done.
Qed.

(** A field of a serialized object with distinct keys is the serialized
    field. *)
Lemma json_field k fs :
  NoDup fs.*1 -> field k (omit_undefined json_of fs) = json_of (field k fs).
Proof.
  intros Hnd. unfold field. rewrite assoc_lookup_omit by done.
  destruct (assoc_lookup k fs) as [x|]; simpl; [|done].
  by destruct (json_of x).
Qed.

(** Reading a field of what [res.json] sent. *)
Lemma js_get_json_obj fs k :
  NoDup fs.*1 -> js_get (json_of (JObj fs)) k = Ok (json_of (field k fs)).
Proof. intros Hnd. by rewrite json_of_obj, js_get_obj, json_field. Qed.

Lemma json_of_eq_str v s : json_of v = JStr s -> v = JStr s.
Proof. unfold json_of. by destruct v. Qed.

Lemma js_get_nullish v k x : js_get v k = Ok x -> nullish v = false.
Proof. by destruct v. Qed.

(** [v.k] of an object, as a value: the field, or [undefined]. *)
Definition prop (v : jsval) (k : string) : jsval :=
  match js_get v k with Ok x => x | Throw _ => JUndef end.

Lemma js_get_prop v k : nullish v = false -> js_get v k = Ok (prop v k).
Proof. intros Hv. unfold prop. by destruct (js_get_total v k Hv) as [x ->]. Qed.

Lemma prop_js_get v k x : prop v k = x -> x <> JUndef -> js_get v k = Ok x.
Proof. unfold prop. destruct (js_get v k); congruence. Qed.

#[export] Hint Rewrite js_get_obj js_destructure_obj json_of_str : vp.

(** ** The process environment *)

(** The process environment ([process.env]), read-only. *)
Definition env := list (string * string).

Fixpoint env_lookup (k : string) (e : env) : option string :=
  match e with
  | [] => None
  | (k', v) :: e' => if String.eqb k k' then Some v else env_lookup k e'
  end.

(** [process.env.k]: a string, or [undefined] when the variable is unset. *)
Definition process_env (e : env) (k : string) : jsval :=
  match env_lookup k e with Some v => JStr v | None => JUndef end.

(** ** Totality of the effects *)

(** The requests a route can receive: [express.json()] (src/server.js,
    line 5) always leaves an object in [req.body], and Express always
    fills [req.params]. *)
Definition well_formed (req : request) : Prop :=
  nullish (req_params req) = false /\ nullish (req_body req) = false.

Section Totality.
Context {P : Type}.

Lemma nothrow_console (lvl : log_level) args : nothrow (@console_out P lvl args).
Proof. apply nothrow_modify. Qed.

Lemma nothrow_destructure e v k :
  nullish v = false -> nothrow (@destructure P e v k).
Proof. intros Hv. apply nothrow_lift_ok. by apply js_destructure_total. Qed.
End Totality.

#[export] Hint Resolve nothrow_console : vp.

(** [solve_nothrow] shows that a handler never throws: every [try] has a
    [catch] block that does not throw (a hint of [vp]), and every read
    outside a [try] is of an object (the hypotheses of the context). *)
Ltac solve_nothrow :=
  repeat first [ progress intros | apply nothrow_bind | apply nothrow_catch
               | apply nothrow_destructure; assumption | apply nothrow_console
               | apply nothrow_ret | solve [auto with vp] ].

(** ** Paths *)

(** The segments of a URL path, split at every [/]: ["/a/b"] gives
    [[""; "a"; "b"]], as Express and the URL parser cut it. *)
Fixpoint split_path (s : string) : list string :=
  match s with
  | EmptyString => [""]
  | String c s' =>
      match split_path s' with
      | [] => [String c ""]
      | seg :: segs => if Ascii.eqb c "/"%char then "" :: seg :: segs else String c seg :: segs
      end
  end.

(** [has_slash s]: [s] contains a [/]. *)
Fixpoint has_slash (s : string) : bool :=
  match s with
  | EmptyString => false
  | String c s' => Ascii.eqb c "/"%char || has_slash s'
  end.

Lemma split_path_no_slash s : has_slash s = false -> split_path s = [s].
Proof.
  induction s as [|c s IH]; cbn; [done|]. intros [Hc Hs]%orb_false_iff.
  by rewrite IH, Hc.
Qed.

Lemma has_slash_app s t : has_slash (s +:+ t) = has_slash s || has_slash t.
Proof.
  induction s as [|c s IH]; [done|]. rewrite string_app_cons. cbn. by rewrite IH, orb_assoc.
Qed.

(** ** Processor invariants *)

(** [op_keeps I f]: a processor operation that keeps [I]. *)
Definition op_keeps {P A} (I : P -> Prop) (f : P -> outcome jserror A * P) : Prop :=
  forall p o p', I p -> f p = (o, p') -> I p'.

(** ** Error lines and 500 responses

    The program prints to [console.error] only on a failure path: in a
    helper's failure branch or [catch] block, followed by [throw], and in
    a route's [catch] block, followed by a 500 response.  The predicates
    below state this of a computation, and their rules follow the
    handlers' structure.  Each also says that the computation only
    appends to the console output ([l] is what it appends). *)

(** An error line among the appended ones. *)
Definition logs_error (l : list log_entry) : bool :=
  existsb (fun x => match log_lvl x with LogError => true | LogInfo => false end) l.

Section Discipline.
Context {P : Type}.

(** [guarded m]: a run of [m] that printed an error line throws. *)
Definition guarded {A} (m : JS P A) : Prop :=
  forall w o w', m w = (o, w') ->
    exists l, w_log w' = (w_log w ++ l)%list /\ (logs_error l = true -> is_ok o = false).

(** [throwing m]: every run of [m] throws. *)
Definition throwing {A} (m : JS P A) : Prop :=
  forall w o w', m w = (o, w') -> exists l, w_log w' = (w_log w ++ l)%list /\ is_ok o = false.

(** [answers_500 m]: every response [m] returns has status 500. *)
Definition answers_500 (m : JS P response) : Prop :=
  forall w o w', m w = (o, w') ->
    exists l, w_log w' = (w_log w ++ l)%list /\ forall r, o = Ok r -> res_status r = 500%Z.

(** [error_500 m]: a run of [m] that printed an error line and returned
    a response returned a 500. *)
Definition error_500 (m : JS P response) : Prop :=
  forall w o w', m w = (o, w') ->
    exists l, w_log w' = (w_log w ++ l)%list /\
      (logs_error l = true -> forall r, o = Ok r -> res_status r = 500%Z).

Lemma logs_error_app l1 l2 : logs_error (l1 ++ l2) = logs_error l1 || logs_error l2.
Proof. apply existsb_app. Qed.

Lemma log_app_assoc (w w1 w2 : world P) l1 l2 :
  w_log w1 = (w_log w ++ l1)%list -> w_log w2 = (w_log w1 ++ l2)%list ->
  w_log w2 = (w_log w ++ (l1 ++ l2))%list.
Proof. intros -> ->. by rewrite app_assoc. Qed.

(** A computation that leaves the console as it is. *)
Lemma guarded_frame {A} (m : JS P A) :
  (forall w o w', m w = (o, w') -> w_log w' = w_log w) -> guarded m.
Proof. intros Hm w o w' E. exists []. rewrite app_nil_r. split; [by eapply Hm|done]. Qed.

Lemma guarded_ret {A} (a : A) : guarded (ret a).
Proof. apply guarded_frame. by intros w o w' [= _ <-]. Qed.

Lemma guarded_lift {A} (o : outcome jserror A) : guarded (lift o).
Proof. apply guarded_frame. by intros w o' w' [= _ <-]. Qed.

Lemma guarded_date_now : guarded (@date_now P).
Proof. apply guarded_frame. by intros w o w' [= _ <-]. Qed.

Lemma guarded_call {A} (f : P -> outcome jserror A * P) : guarded (call f).
Proof. apply guarded_frame. intros w o w'. cbn. destruct (f (w_proc w)). by intros [= _ <-]. Qed.

Lemma guarded_log args : guarded (@console_log P args).
Proof. intros w o w' [= <- <-]. by exists [mk_log LogInfo args]. Qed.

Lemma throwing_guarded {A} (m : JS P A) : throwing m -> guarded m.
Proof. intros Hm w o w' E. destruct (Hm _ _ _ E) as (l & Hl & Ho). eauto. Qed.

Lemma throwing_throw {A} err : throwing (@throw _ _ A err).
Proof. intros w o w' [= <- <-]. exists []. by rewrite app_nil_r. Qed.

Lemma throwing_console {A} lvl args (m : JS P A) :
  throwing m -> throwing (console_out lvl args ;;; m).
Proof.
  intros Hm w o w' E. cbn in E. destruct (Hm _ _ _ E) as (l & Hl & Ho).
  exists (mk_log lvl args :: l). split; [|done]. rewrite Hl. cbn. by rewrite <- app_assoc.
Qed.

Lemma throwing_bind {A B} (m : JS P A) (k : A -> JS P B) :
  guarded m -> (forall a, throwing (k a)) -> throwing (bind m k).
Proof.
  intros Hm Hk w o w'. cbn. destruct (m w) as [[a|err] w1] eqn:E; intros Hrun.
  - destruct (Hm _ _ _ E) as (l1 & Hl1 & _), (Hk a _ _ _ Hrun) as (l2 & Hl2 & Ho).
    exists (l1 ++ l2)%list. split; [by eapply log_app_assoc|done].
  - injection Hrun as <- <-. destruct (Hm _ _ _ E) as (l1 & Hl1 & _). eauto.
Qed.

Lemma guarded_bind {A B} (m : JS P A) (k : A -> JS P B) :
  guarded m -> (forall a, guarded (k a)) -> guarded (bind m k).
Proof.
  intros Hm Hk w o w'. cbn. destruct (m w) as [[a|err] w1] eqn:E; intros Hrun.
  - destruct (Hm _ _ _ E) as (l1 & Hl1 & H1), (Hk a _ _ _ Hrun) as (l2 & Hl2 & H2).
    exists (l1 ++ l2)%list. split; [by eapply log_app_assoc|].
    rewrite logs_error_app. destruct (logs_error l1); [by specialize (H1 eq_refl)|auto].
  - injection Hrun as <- <-. destruct (Hm _ _ _ E) as (l1 & Hl1 & _). eauto.
Qed.

Lemma guarded_catch {A} (m : JS P A) h :
  guarded m -> (forall err, throwing (h err)) -> guarded (catch m h).
Proof.
  intros Hm Hh w o w'. cbn. destruct (m w) as [[a|err] w1] eqn:E; intros Hrun.
  - injection Hrun as <- <-. by eapply Hm.
  - destruct (Hm _ _ _ E) as (l1 & Hl1 & _), (Hh err _ _ _ Hrun) as (l2 & Hl2 & Ho).
    exists (l1 ++ l2)%list. split; [by eapply log_app_assoc|done].
Qed.

Lemma guarded_if {A} (b : bool) (m1 m2 : JS P A) :
  guarded m1 -> guarded m2 -> guarded (if b then m1 else m2).
Proof. by destruct b. Qed.

Lemma answers_500_ret r : res_status r = 500%Z -> answers_500 (ret r).
Proof. intros Hr w o w' [= <- <-]. exists []. rewrite app_nil_r. split; [done|]. by intros ? [= <-]. Qed.

Lemma answers_500_console lvl args (m : JS P response) :
  answers_500 m -> answers_500 (console_out lvl args ;;; m).
Proof.
  intros Hm w o w' E. cbn in E. destruct (Hm _ _ _ E) as (l & Hl & Ho).
  exists (mk_log lvl args :: l). split; [|done]. rewrite Hl. cbn. by rewrite <- app_assoc.
Qed.

Lemma error_500_guarded (m : JS P response) : guarded m -> error_500 m.
Proof.
  intros Hm w o w' E. destruct (Hm _ _ _ E) as (l & Hl & H). exists l. split; [done|].
  intros He r ->. by specialize (H He).
Qed.

Lemma error_500_bind {A} (m : JS P A) (k : A -> JS P response) :
  guarded m -> (forall a, error_500 (k a)) -> error_500 (bind m k).
Proof.
  intros Hm Hk w o w'. cbn. destruct (m w) as [[a|err] w1] eqn:E; intros Hrun.
  - destruct (Hm _ _ _ E) as (l1 & Hl1 & H1), (Hk a _ _ _ Hrun) as (l2 & Hl2 & H2).
    exists (l1 ++ l2)%list. split; [by eapply log_app_assoc|].
    rewrite logs_error_app. destruct (logs_error l1); [by specialize (H1 eq_refl)|auto].
  - injection Hrun as <- <-. destruct (Hm _ _ _ E) as (l1 & Hl1 & _). by exists l1.
Qed.

Lemma error_500_catch (m : JS P response) h :
  guarded m -> (forall err, answers_500 (h err)) -> error_500 (catch m h).
Proof.
  intros Hm Hh w o w'. cbn. destruct (m w) as [[a|err] w1] eqn:E; intros Hrun.
  - injection Hrun as <- <-. destruct (Hm _ _ _ E) as (l1 & Hl1 & H1).
    exists l1. split; [done|]. intros Hl. by specialize (H1 Hl).
  - destruct (Hm _ _ _ E) as (l1 & Hl1 & _), (Hh err _ _ _ Hrun) as (l2 & Hl2 & Ho).
    exists (l1 ++ l2)%list. split; [by eapply log_app_assoc|auto].
Qed.
End Discipline.

(** [solve_guarded] follows a handler's structure: a [console.error]
    must be followed by code that throws, a route's [catch] block must
    answer 500. *)
Ltac solve_guarded :=
  repeat match goal with
  | |- forall _, _ => intros
  | |- error_500 (catch _ _) => apply error_500_catch
  | |- error_500 (bind _ _) => apply error_500_bind
  | |- answers_500 (bind _ _) => apply answers_500_console
  | |- answers_500 (ret _) => apply answers_500_ret; reflexivity
  | |- throwing (bind (console_out _ _) _) => apply throwing_console
  | |- throwing (bind (console_error _) _) => apply throwing_console
  | |- throwing (bind _ _) => apply throwing_bind
  | |- throwing (throw _) => apply throwing_throw
  | |- guarded (bind (console_error _) _) => apply throwing_guarded
  | |- guarded (bind (console_out LogError _) _) => apply throwing_guarded
  | |- guarded (catch _ _) => apply guarded_catch
  | |- guarded (bind _ _) => apply guarded_bind
  | |- guarded (if _ then _ else _) => apply guarded_if
  | |- guarded (ret _) => apply guarded_ret
  | |- guarded (lift _) => apply guarded_lift
  | |- guarded (throw _) => apply throwing_guarded, throwing_throw
  | |- guarded (get _ _) => apply guarded_lift
  | |- guarded (index _ _) => apply guarded_lift
  | |- guarded (destructure _ _ _) => apply guarded_lift
  | |- guarded date_now => apply guarded_date_now
  | |- guarded (call _) => apply guarded_call
  | |- guarded (console_log _) => apply guarded_log
  end.
