(* ===== verification/Base64.v ===== *)
(** * [Buffer.from(s).toString('base64')] (src/config/paypal.js, line 9)

    [getAccessToken] sends the client id and secret as
    [Basic base64(utf8("<id>:<secret>"))].  This file models the two
    Node.js conversions involved, bit for bit:
    - [utf8_bytes]: [Buffer.from(s)] on a string whose UTF-16 code units
      are below 256 (the characters of a Stdlib [string]): one byte below
      128, two bytes ([110xxxxx 10xxxxxx]) above;
    - [b64_encode]: [buf.toString('base64')], three bytes to four digits of
      the standard alphabet, with [=] padding;
    and the decoders a server applies, [b64_decode] and [utf8_decode].
    The theorems show that a server decoding the header gets back exactly
    the bytes and the string the client encoded. *)

From S2P Require Import Prelude.
From Stdlib Require Import Ascii.

Open Scope string_scope.
Open Scope Z_scope.

Definition byte_ok (b : Z) : Prop := 0 <= b < 256.

(** ** UTF-8, for code units below 256 *)

(** The bytes of one code unit [u < 256]. *)
Definition utf8_unit (c : ascii) : list Z :=
  let u := Z.of_N (N_of_ascii c) in
  if u <? 128 then [u] else [Z.lor 192 (Z.shiftr u 6); Z.lor 128 (Z.land u 63)].

Fixpoint utf8_bytes (s : string) : list Z :=
  match s with
  | EmptyString => []
  | String c s' => utf8_unit c ++ utf8_bytes s'
  end.

Fixpoint utf8_decode (bs : list Z) : option string :=
  match bs with
  | [] => Some EmptyString
  | b :: bs' =>
      if b <? 128 then
        option_map (String (ascii_of_N (Z.to_N b))) (utf8_decode bs')
      else
        match bs' with
        | b' :: bs'' =>
            if (Z.land b 224 =? 192) && (Z.land b' 192 =? 128) then
              option_map (String (ascii_of_N (Z.to_N (Z.lor (Z.shiftl (Z.land b 31) 6)
                                                            (Z.land b' 63)))))
                         (utf8_decode bs'')
            else None
        | [] => None
        end
  end.

(** ** Base64 *)

Definition b64_alphabet : string :=
  "ABCDEFGHIJKLMNOPQRSTUVWXYZabcdefghijklmnopqrstuvwxyz0123456789+/".

(** The digit for a 6-bit value. *)
Definition b64_digit (d : Z) : ascii :=
  match String.get (Z.to_nat d) b64_alphabet with Some c => c | None => "="%char end.

(** The value of a digit, if it is one. *)
Fixpoint index_of (c : ascii) (s : string) (i : Z) : option Z :=
  match s with
  | EmptyString => None
  | String c' s' => if Ascii.eqb c c' then Some i else index_of c s' (i + 1)
  end.

Definition b64_value (c : ascii) : option Z := index_of c b64_alphabet 0.

Definition sextet (n : Z) (shift : Z) : ascii := b64_digit (Z.land (Z.shiftr n shift) 63).

Fixpoint b64_encode (bs : list Z) : string :=
  match bs with
  | b0 :: b1 :: b2 :: rest =>
      let n := Z.lor (Z.shiftl b0 16) (Z.lor (Z.shiftl b1 8) b2) in
      String (sextet n 18) (String (sextet n 12) (String (sextet n 6) (String (sextet n 0)
        (b64_encode rest))))
  | [b0; b1] =>
      let n := Z.lor (Z.shiftl b0 16) (Z.shiftl b1 8) in
      String (sextet n 18) (String (sextet n 12) (String (sextet n 6) "="))
  | [b0] =>
      let n := Z.shiftl b0 16 in
      String (sextet n 18) (String (sextet n 12) "==")
  | [] => ""
  end.

Definition is_pad (c : ascii) : bool := Ascii.eqb c "=".

Definition is_empty (s : string) : bool := match s with EmptyString => true | _ => false end.

(** The decoder a server applies: four characters at a time, the last
    group possibly padded. *)
Fixpoint b64_decode (s : string) : option (list Z) :=
  match s with
  | EmptyString => Some []
  | String c0 (String c1 (String c2 (String c3 rest))) =>
      d0 ← b64_value c0; d1 ← b64_value c1;
      if is_pad c2 then
        if is_pad c3 && is_empty rest then
          Some [Z.shiftr (Z.lor (Z.shiftl d0 18) (Z.shiftl d1 12)) 16]
        else None
      else
        d2 ← b64_value c2;
        if is_pad c3 then
          if is_empty rest then
            let n := Z.lor (Z.shiftl d0 18) (Z.lor (Z.shiftl d1 12) (Z.shiftl d2 6)) in
            Some [Z.shiftr n 16; Z.land (Z.shiftr n 8) 255]
          else None
        else
          d3 ← b64_value c3;
          let n := Z.lor (Z.shiftl d0 18) (Z.lor (Z.shiftl d1 12) (Z.lor (Z.shiftl d2 6) d3)) in
          tl ← b64_decode rest;
          Some (Z.shiftr n 16 :: Z.land (Z.shiftr n 8) 255 :: Z.land n 255 :: tl)
  | _ => None
  end.

(** [Buffer.from(s).toString('base64')] *)
Definition base64_of_string (s : string) : string := b64_encode (utf8_bytes s).

(** ** Round trips *)

Lemma lor_shiftl a b k :
  0 <= k -> 0 <= b < 2 ^ k -> Z.lor (Z.shiftl a k) b = a * 2 ^ k + b.
Proof.
  intros Hk Hb. rewrite Z.shiftl_mul_pow2 by lia.
  enough (Hl : Z.land (a * 2 ^ k) b = 0)
    by (rewrite <- (Z.add_lor_land (a * 2 ^ k) b), Hl; ring).
  apply Z.bits_inj'. intros i Hi. rewrite Z.land_spec, Z.bits_0.
  destruct (Z.lt_ge_cases i k).
  - rewrite <- Z.shiftl_mul_pow2, Z.shiftl_spec_low by lia. done.
  - destruct (Z.eq_dec b 0) as [->|Hb0]; [by rewrite Z.bits_0, andb_false_r|].
    rewrite (Z.bits_above_log2 b i); [by rewrite andb_false_r|lia|].
    apply Z.log2_lt_pow2; [lia|].
    apply (Z.lt_le_trans _ (2 ^ k)); [lia|]. apply Z.pow_le_mono_r; lia.
Qed.

Lemma land_mod a k : 0 <= k -> Z.land a (Z.ones k) = a mod 2 ^ k.
Proof. apply Z.land_ones. Qed.

Lemma sextet_value n k : 0 <= k -> Z.land (Z.shiftr n k) 63 = n / 2 ^ k mod 64.
Proof. intros Hk. change 63 with (Z.ones 6). by rewrite land_mod, Z.shiftr_div_pow2 by lia. Qed.

Lemma byte_value n k : 0 <= k -> Z.land (Z.shiftr n k) 255 = n / 2 ^ k mod 256.
Proof. intros Hk. change 255 with (Z.ones 8). by rewrite land_mod, Z.shiftr_div_pow2 by lia. Qed.

(** Three bytes as a 24-bit value. *)
(** Evaluates the powers of two of the goal. *)
Ltac eval_pow2 :=
  repeat match goal with
         | |- context [2 ^ ?k] =>
             let v := eval vm_compute in (2 ^ k) in change (2 ^ k) with v
         end.

Lemma lor3 b0 b1 b2 :
  byte_ok b1 -> byte_ok b2 ->
  Z.lor (Z.shiftl b0 16) (Z.lor (Z.shiftl b1 8) b2) = b0 * 65536 + b1 * 256 + b2.
Proof.
  unfold byte_ok. intros H1 H2.
  rewrite (lor_shiftl b1 b2 8), (lor_shiftl b0 _ 16); eval_pow2; lia.
Qed.

(** Four sextets as a 24-bit value. *)
Lemma lor4 d0 d1 d2 d3 :
  0 <= d1 < 64 -> 0 <= d2 < 64 -> 0 <= d3 < 64 ->
  Z.lor (Z.shiftl d0 18) (Z.lor (Z.shiftl d1 12) (Z.lor (Z.shiftl d2 6) d3)) =
  d0 * 262144 + d1 * 4096 + d2 * 64 + d3.
Proof.
  intros H1 H2 H3.
  rewrite (lor_shiftl d2 d3 6), (lor_shiftl d1 _ 12), (lor_shiftl d0 _ 18); eval_pow2; lia.
Qed.

(** Every 6-bit value has a digit, which is not the padding character. *)
Lemma b64_digit_value d :
  0 <= d < 64 -> b64_value (b64_digit d) = Some d /\ is_pad (b64_digit d) = false.
Proof.
  intros Hd. rewrite <- (Z2Nat.id d) by lia.
  assert (Hn : (Z.to_nat d < 64)%nat) by lia.
  generalize (Z.to_nat d) Hn. clear d Hd Hn.
  intros n Hn. do 64 (destruct n as [|n]; [split; reflexivity|]). lia.
Qed.

(** The facts the decoder checks on the two bytes of a code unit in
    [128, 256), verified for each of the 128 values. *)
Definition utf8_pair_ok (u : Z) : bool :=
  let b := Z.lor 192 (Z.shiftr u 6) in
  let b' := Z.lor 128 (Z.land u 63) in
  negb (b <? 128) && (Z.land b 224 =? 192) && (Z.land b' 192 =? 128) &&
  (Z.lor (Z.shiftl (Z.land b 31) 6) (Z.land b' 63) =? u) &&
  (b <? 256) && (0 <=? b') && (b' <? 256).

Lemma utf8_pair u : 128 <= u < 256 -> utf8_pair_ok u = true.
Proof.
  intros Hu.
  assert (Hall : forallb (fun n => utf8_pair_ok (Z.of_nat n)) (seq 128 128) = true)
    by (vm_compute; reflexivity).
  rewrite forallb_forall in Hall. rewrite <- (Z2Nat.id u) by lia.
  apply Hall, in_seq. lia.
Qed.

(** One character's UTF-8 bytes decode back to it. *)
Lemma utf8_decode_char c bs :
  utf8_decode (app (utf8_unit c) bs) =
  option_map (String c) (utf8_decode bs).
Proof.
  pose proof (N_ascii_bounded c) as Hb.
  assert (Hc : ascii_of_N (Z.to_N (Z.of_N (N_of_ascii c))) = c)
    by (rewrite N2Z.id; apply ascii_N_embedding).
  unfold utf8_unit.
  destruct (Z.of_N (N_of_ascii c) <? 128) eqn:Hlt; cbn [app utf8_decode].
  - by rewrite Hlt, Hc.
  - pose proof (utf8_pair (Z.of_N (N_of_ascii c))) as Hp. unfold utf8_pair_ok in Hp.
    rewrite Z.ltb_ge in Hlt. specialize (Hp ltac:(lia)).
    apply andb_prop in Hp as [Hp _]. apply andb_prop in Hp as [Hp _].
    apply andb_prop in Hp as [Hp _].
    apply andb_prop in Hp as [Hp Hrec]. apply andb_prop in Hp as [Hp H2].
    apply andb_prop in Hp as [H0 H1]. apply negb_true_iff in H0.
    rewrite H0, H1, H2. cbn. apply Z.eqb_eq in Hrec. by rewrite Hrec, Hc.
Qed.

(** Decoding the UTF-8 bytes that [Buffer.from(s)] produces gives the
    string back, for every string. *)
Theorem utf8_roundtrip s : utf8_decode (utf8_bytes s) = Some s.
Proof.
  induction s as [|c s IH]; [done|].
  cbn [utf8_bytes]. by rewrite utf8_decode_char, IH.
Qed.

(** A group of three bytes: its four sextets put together give the three
    bytes back. *)
Lemma group3 n b0 b1 b2 :
  n = Z.lor (Z.shiftl b0 16) (Z.lor (Z.shiftl b1 8) b2) ->
  byte_ok b0 -> byte_ok b1 -> byte_ok b2 ->
  let n' := Z.lor (Z.shiftl (Z.land (Z.shiftr n 18) 63) 18)
              (Z.lor (Z.shiftl (Z.land (Z.shiftr n 12) 63) 12)
                 (Z.lor (Z.shiftl (Z.land (Z.shiftr n 6) 63) 6) (Z.land (Z.shiftr n 0) 63))) in
  Z.shiftr n' 16 = b0 /\ Z.land (Z.shiftr n' 8) 255 = b1 /\ Z.land n' 255 = b2.
Proof.
  intros -> H0 H1 H2 n'. unfold n'.
  rewrite !sextet_value, lor3 by (done || lia).
  rewrite lor4 by (apply Z.mod_pos_bound; lia).
  rewrite !byte_value, !Z.shiftr_div_pow2 by lia.
  change 255 with (Z.ones 8). rewrite land_mod by lia.
  unfold byte_ok in *. eval_pow2. Z.to_euclidean_division_equations. lia.
Qed.

(** A final group of two bytes, encoded as three digits and [=]. *)
Lemma group2 n b0 b1 :
  n = Z.lor (Z.shiftl b0 16) (Z.shiftl b1 8) -> byte_ok b0 -> byte_ok b1 ->
  let n' := Z.lor (Z.shiftl (Z.land (Z.shiftr n 18) 63) 18)
              (Z.lor (Z.shiftl (Z.land (Z.shiftr n 12) 63) 12)
                 (Z.shiftl (Z.land (Z.shiftr n 6) 63) 6)) in
  Z.shiftr n' 16 = b0 /\ Z.land (Z.shiftr n' 8) 255 = b1.
Proof.
  intros -> H0 H1 n'. unfold n'.
  rewrite <- (Z.lor_0_r (Z.shiftl b1 8)), <- (Z.lor_0_r (Z.shiftl (Z.land _ 63) 6)).
  rewrite !sextet_value, lor3 by (done || (unfold byte_ok; lia) || lia).
  rewrite lor4 by (apply Z.mod_pos_bound || lia; lia).
  rewrite !byte_value, !Z.shiftr_div_pow2 by lia.
  unfold byte_ok in *. eval_pow2. Z.to_euclidean_division_equations. lia.
Qed.

(** A final single byte, encoded as two digits and [==]. *)
Lemma group1 n b0 :
  n = Z.shiftl b0 16 -> byte_ok b0 ->
  Z.shiftr (Z.lor (Z.shiftl (Z.land (Z.shiftr n 18) 63) 18)
                  (Z.shiftl (Z.land (Z.shiftr n 12) 63) 12)) 16 = b0.
Proof.
  intros -> H0. rewrite !sextet_value by lia.
  rewrite (Z.shiftl_mul_pow2 (_ mod 64) 12) by lia.
  rewrite lor_shiftl; [| lia | eval_pow2; split;
    [apply Z.mul_nonneg_nonneg | apply (Z.lt_le_trans _ (64 * 4096))];
    [apply Z.mod_pos_bound | | apply Z.mul_lt_mono_pos_r, Z.mod_pos_bound |]; lia].
  rewrite !Z.shiftr_div_pow2, !Z.shiftl_mul_pow2 by lia.
  unfold byte_ok in *. eval_pow2. Z.to_euclidean_division_equations. lia.
Qed.

(** The digits the encoder writes decode to the sextets it took. *)
Lemma sextet_digit n k :
  0 <= k -> b64_value (sextet n k) = Some (Z.land (Z.shiftr n k) 63) /\ is_pad (sextet n k) = false.
Proof.
  intros Hk. apply b64_digit_value. rewrite sextet_value by done.
  apply Z.mod_pos_bound. lia.
Qed.

Lemma decode_full c0 c1 c2 c3 rest d0 d1 d2 d3 :
  b64_value c0 = Some d0 -> b64_value c1 = Some d1 -> b64_value c2 = Some d2 ->
  b64_value c3 = Some d3 -> is_pad c2 = false -> is_pad c3 = false ->
  b64_decode (String c0 (String c1 (String c2 (String c3 rest)))) =
  (let n := Z.lor (Z.shiftl d0 18) (Z.lor (Z.shiftl d1 12) (Z.lor (Z.shiftl d2 6) d3)) in
   tl ← b64_decode rest; Some (Z.shiftr n 16 :: Z.land (Z.shiftr n 8) 255 :: Z.land n 255 :: tl)).
Proof. intros H0 H1 H2 H3 P2 P3. cbn [b64_decode]. by rewrite H0, H1, P2, H2, P3, H3. Qed.

Lemma decode_pad1 c0 c1 c2 d0 d1 d2 :
  b64_value c0 = Some d0 -> b64_value c1 = Some d1 -> b64_value c2 = Some d2 ->
  is_pad c2 = false ->
  b64_decode (String c0 (String c1 (String c2 "="))) =
  (let n := Z.lor (Z.shiftl d0 18) (Z.lor (Z.shiftl d1 12) (Z.shiftl d2 6)) in
   Some [Z.shiftr n 16; Z.land (Z.shiftr n 8) 255]).
Proof. intros H0 H1 H2 P2. cbn [b64_decode]. by rewrite H0, H1, P2, H2. Qed.

Lemma decode_pad2 c0 c1 d0 d1 :
  b64_value c0 = Some d0 -> b64_value c1 = Some d1 ->
  b64_decode (String c0 (String c1 "==")) =
  Some [Z.shiftr (Z.lor (Z.shiftl d0 18) (Z.shiftl d1 12)) 16].
Proof. intros H0 H1. cbn [b64_decode]. by rewrite H0, H1. Qed.

(** Decoding what [buf.toString('base64')] wrote gives the bytes of
    the buffer back, for every list of bytes. *)
Theorem b64_roundtrip bs : Forall byte_ok bs -> b64_decode (b64_encode bs) = Some bs.
Proof.
  revert bs. fix IH 1. intros [|b0 [|b1 [|b2 rest]]] Hbs; [done| | |];
    repeat match goal with H : Forall _ (_ :: _) |- _ => apply Forall_cons in H as [? H] end.
  - cbn [b64_encode].
    rewrite (decode_pad2 _ _ _ _ (proj1 (sextet_digit _ 18 ltac:(lia)))
                                 (proj1 (sextet_digit _ 12 ltac:(lia)))).
    by rewrite (group1 _ b0).
  - cbn [b64_encode].
    rewrite (decode_pad1 _ _ _ _ _ _ (proj1 (sextet_digit _ 18 ltac:(lia)))
               (proj1 (sextet_digit _ 12 ltac:(lia))) (proj1 (sextet_digit _ 6 ltac:(lia)))
               (proj2 (sextet_digit _ 6 ltac:(lia)))).
    cbn zeta. by destruct (group2 _ b0 b1 eq_refl) as [-> ->].
  - cbn [b64_encode].
    rewrite (decode_full _ _ _ _ _ _ _ _ _ (proj1 (sextet_digit _ 18 ltac:(lia)))
               (proj1 (sextet_digit _ 12 ltac:(lia))) (proj1 (sextet_digit _ 6 ltac:(lia)))
               (proj1 (sextet_digit _ 0 ltac:(lia))) (proj2 (sextet_digit _ 6 ltac:(lia)))
               (proj2 (sextet_digit _ 0 ltac:(lia)))).
    cbn zeta. rewrite (IH rest) by done.
    by destruct (group3 _ b0 b1 b2 eq_refl) as (-> & -> & ->).
Qed.

(** The bytes of a string are bytes. *)
Lemma utf8_bytes_ok s : Forall byte_ok (utf8_bytes s).
Proof.
  induction s as [|c s IH]; cbn [utf8_bytes]; [constructor|].
  apply Forall_app. split; [|done].
  pose proof (N_ascii_bounded c) as Hb. unfold utf8_unit, byte_ok.
  destruct (Z.of_N (N_of_ascii c) <? 128) eqn:Hlt; [constructor; [lia|constructor]|].
  rewrite Z.ltb_ge in Hlt.
  pose proof (utf8_pair (Z.of_N (N_of_ascii c)) ltac:(lia)) as Hp. unfold utf8_pair_ok in Hp.
  repeat match goal with H : (_ && _) = true |- _ => apply andb_prop in H as [? ?] end.
  rewrite ?Z.ltb_lt, ?Z.leb_le, ?negb_true_iff, ?Z.ltb_ge in *.
  repeat constructor; lia.
Qed.

(** A server that decodes [Buffer.from(s).toString('base64')] from
    base64 and then from UTF-8 gets [s] back, for every string. *)
Theorem base64_string_roundtrip s :
  (b64_decode (base64_of_string s) ≫= utf8_decode) = Some s.
Proof.
  unfold base64_of_string. rewrite b64_roundtrip by apply utf8_bytes_ok.
  apply utf8_roundtrip.
Qed.

