(* ===== verification/IsoDate.v ===== *)
(** * [new Date(ms).toISOString()] (src/routes/payment.js, line 60)

    [createSubscription] computes the subscription's [start_time] as
    [new Date(Date.now() + 10 * 60 * 1000).toISOString()].  This file
    models that ECMAScript operation on integer millisecond times:
    - [time_clip]: the [Date] constructor's TimeClip, which turns a time
      more than 8.64e15 ms away from the epoch into an invalid date;
    - [civil_from_days]: the proleptic Gregorian date of a day number
      (days since 1970-01-01), by the era/year-of-era decomposition;
    - [iso_string]: the 24-character form [YYYY-MM-DDTHH:mm:ss.sssZ], or
      the extended [+YYYYYY]/[-YYYYYY] year outside 0..9999, and the
      [RangeError] [toISOString] throws on an invalid date.
    The standard's own definitions of the calendar ([DayFromYear],
    [InLeapYear], the month table) are the reference:
    [civil_from_days_ecma] checks the model against them on every day,
    by splitting a day into its era, year of era and day of year and
    checking the 400 years of an era and the 366 days of a year by
    computation. *)

From S2P Require Import Prelude Js.
From Stdlib Require Import Ascii.

Open Scope string_scope.
Open Scope Z_scope.

Definition ms_per_day : Z := 86400000.

(** TimeClip: the largest time a [Date] holds is 8.64e15 ms. *)
Definition max_time : Z := 8640000000000000.

Definition time_clip (t : Z) : option Z :=
  if Z.abs t <=? max_time then Some t else None.

(** The date of day [z] after 1970-01-01 (year, month 1-12, day 1-31). *)
Definition civil_from_days (days : Z) : Z * Z * Z :=
  let z := days + 719468 in
  let era := z / 146097 in
  let doe := z - era * 146097 in
  let yoe := (doe - doe / 1460 + doe / 36524 - doe / 146096) / 365 in
  let doy := doe - (365 * yoe + yoe / 4 - yoe / 100) in
  let mp := (5 * doy + 2) / 153 in
  let d := doy - (153 * mp + 2) / 5 + 1 in
  let m := if mp <? 10 then mp + 3 else mp - 9 in
  let y := yoe + era * 400 in
  (if m <=? 2 then y + 1 else y, m, d).

(** The decimal digit of [0 <= n < 10]. *)
Definition digit (n : Z) : ascii := ascii_of_nat (48 + Z.to_nat n).

(** The last [width] decimal digits of [n >= 0], padded with zeros. *)
Fixpoint digits (width : nat) (n : Z) : string :=
  match width with
  | O => ""
  | S w => digits w (n / 10) +:+ String (digit (n mod 10)) ""
  end.

(** The year field: four digits, or a sign and six digits. *)
Definition year_string (y : Z) : string :=
  if (0 <=? y) && (y <=? 9999) then digits 4 y
  else if y <? 0 then "-" +:+ digits 6 (- y)
  else "+" +:+ digits 6 y.

Definition invalid_time : jserror :=
  {| err_name := "RangeError"; err_message := "Invalid time value"; err_response := None |}.

(** [new Date(t).toISOString()] *)
Definition iso_string (t : Z) : outcome jserror string :=
  match time_clip t with
  | None => Throw invalid_time
  | Some t =>
      let day := t / ms_per_day in
      let ms := t mod ms_per_day in
      let '(y, m, d) := civil_from_days day in
      Ok (year_string y +:+ "-" +:+ digits 2 m +:+ "-" +:+ digits 2 d +:+ "T" +:+
          digits 2 (ms / 3600000) +:+ ":" +:+ digits 2 (ms / 60000 mod 60) +:+ ":" +:+
          digits 2 (ms / 1000 mod 60) +:+ "." +:+ digits 3 (ms mod 1000) +:+ "Z")
  end.

Example iso_epoch : iso_string 0 = Ok "1970-01-01T00:00:00.000Z".
Proof. reflexivity. Qed.

Example iso_2023 : iso_string 1700000000000 = Ok "2023-11-14T22:13:20.000Z".
Proof. reflexivity. Qed.

Example iso_leap_day : iso_string 951782400000 = Ok "2000-02-29T00:00:00.000Z".
Proof. reflexivity. Qed.

Example iso_before_epoch : iso_string (-1) = Ok "1969-12-31T23:59:59.999Z".
Proof. reflexivity. Qed.

Example iso_extended : iso_string max_time = Ok "+275760-09-13T00:00:00.000Z".
Proof. reflexivity. Qed.

Example iso_out_of_range : iso_string (max_time + 1) = Throw invalid_time.
Proof. reflexivity. Qed.

(** ** The calendar of ECMA-262

    The standard defines the date of a time value declaratively (21.4.1):
    [DayFromYear(y)] is the day number of January 1st of [y], the year of
    a day is the largest [y] whose first day is not after it
    ([YearFromTime]), and the month and date follow from the day within
    the year and [InLeapYear] by the table of month lengths
    ([MonthFromTime], [DateFromTime]).  [civil_from_days] computes the
    same date by 400-year eras instead. *)

Definition DayFromYear (y : Z) : Z :=
  365 * (y - 1970) + (y - 1969) / 4 - (y - 1901) / 100 + (y - 1601) / 400.

Definition InLeapYear (y : Z) : bool :=
  (y mod 4 =? 0) && (negb (y mod 100 =? 0) || (y mod 400 =? 0)).

(** The days of the year before the first of month [m] (1-12). *)
Definition month_start (leap : bool) (m : Z) : Z :=
  nth (Z.to_nat (m - 1)) [0; 31; 59; 90; 120; 151; 181; 212; 243; 273; 304; 334] 0 +
  (if leap && (3 <=? m) then 1 else 0).

Definition days_in_month (leap : bool) (m : Z) : Z :=
  nth (Z.to_nat (m - 1)) [31; 28; 31; 30; 31; 30; 31; 31; 30; 31; 30; 31] 0 +
  (if leap && (m =? 2) then 1 else 0).

(** [(y, m, d)] is the date of day [z] in the standard's calendar. *)
Definition ecma_date (z : Z) (ymd : Z * Z * Z) : bool :=
  let '(y, m, d) := ymd in
  (DayFromYear y <=? z) && (z <? DayFromYear (y + 1)) &&
  (1 <=? m) && (m <=? 12) && (1 <=? d) && (d <=? days_in_month (InLeapYear y) m) &&
  (z =? DayFromYear y + month_start (InLeapYear y) m + d - 1).

(** *** The steps of [civil_from_days]

    A day [z] is [z + 719468] days after 0000-03-01; its era of 400
    years is [(z + 719468) / 146097] and [doe] its day in the era.  The
    year of the era (counted from March) is [year_of_era doe], and the
    day [doy] of that year gives the month and the date by
    [month_day]. *)
Definition era_start (Y : Z) : Z := 365 * Y + Y / 4 - Y / 100 + Y / 400.

Definition year_of_era (doe : Z) : Z := (doe - doe / 1460 + doe / 36524 - doe / 146096) / 365.

Definition month_day (doy : Z) : Z * Z :=
  let mp := (5 * doy + 2) / 153 in
  (if mp <? 10 then mp + 3 else mp - 9, doy - (153 * mp + 2) / 5 + 1).

Definition b2z (b : bool) : Z := if b then 1 else 0.

(** [p] holds of [0 .. n-1]. *)
Fixpoint all_below (n : nat) (p : Z -> bool) : bool :=
  match n with O => true | S n' => p (Z.of_nat n') && all_below n' p end.

(** What a year of the era must satisfy: [year_of_era] maps its first
    and last day to it, and its first of March, its first of January
    and its length agree with [DayFromYear] and [InLeapYear]. *)
Definition year_ok (Y : Z) : bool :=
  (year_of_era (era_start Y) =? Y) && (year_of_era (era_start (Y + 1) - 1) =? Y) &&
  (DayFromYear Y + 59 + b2z (InLeapYear Y) =? era_start Y - 719468) &&
  (DayFromYear (Y + 1) =? era_start Y + 306 - 719468) &&
  (era_start (Y + 1) - era_start Y =? 365 + b2z (InLeapYear (Y + 1))) &&
  (DayFromYear (Y + 2) =? DayFromYear (Y + 1) + 365 + b2z (InLeapYear (Y + 1))).

(** What a day of the year (from March) must satisfy, in a leap year
    or not: [month_day] gives a month and a date of the standard's
    month table. *)
Definition doy_ok_for (b : bool) (doy : Z) : bool :=
  let '(m, d) := month_day doy in
  (1 <=? d) && (1 <=? m) && (m <=? 12) &&
  (if doy <? 306 then
     (3 <=? m) && (month_start b m + d - 1 =? doy + 59 + b2z b) && (d <=? days_in_month b m)
   else
     (m <=? 2) && (month_start b m + d - 1 =? doy - 306) &&
     (negb (doy <? 365 + b2z b) || (d <=? days_in_month b m))).

Definition doy_ok (doy : Z) : bool := doy_ok_for true doy && doy_ok_for false doy.

Lemma all_below_spec n p i : all_below n p = true -> 0 <= i < Z.of_nat n -> p i = true.
Proof.
  induction n as [|n IH]; cbn; intros Hn Hi; [lia|]. apply andb_true_iff in Hn as [Hp Hn].
  destruct (Z.eq_dec i (Z.of_nat n)) as [->|]; [done|]. apply IH; [done|lia].
Qed.

Lemma years_ok : all_below 400 year_ok = true.
Proof. vm_compute. reflexivity. Qed.

Lemma doys_ok : all_below 366 doy_ok = true.
Proof. vm_compute. reflexivity. Qed.

Lemma year_of_era_step x : 0 <= x < 146096 -> year_of_era x <= year_of_era (x + 1).
Proof. intros Hx. unfold year_of_era. apply Z.div_le_mono; [lia|]. Z.div_mod_to_equations. lia. Qed.

Lemma year_of_era_mono a b : 0 <= a <= b -> b <= 146096 -> year_of_era a <= year_of_era b.
Proof.
  intros Hab Hb. replace b with (a + Z.of_nat (Z.to_nat (b - a))) in * by lia.
  induction (Z.to_nat (b - a)) as [|n IH]; [rewrite Z.add_0_r; lia|].
  etransitivity; [apply IH; lia|].
  replace (a + Z.of_nat (S n)) with (a + Z.of_nat n + 1) by lia. apply year_of_era_step. lia.
Qed.

Lemma year_ok_at Y : 0 <= Y < 400 -> year_ok Y = true.
Proof. intros HY. apply (all_below_spec 400); [exact years_ok|lia]. Qed.

Lemma era_start_bounds Y : 0 <= Y <= 400 -> 0 <= era_start Y <= 146097.
Proof. intros HY. unfold era_start. Z.div_mod_to_equations. lia. Qed.

(** [year_of_era] finds the year of the era a day belongs to. *)
Lemma year_of_era_spec doe :
  0 <= doe < 146097 ->
  0 <= year_of_era doe < 400 /\ era_start (year_of_era doe) <= doe < era_start (year_of_era doe + 1).
Proof.
  intros Hd. set (Y := year_of_era doe).
  assert (H0 : 0 <= Y) by (change 0 with (year_of_era 0); apply year_of_era_mono; lia).
  assert (H1 : Y < 400) by
    (enough (year_of_era 146096 = 399) by (pose proof (year_of_era_mono doe 146096); lia); reflexivity).
  split; [lia|]. split.
  - destruct (Z.eq_dec Y 0) as [HY0|HY]; [rewrite HY0; change (era_start 0) with 0; lia|].
    destruct (Z_le_gt_dec (era_start Y) doe) as [|Hlt]; [done|exfalso].
    pose proof (year_ok_at (Y - 1) ltac:(lia)) as Hok. unfold year_ok in Hok.
    repeat rewrite andb_true_iff in Hok. destruct Hok as [[[[[_ Hl] _] _] _] _].
    apply Z.eqb_eq in Hl. replace (Y - 1 + 1) with Y in Hl by lia.
    pose proof (era_start_bounds Y ltac:(lia)).
    pose proof (year_of_era_mono doe (era_start Y - 1)). unfold Y in *. lia.
  - destruct (Z.eq_dec Y 399) as [HY|HY]; [rewrite HY; change (era_start (399 + 1)) with 146097; lia|].
    destruct (Z_lt_ge_dec doe (era_start (Y + 1))) as [|Hge]; [done|exfalso].
    pose proof (year_ok_at (Y + 1) ltac:(lia)) as Hok. unfold year_ok in Hok.
    repeat rewrite andb_true_iff in Hok. destruct Hok as [[[[[Hf _] _] _] _] _].
    apply Z.eqb_eq in Hf. pose proof (era_start_bounds (Y + 1) ltac:(lia)).
    pose proof (year_of_era_mono (era_start (Y + 1)) doe). unfold Y in *. lia.
Qed.

(** The calendar repeats every 400 years, which have 146097 days. *)
Lemma DayFromYear_era y k : DayFromYear (y + k * 400) = DayFromYear y + k * 146097.
Proof. unfold DayFromYear. Z.div_mod_to_equations. lia. Qed.

Lemma InLeapYear_era y k : InLeapYear (y + k * 400) = InLeapYear y.
Proof.
  unfold InLeapYear.
  replace ((y + k * 400) mod 4) with (y mod 4) by (Z.div_mod_to_equations; lia).
  replace ((y + k * 400) mod 100) with (y mod 100) by (Z.div_mod_to_equations; lia).
  replace ((y + k * 400) mod 400) with (y mod 400) by (Z.div_mod_to_equations; lia).
  reflexivity.
Qed.

Lemma doy_ok_at b doy : 0 <= doy < 366 -> doy_ok_for b doy = true.
Proof.
  intros Hd. pose proof (all_below_spec 366 doy_ok doy doys_ok ltac:(lia)) as H.
  unfold doy_ok in H. apply andb_true_iff in H as [Ht Hf]. by destruct b.
Qed.

(** The check of the runtime model against ECMA-262: [toISOString]'s
    date computation is the standard's calendar:
    for every day number [z] (days from 1970-01-01, of either sign), the
    year, month and date [civil_from_days] computes are those ECMA-262
    defines: [z] falls in the year [y] ([DayFromYear y <= z <
    DayFromYear (y + 1)], i.e. [y = YearFromTime]), the month is in
    1..12, the date within the month's length in that year, and [z] is
    the day of that date. *)
Theorem civil_from_days_ecma (z : Z) : ecma_date z (civil_from_days z) = true.
Proof.
  change (civil_from_days z) with
    (let era := (z + 719468) / 146097 in
     let doe := z + 719468 - era * 146097 in
     let Y := year_of_era doe in
     let '(m, d) := month_day (doe - (365 * Y + Y / 4 - Y / 100)) in
     (if m <=? 2 then Y + era * 400 + 1 else Y + era * 400, m, d)).
  cbv zeta.
  set (era := (z + 719468) / 146097). set (doe := z + 719468 - era * 146097).
  assert (Hdoe : 0 <= doe < 146097) by (unfold doe, era; Z.div_mod_to_equations; lia).
  destruct (year_of_era_spec doe Hdoe) as [HY [Hlo Hhi]]. set (Y := year_of_era doe) in *.
  replace (365 * Y + Y / 4 - Y / 100) with (era_start Y)
    by (unfold era_start; rewrite (Z.div_small Y 400) by lia; lia).
  set (doy := doe - era_start Y).
  assert (Hz : z = era * 146097 + era_start Y + doy - 719468) by (unfold doy, doe; lia).
  assert (Hdy : doy = doe - era_start Y) by reflexivity.
  pose proof (year_ok_at Y HY) as Hok. unfold year_ok in Hok.
  rewrite !andb_true_iff, !Z.eqb_eq in Hok. destruct Hok as [[[[[_ _] Ha] Hb] Hc] Hd].
  assert (Hdoy : 0 <= doy < 366) by (unfold doy; destruct (InLeapYear (Y + 1)); cbn in Hc; lia).
  pose proof (DayFromYear_era Y era) as D0. pose proof (DayFromYear_era (Y + 1) era) as D1.
  pose proof (DayFromYear_era (Y + 2) era) as D2.
  pose proof (InLeapYear_era Y era) as L0. pose proof (InLeapYear_era (Y + 1) era) as L1.
  replace (Y + 1 + era * 400) with (Y + era * 400 + 1) in D1, L1 by lia.
  replace (Y + 2 + era * 400) with (Y + era * 400 + 1 + 1) in D2 by lia.
  destruct (month_day doy) as [m d] eqn:Hmd.
  pose proof (doy_ok_at (InLeapYear Y) doy Hdoy) as Hm0.
  pose proof (doy_ok_at (InLeapYear (Y + 1)) doy Hdoy) as Hm1.
  unfold doy_ok_for in Hm0, Hm1. rewrite Hmd in Hm0, Hm1.
  unfold ecma_date. destruct (Z.ltb_spec doy 306) as [Hs|Hs].
  - cbv iota in Hm0, Hm1.
    rewrite (proj2 (Z.leb_gt m 2)) by (zbool; lia). rewrite D0, D1, L0.
    destruct (InLeapYear Y); cbn [b2z] in *; zbool; lia.
  - cbv iota in Hm0, Hm1.
    rewrite (proj2 (Z.leb_le m 2)) by (zbool; lia). rewrite D1, D2, L1.
    destruct (InLeapYear (Y + 1)); cbn [b2z] in *; zbool; lia.
Qed.

