(* ===== verification/Braintree.v ===== *)
(** * The Braintree integration (src/routes/braintree.js)

    [BraintreeGateway] is the interface of the Braintree SDK client that
    src/config/braintree.js constructs ([gateway]): one operation per SDK
    call the routes make, each a step of the gateway's state [G] that
    resolves with a result object or rejects.  [Config] translates the
    options src/config/braintree.js builds the client with; [Routes]
    translates, generically in [G], the four async helpers of
    src/routes/braintree.js (lines 6-85) and its five route handlers
    (lines 88-166).  [BraintreeContract] states what the routes rely on
    from the processor (a subscription that was created or updated can be
    found with the same id and the new token), and the theorems of the
    module are proved against it. *)

From S2P Require Import Prelude Js.

Open Scope string_scope.

(** ** The SDK client, as an interface *)

Class BraintreeGateway (G : Type) := {
  customer_create : jsval -> G -> outcome jserror jsval * G;
  subscription_create : jsval -> G -> outcome jserror jsval * G;
  subscription_find : jsval -> G -> outcome jserror jsval * G;
  subscription_update : jsval -> jsval -> G -> outcome jserror jsval * G;
  paymentMethod_create : jsval -> G -> outcome jserror jsval * G;
  clientToken_generate : G -> outcome jserror jsval * G
}.

(** ** src/config/braintree.js *)

(** [gateway_keeps I]: every SDK operation keeps the invariant [I] of
    the processor's state. *)
Definition gateway_keeps {G} `{!BraintreeGateway G} (I : G -> Prop) : Prop :=
  (forall p, op_keeps I (customer_create p)) /\ (forall p, op_keeps I (subscription_create p)) /\
  (forall id, op_keeps I (subscription_find id)) /\
  (forall id p, op_keeps I (subscription_update id p)) /\
  (forall p, op_keeps I (paymentMethod_create p)) /\ op_keeps I clientToken_generate.

Module Config.

Inductive environment := Sandbox | Production.

(** The options of [new braintree.BraintreeGateway({...})]. *)
Record gateway_options := mk_gateway_options {
  gw_environment : environment;
  gw_merchantId : jsval;
  gw_publicKey : jsval;
  gw_privateKey : jsval
}.

(** [gateway] (lines 4-9): [process.env.BRAINTREE_MODE == 'sandbox']
    chooses the sandbox ([==] and [===] agree on a string or [undefined]
    against a string); the keys are read as they are, [undefined] when
    unset. *)
Definition gateway_options_of (e : env) : gateway_options :=
  mk_gateway_options
    (if js_eq_str (process_env e "BRAINTREE_MODE") "sandbox" then Sandbox else Production)
    (process_env e "BRAINTREE_MERCHANT_ID") (process_env e "BRAINTREE_PUBLIC_KEY")
    (process_env e "BRAINTREE_PRIVATE_KEY").

(** What [new braintree.BraintreeGateway(...)] does with these options
    before the module can export [gateway]: the SDK's [Config]
    constructor reads the key credentials and throws a
    [configurationError] for the first one that is falsy ([undefined]
    when the variable is unset, or the empty string), checking the
    public key, the private key and the merchant id in that order.  The
    environment is never missing here: both branches of line 5 give one
    of the SDK's environment objects. *)
Definition missing_credential (o : gateway_options) : option string :=
  if negb (truthy (gw_publicKey o)) then Some "publicKey"
  else if negb (truthy (gw_privateKey o)) then Some "privateKey"
  else if negb (truthy (gw_merchantId o)) then Some "merchantId"
  else None.

Definition configuration_error (message : string) : jserror :=
  {| err_name := "configurationError"; err_message := message; err_response := None |}.

(** Loading src/config/braintree.js (lines 4-9): the construction of
    [gateway] from the environment, which throws at load time. *)
Definition BraintreeGateway_new (e : env) : outcome jserror unit :=
  match missing_credential (gateway_options_of e) with
  | Some k => Throw (configuration_error ("Missing " +:+ k))
  | None => Ok tt
  end.

(** The construction fails exactly when one of the three variables is
    unset or empty. *)
Lemma BraintreeGateway_new_ok e :
  BraintreeGateway_new e = Ok tt <->
  truthy (process_env e "BRAINTREE_PUBLIC_KEY") = true /\
  truthy (process_env e "BRAINTREE_PRIVATE_KEY") = true /\
  truthy (process_env e "BRAINTREE_MERCHANT_ID") = true.
Proof.
  unfold BraintreeGateway_new, missing_credential, gateway_options_of. cbn [gw_publicKey gw_privateKey gw_merchantId].
  repeat match goal with |- context [truthy ?v] => destruct (truthy v) end; cbn; intuition congruence.
Qed.
End Config.

Module Routes.
Section Routes.
Context {G : Type} `{!BraintreeGateway G}.

(** The subscription terms of [createSubscription] (lines 29-40). *)
Definition subscription_params (paymentMethodToken : jsval) : jsval :=
  JObj [("paymentMethodToken", paymentMethodToken);
        ("merchantAccountId", JStr "byyn8rvkn643n9c6_USD");
        ("price", JStr "10.00");
        ("currencyIsoCode", JStr "USD");
        ("recurring", JBool true);
        ("billingDayOfMonth", JNum 1);
        ("options", JObj [("startImmediately", JBool true)]);
        ("numberOfBillingCycles", JNum 0)].

(** [catch (error) { console.error(label, error.message, error.stack); throw error; }] *)
Definition log_rethrow {A} (label : string) (error : jserror) : JS G A :=
  console_error [JStr label; error_message error; error_stack error] ;;;
  throw error.

(** [createCustomerWithPayment(nonce)] (lines 6-23). *)
Definition createCustomerWithPayment (nonce : jsval) : JS G jsval :=
  console_log [JStr "Attempting to create customer with nonce:"; nonce] ;;;
  catch
    (let* result := call (customer_create (JObj [("paymentMethodNonce", nonce)])) in
     let* success := get result "success" in
     (if negb (truthy success) then
        let* message := get result "message" in
        let* errors := get result "errors" in
        console_error [JStr "Customer creation failed:"; message; errors] ;;;
        throw (new_error (js_or message (JStr "Customer creation failed")))
      else ret tt) ;;;
     let* customer := get result "customer" in
     let* customer_id := get customer "id" in
     console_log [JStr "Customer created successfully:"; customer_id] ;;;
     let* methods := get customer "paymentMethods" in
     let* first := index methods 0 in
     console_log [JStr "Payment method:"; first] ;;;
     let* customer := get result "customer" in
     let* methods := get customer "paymentMethods" in
     let* first := index methods 0 in
     get first "token")
    (log_rethrow "Error in createCustomerWithPayment:").

(** [createSubscription(paymentMethodToken)] (lines 26-51). *)
Definition createSubscription (paymentMethodToken : jsval) : JS G jsval :=
  console_log [JStr "Attempting to create dynamic subscription with token:"; paymentMethodToken] ;;;
  catch
    (let* result := call (subscription_create (subscription_params paymentMethodToken)) in
     let* success := get result "success" in
     (if negb (truthy success) then
        let* message := get result "message" in
        let* errors := get result "errors" in
        console_error [JStr "Dynamic subscription creation failed:"; message; errors] ;;;
        let* message := get result "message" in
        throw (new_error message)
      else ret tt) ;;;
     let* subscription := get result "subscription" in
     let* id := get subscription "id" in
     console_log [JStr "Dynamic subscription created successfully:"; id] ;;;
     let* subscription := get result "subscription" in
     get subscription "id")
    (log_rethrow "Error in createSubscription:").

(** [checkSubscriptionStatus(subscriptionId)] (lines 54-57). *)
Definition checkSubscriptionStatus (subscriptionId : jsval) : JS G jsval :=
  call (subscription_find subscriptionId).

(** [updatePaymentMethod(subscriptionId, newNonce)] (lines 60-85). *)
Definition updatePaymentMethod (subscriptionId newNonce : jsval) : JS G jsval :=
  console_log [JStr "Attempting to update payment method for subscription:"; subscriptionId;
               JStr "with nonce:"; newNonce] ;;;
  catch
    (let* paymentResult := call (paymentMethod_create (JObj [("paymentMethodNonce", newNonce)])) in
     let* success := get paymentResult "success" in
     (if negb (truthy success) then
        let* message := get paymentResult "message" in
        let* errors := get paymentResult "errors" in
        console_error [JStr "Payment method creation failed:"; message; errors] ;;;
        let* message := get paymentResult "message" in
        throw (new_error message)
      else ret tt) ;;;
     let* paymentMethod := get paymentResult "paymentMethod" in
     let* newPaymentMethodToken := get paymentMethod "token" in
     let* updateResult :=
       call (subscription_update subscriptionId
               (JObj [("paymentMethodToken", newPaymentMethodToken)])) in
     let* success := get updateResult "success" in
     (if negb (truthy success) then
        let* message := get updateResult "message" in
        let* errors := get updateResult "errors" in
        console_error [JStr "Subscription update failed:"; message; errors] ;;;
        let* message := get updateResult "message" in
        throw (new_error message)
      else ret tt) ;;;
     console_log [JStr "Payment method updated successfully for subscription:"; subscriptionId] ;;;
     get updateResult "subscription")
    (log_rethrow "Error in updatePaymentMethod:").

(** [catch (error) { console.error(label, ...); res.status(500).json({ error: error.message }); }] *)
Definition respond_500 (label : string) (error : jserror) : JS G response :=
  console_error [JStr label; error_message error; error_stack error] ;;;
  ret (res_status_json 500 (JObj [("error", error_message error)])).

(** [POST /subscribe] (lines 88-103). *)
Definition route_subscribe (req : request) : JS G response :=
  let* paymentMethodNonce := destructure "req.body" (req_body req) "paymentMethodNonce" in
  console_log [JStr "Received nonce:"; paymentMethodNonce] ;;;
  catch
    (console_log [JStr "Step 1: Creating customer with payment method..."] ;;;
     let* paymentMethodToken := createCustomerWithPayment paymentMethodNonce in
     console_log [JStr "Step 2: Payment method token obtained:"; paymentMethodToken] ;;;
     console_log [JStr "Step 3: Creating subscription..."] ;;;
     let* subscriptionId := createSubscription paymentMethodToken in
     console_log [JStr "Step 4: Subscription ID:"; subscriptionId] ;;;
     ret (res_json (JObj [("subscriptionId", subscriptionId);
                          ("message", JStr "Braintree subscription created successfully.")])))
    (respond_500 "Error in subscribe:").

(** The projection of [GET /check-subscription/:subscriptionId]
    (lines 109-121). *)
Definition snapshot (subscription : jsval) : JS G jsval :=
  let* id := get subscription "id" in
  let* status := get subscription "status" in
  let* nextBillingDate := get subscription "nextBillingDate" in
  let* paymentMethodToken := get subscription "paymentMethodToken" in
  let* amount := get subscription "price" in
  let* currency := get subscription "currencyIsoCode" in
  let* cyclesCompleted := get subscription "billingCyclesCompleted" in
  let* totalCycles := get subscription "numberOfBillingCycles" in
  let* failureCount := get subscription "failureCount" in
  let* createdAt := get subscription "createdAt" in
  let* updatedAt := get subscription "updatedAt" in
  ret (JObj [("id", id); ("status", status); ("nextBillingDate", nextBillingDate);
             ("paymentMethodToken", paymentMethodToken); ("amount", amount);
             ("currency", currency); ("cyclesCompleted", cyclesCompleted);
             ("totalCycles", totalCycles); ("failureCount", failureCount);
             ("createdAt", createdAt); ("updatedAt", updatedAt)]).

(** [GET /check-subscription/:subscriptionId] (lines 105-126). *)
Definition route_check_subscription (req : request) : JS G response :=
  let* subscriptionId := destructure "req.params" (req_params req) "subscriptionId" in
  catch
    (let* subscription := checkSubscriptionStatus subscriptionId in
     let* body := snapshot subscription in
     ret (res_json body))
    (respond_500 "Error checking subscription status:").

(** [POST /update-card/:subscriptionId] (lines 128-143). *)
Definition route_update_card (req : request) : JS G response :=
  let* subscriptionId := destructure "req.params" (req_params req) "subscriptionId" in
  let* paymentMethodNonce := destructure "req.body" (req_body req) "paymentMethodNonce" in
  console_log [JStr "Received request to update card for subscription:"; subscriptionId;
               JStr "with nonce:"; paymentMethodNonce] ;;;
  catch
    (let* updatedSubscription := updatePaymentMethod subscriptionId paymentMethodNonce in
     let* id := get updatedSubscription "id" in
     let* token := get updatedSubscription "paymentMethodToken" in
     ret (res_json (JObj [("message", JStr "Braintree payment method updated successfully.");
                          ("subscriptionId", id); ("paymentMethodToken", token)])))
    (respond_500 "Error updating card:").

(** [GET /test-connection] (lines 145-154). *)
Definition route_test_connection (req : request) : JS G response :=
  catch
    (let* result := call clientToken_generate in
     let* clientToken := get result "clientToken" in
     console_log [JStr "Client token generated:"; clientToken] ;;;
     let* clientToken := get result "clientToken" in
     ret (res_json (JObj [("message", JStr "Braintree API connection successful");
                          ("clientToken", clientToken)])))
    (respond_500 "Connection test error:").

(** [POST /test-subscription] (lines 156-166). *)
Definition route_test_subscription (req : request) : JS G response :=
  let* paymentMethodToken := destructure "req.body" (req_body req) "paymentMethodToken" in
  console_log [JStr "Testing subscription creation with token:"; paymentMethodToken] ;;;
  catch
    (let* subscriptionId := createSubscription paymentMethodToken in
     ret (res_json (JObj [("subscriptionId", subscriptionId);
                          ("message", JStr "Subscription created successfully.")])))
    (respond_500 "Test subscription error:").
(** The router (lines 88-166): [router.post('/subscribe', ...)], ... *)
Inductive route :=
  | Subscribe | CheckSubscription | UpdateCard | TestConnection | TestSubscription.

Definition handle (r : route) : request -> JS G response :=
  match r with
  | Subscribe => route_subscribe
  | CheckSubscription => route_check_subscription
  | UpdateCard => route_update_card
  | TestConnection => route_test_connection
  | TestSubscription => route_test_subscription
  end.
End Routes.

(** ** What the routes need from the processor *)

(** The statuses a Braintree subscription can have. *)
Definition subscription_statuses : list string :=
  ["Active"; "Canceled"; "Expired"; "Past Due"; "Pending"].

(** The shape of SDK results, read the way the helpers read them. *)
Definition succeeded (r : jsval) : Prop :=
  exists s, js_get r "success" = Ok s /\ truthy s = true.

Definition failed (r message : jsval) : Prop :=
  exists s errors, js_get r "success" = Ok s /\ truthy s = false /\
    js_get r "message" = Ok message /\ js_get r "errors" = Ok errors.

(** [r.customer] has an id and [r.customer.paymentMethods] is [methods]. *)
Definition customer_with (r methods : jsval) : Prop :=
  exists c cid, js_get r "customer" = Ok c /\ js_get c "id" = Ok cid /\
    js_get c "paymentMethods" = Ok methods.

(** [r.customer.paymentMethods[0].token] is [token]. *)
Definition first_token (r token : jsval) : Prop :=
  exists methods pm, customer_with r methods /\ js_index methods 0 = Ok pm /\
    js_get pm "token" = Ok token.

(** [r.subscription] is [sub] and [r.subscription.id] is [id]. *)
Definition subscription_with (r sub id : jsval) : Prop :=
  js_get r "subscription" = Ok sub /\ js_get sub "id" = Ok id.

(** The contract of the processor the routes rely on: finding a
    subscription changes nothing and yields an object whose id is a
    string and whose status is one of [subscription_statuses]; a
    subscription just created, or just updated, is found as the SDK
    returned it, and an update keeps the id and installs the token it was
    given. *)
Class BraintreeContract (G : Type) `{!BraintreeGateway G} : Prop := {
  find_readonly id g o g' :
    subscription_find id g = (o, g') -> g' = g;
  find_shape id g sub g' :
    subscription_find id g = (Ok sub, g') ->
    (exists s, js_get sub "id" = Ok (JStr s)) /\
    (exists st, js_get sub "status" = Ok (JStr st) /\ st ∈ subscription_statuses);
  create_then_find p g r g' sub id :
    subscription_create p g = (Ok r, g') -> succeeded r -> subscription_with r sub id ->
    subscription_find id g' = (Ok sub, g');
  update_then_find id p g r g' sub :
    subscription_update id p g = (Ok r, g') -> succeeded r -> js_get r "subscription" = Ok sub ->
    subscription_find id g' = (Ok sub, g') /\ js_get sub "id" = Ok id /\
    js_get sub "paymentMethodToken" = js_get p "paymentMethodToken"
  }.

(** ** Properties of the routes, for every gateway *)

Section Properties.
Context {G : Type} `{!BraintreeGateway G}.

Lemma nothrow_respond_500 label e : nothrow (respond_500 (G:=G) label e).
Proof. unfold respond_500. apply nothrow_bind; [apply nothrow_console | auto with vp]. Qed.

Lemma post_respond_500 (P : response -> Prop) label e :
  P (res_status_json 500 (JObj [("error", error_message e)])) ->
  post P (respond_500 (G:=G) label e).
Proof. intros HP. unfold respond_500. auto with vp. Qed.

#[local] Hint Resolve nothrow_respond_500 post_respond_500 : vp.

(** C1: every route answers every well-formed request: no handler of
    the Braintree router lets an exception escape (an escaping
    exception would leave the HTTP request without a response). *)
Theorem braintree_routes_total (r : route) (req : request) :
  well_formed req -> nothrow (handle r req).
Proof.
  intros [Hp Hb]. destruct r; simpl; solve_nothrow.
Qed.

(** C2: every response of the Braintree router is a success (status
    200) or a status-500 response whose body is [{ error: message }] with
    the error's message as a string: the processor's error payload
    ([result.errors]) never reaches the client. *)
Theorem braintree_error_bodies (r : route) (req : request) :
  post (fun resp => res_status resp = 200%Z \/
          exists m, resp = res_status_json 500 (JObj [("error", JStr m)]))
       (handle r req).
Proof.
  destruct r; simpl; unfold route_subscribe, route_check_subscription, route_update_card,
    route_test_connection, route_test_subscription;
    repeat first [ apply post_bind; intros | apply post_catch; intros
                 | apply post_respond_500; by right; eexists
                 | apply post_ret; first [by left | right; eexists; reflexivity] ].
Qed.

(** C3: [POST /subscribe] on a nonce the processor accepts: the customer
    is created, its first payment method's token is used to create the
    subscription, and the response carries the new subscription's id;
    the processor is left in the state of the second call. *)
Theorem subscribe_success req w nonce r1 g1 token r2 g2 sub sid :
  js_destructure "req.body" (req_body req) "paymentMethodNonce" = Ok nonce ->
  customer_create (JObj [("paymentMethodNonce", nonce)]) (w_proc w) = (Ok r1, g1) ->
  succeeded r1 -> first_token r1 token ->
  subscription_create (subscription_params token) g1 = (Ok r2, g2) ->
  succeeded r2 -> subscription_with r2 sub sid ->
  exists w', route_subscribe req w =
    (Ok (res_json (JObj [("subscriptionId", sid);
                         ("message", JStr "Braintree subscription created successfully.")])), w')
    /\ w_proc w' = g2.
Proof.
  intros Hn Hc [s1 [Hs1 Ht1]] (ms & pm & (c & cid & Hc1 & Hcid & Hms) & Hpm & Htok)
    Hsc [s2 [Hs2 Ht2]] [Hsub Hsid].
  unfold route_subscribe, createCustomerWithPayment, createSubscription.
  eexists; split; [vp_eval; reflexivity | reflexivity].
Qed.

(** C4: [POST /subscribe] when the processor rejects the nonce: the
    response is a 500 whose error is the processor's message, or
    "Customer creation failed" when that message is empty; no
    subscription is created (the processor is left as the customer call
    left it, whatever [subscription.create] would do). *)
Theorem subscribe_customer_rejected req w nonce r1 g1 message :
  js_destructure "req.body" (req_body req) "paymentMethodNonce" = Ok nonce ->
  customer_create (JObj [("paymentMethodNonce", nonce)]) (w_proc w) = (Ok r1, g1) ->
  failed r1 message ->
  exists w', route_subscribe req w =
    (Ok (res_status_json 500 (JObj [("error", JStr
           (if truthy message then js_to_string message else "Customer creation failed"))])), w')
    /\ w_proc w' = g1.
Proof.
  intros Hn Hc (s1 & errs & Hs1 & Ht1 & Hm & He).
  unfold route_subscribe, createCustomerWithPayment, respond_500, log_rethrow, js_or, new_error.
  destruct (truthy message) eqn:Htm; eexists; (split;
    [vp_eval; destruct message; by try vm_compute in Htm | reflexivity]).
Qed.

(** C5: [POST /subscribe] when the processor creates the customer without
    a payment method (no nonce in the body, or a nonce the processor
    vaults nowhere): [result.customer.paymentMethods[0].token] reads a
    property of [undefined], the client gets a 500 with that
    [TypeError]'s message, and the new customer stays on the processor. *)
Theorem subscribe_customer_without_method req w nonce r1 g1 :
  js_destructure "req.body" (req_body req) "paymentMethodNonce" = Ok nonce ->
  customer_create (JObj [("paymentMethodNonce", nonce)]) (w_proc w) = (Ok r1, g1) ->
  succeeded r1 -> customer_with r1 (JArr []) ->
  exists w', route_subscribe req w =
    (Ok (res_status_json 500 (JObj [("error",
           JStr "Cannot read properties of undefined (reading 'token')")])), w')
    /\ w_proc w' = g1.
Proof.
  intros Hn Hc [s1 [Hs1 Ht1]] (c & cid & Hc1 & Hcid & Hms).
  unfold route_subscribe, createCustomerWithPayment, respond_500, log_rethrow.
  eexists; split; [vp_eval; reflexivity | reflexivity].
Qed.

(** C6: [POST /update-card/:subscriptionId] when both processor calls
    succeed: a payment method is vaulted from the nonce, the
    subscription is switched to its token, and the response reports the
    updated subscription's id and token. *)
Theorem update_card_success req w sid nonce r1 g1 pm token r2 g2 sub id' token' :
  js_destructure "req.params" (req_params req) "subscriptionId" = Ok sid ->
  js_destructure "req.body" (req_body req) "paymentMethodNonce" = Ok nonce ->
  paymentMethod_create (JObj [("paymentMethodNonce", nonce)]) (w_proc w) = (Ok r1, g1) ->
  succeeded r1 -> js_get r1 "paymentMethod" = Ok pm -> js_get pm "token" = Ok token ->
  subscription_update sid (JObj [("paymentMethodToken", token)]) g1 = (Ok r2, g2) ->
  succeeded r2 -> js_get r2 "subscription" = Ok sub ->
  js_get sub "id" = Ok id' -> js_get sub "paymentMethodToken" = Ok token' ->
  exists w', route_update_card req w =
    (Ok (res_json (JObj [("message", JStr "Braintree payment method updated successfully.");
                         ("subscriptionId", id'); ("paymentMethodToken", token')])), w')
    /\ w_proc w' = g2.
Proof.
  intros Hp Hn Hc [s1 [Hs1 Ht1]] Hpm Htok Hu [s2 [Hs2 Ht2]] Hsub Hid Htok'.
  unfold route_update_card, updatePaymentMethod.
  eexists; split; [vp_eval; reflexivity | reflexivity].
Qed.

(** C7: [POST /update-card/:subscriptionId] when the processor vaults the
    new payment method but rejects the update: the client gets a 500
    with the processor's message, and the processor keeps the new
    payment method although no subscription uses it (the two calls are
    not atomic and nothing compensates the first). *)
Theorem update_card_orphans_method req w sid nonce r1 g1 pm token r2 g2 message :
  js_destructure "req.params" (req_params req) "subscriptionId" = Ok sid ->
  js_destructure "req.body" (req_body req) "paymentMethodNonce" = Ok nonce ->
  paymentMethod_create (JObj [("paymentMethodNonce", nonce)]) (w_proc w) = (Ok r1, g1) ->
  succeeded r1 -> js_get r1 "paymentMethod" = Ok pm -> js_get pm "token" = Ok token ->
  subscription_update sid (JObj [("paymentMethodToken", token)]) g1 = (Ok r2, g2) ->
  failed r2 message ->
  exists w', route_update_card req w =
    (Ok (res_status_json 500 (JObj [("error", JStr (err_message (new_error message)))])), w')
    /\ w_proc w' = g2.
Proof.
  intros Hp Hn Hc [s1 [Hs1 Ht1]] Hpm Htok Hu (s2 & errs & Hs2 & Ht2 & Hm & He).
  unfold route_update_card, updatePaymentMethod, respond_500, log_rethrow.
  eexists; split; [vp_eval; reflexivity | reflexivity].
Qed.

(** *** Inversion of successful runs *)

(** A response of [POST /subscribe] that carries a subscription id was
    produced by a successful [subscription.create], whose result carries
    that id, and the processor has not moved since. *)
Lemma subscribe_inv req w resp w1 s :
  route_subscribe req w = (Ok resp, w1) ->
  js_get (res_body resp) "subscriptionId" = Ok (JStr s) ->
  exists token g r sub,
    subscription_create (subscription_params token) g = (Ok r, w_proc w1) /\
    succeeded r /\ subscription_with r sub (JStr s).
Proof.
  unfold route_subscribe, respond_500. intros H Hs. vp_invert H;
    rewrite js_get_json_obj in Hs by decide_lit; simplify_eq/=.
  unfold field in Hs; cbn in Hs. apply json_of_eq_str in Hs as ->.
  eexists _, _, _, _. split; [done|]. split; [|by split].
  eexists; split; [done|]. by apply negb_false_iff.
Qed.

(** A success of [POST /update-card/:subscriptionId] was produced by a
    successful [subscription.update] of the requested id, and the
    response reports the subscription that update returned. *)
Lemma update_card_inv req w resp w1 :
  route_update_card req w = (Ok resp, w1) -> res_status resp = 200%Z ->
  exists sid p g r2 sub,
    js_destructure "req.params" (req_params req) "subscriptionId" = Ok sid /\
    subscription_update sid p g = (Ok r2, w_proc w1) /\
    succeeded r2 /\ js_get r2 "subscription" = Ok sub /\
    resp = res_json (JObj [("message", JStr "Braintree payment method updated successfully.");
                           ("subscriptionId", prop sub "id");
                           ("paymentMethodToken", prop sub "paymentMethodToken")]).
Proof.
  unfold route_update_card, updatePaymentMethod, respond_500, log_rethrow.
  intros H Hst. vp_invert H.
  eexists _, _, _, _, _. split; [done|]. split; [done|].
  split; [eexists; split; [done|]; by apply negb_false_iff|]. split; [done|].
  unfold prop. by repeat match goal with E : js_get _ _ = _ |- _ => rewrite E end.
Qed.

(** The projection of [GET /check-subscription] on an object. *)
Lemma snapshot_fields sub :
  nullish sub = false ->
  exists fs, (forall w : world G, snapshot sub w = (Ok (JObj fs), w)) /\ NoDup fs.*1 /\
    field "id" fs = prop sub "id" /\ field "status" fs = prop sub "status" /\
    field "paymentMethodToken" fs = prop sub "paymentMethodToken".
Proof.
  intros Hn. eexists. split; [intros w; unfold snapshot; cbn; rewrite !js_get_prop by done;
    reflexivity|]. split; [decide_lit | done].
Qed.
(** C27: [GET /test-connection] on each answer of [clientToken.generate]:
    a token [tok] is logged and returned with the success message; a
    rejection is logged with its message and stack and answered 500 with
    its message.  Either way the processor is left as the call left it
    and nothing else is logged. *)
Theorem test_connection_answers req w :
  match clientToken_generate (w_proc w) with
  | (Ok r, g) => forall tok, js_get r "clientToken" = Ok tok ->
      route_test_connection req w =
        (Ok (res_json (JObj [("message", JStr "Braintree API connection successful");
                             ("clientToken", tok)])),
         mk_world g (w_log w ++ [mk_log LogInfo [JStr "Client token generated:"; tok]]) (w_clock w))
  | (Throw e, g) =>
      route_test_connection req w =
        (Ok (res_status_json 500 (JObj [("error", JStr (err_message e))])),
         mk_world g (w_log w ++ [mk_log LogError [JStr "Connection test error:"; error_message e;
                                                  error_stack e]]) (w_clock w))
  end.
Proof.
  unfold route_test_connection, respond_500.
  destruct (clientToken_generate (w_proc w)) as [[r|e] g] eqn:Hg; [intros tok Htok|]; vp_eval;
    reflexivity.
Qed.

(** C28: [POST /test-subscription] with a token the processor accepts:
    the subscription is created on that token and its id is returned;
    the processor is left as [subscription.create] left it. *)
Theorem test_subscription_success req w tok r g sub sid :
  js_destructure "req.body" (req_body req) "paymentMethodToken" = Ok tok ->
  subscription_create (subscription_params tok) (w_proc w) = (Ok r, g) ->
  succeeded r -> subscription_with r sub sid ->
  exists w', route_test_subscription req w =
    (Ok (res_json (JObj [("subscriptionId", sid);
                         ("message", JStr "Subscription created successfully.")])), w')
    /\ w_proc w' = g.
Proof.
  intros Ht Hc [s [Hs Hts]] [Hsub Hsid].
  unfold route_test_subscription, createSubscription.
  eexists; split; [vp_eval; reflexivity | reflexivity].
Qed.

(** C29: [POST /test-subscription] with a token the processor rejects:
    the client gets a 500 whose error is the processor's message (the
    empty string when it has none), and the processor is left as the
    rejected call left it. *)
Theorem test_subscription_rejected req w tok r g message :
  js_destructure "req.body" (req_body req) "paymentMethodToken" = Ok tok ->
  subscription_create (subscription_params tok) (w_proc w) = (Ok r, g) ->
  failed r message ->
  exists w', route_test_subscription req w =
    (Ok (res_status_json 500 (JObj [("error", error_message (new_error message))])), w')
    /\ w_proc w' = g.
Proof.
  intros Ht Hc (s & errs & Hs & Hts & Hm & He).
  unfold route_test_subscription, createSubscription, respond_500, log_rethrow.
  eexists; split; [vp_eval; reflexivity | reflexivity].
Qed.

(** *** Error lines *)

(** A route prints to [console.error] only on the way to a 500: every
    [console.error] of the helpers is followed by a [throw] (the failure
    branches, lines 13-14, 42-43, 67-68, 76-77, and the [catch] blocks,
    lines 19-22, 47-50, 81-84), and every one of a route by
    [res.status(500)] (lines 99-102, 122-125, 139-142, 150-153,
    162-165). *)
Lemma braintree_error_500 r req : error_500 (handle r req).
Proof.
  destruct r; cbn [handle]; unfold route_subscribe, route_check_subscription, route_update_card,
    route_test_connection, route_test_subscription, createCustomerWithPayment, createSubscription,
    checkSubscriptionStatus, updatePaymentMethod, respond_500, log_rethrow, snapshot;
    solve_guarded.
Qed.

End Properties.

#[export] Hint Resolve nothrow_respond_500 : vp.

(** ** Properties that rest on the processor's contract *)

Section Contract.
Context {G : Type} `{!BraintreeGateway G} `{!BraintreeContract G}.

(** What [GET /check-subscription/:id] answers for an id the processor
    finds. *)
Lemma check_found sid b w sub :
  subscription_find sid (w_proc w) = (Ok sub, w_proc w) ->
  exists fs w2,
    route_check_subscription (mk_request (JObj [("subscriptionId", sid)]) b) w =
      (Ok (res_json (JObj fs)), w2) /\ w_proc w2 = w_proc w /\
    js_get (json_of (JObj fs)) "id" = Ok (json_of (prop sub "id")) /\
    js_get (json_of (JObj fs)) "paymentMethodToken" = Ok (json_of (prop sub "paymentMethodToken")) /\
    exists st, js_get (json_of (JObj fs)) "status" = Ok (JStr st) /\ st ∈ subscription_statuses.
Proof.
  intros Hf. destruct (find_shape _ _ _ _ Hf) as [[s Hid] (st & Hst & Hin)].
  destruct (snapshot_fields (G:=G) sub) as (fs & Hsnap & Hnd & Hfid & Hfst & Hftok);
    [by eapply js_get_nullish|].
  exists fs. eexists. split.
  { unfold route_check_subscription, checkSubscriptionStatus.
    cbn -[snapshot]. autorewrite with vp. cbn -[snapshot]. rewrite Hf. cbn -[snapshot].
    rewrite Hsnap. reflexivity. }
  rewrite !js_get_json_obj by done. rewrite Hfid, Hfst, Hftok.
  split; [done|]. split; [done|]. split; [done|].
  exists st. unfold prop. by rewrite Hst.
Qed.

(** C8: a subscription id returned by [POST /subscribe] is found by a
    following [GET /check-subscription/:id]: the snapshot carries the
    same id and a status from Braintree's vocabulary, and checking
    changes nothing on the processor. *)
Theorem subscribe_then_check req w resp w1 s b :
  route_subscribe req w = (Ok resp, w1) ->
  js_get (res_body resp) "subscriptionId" = Ok (JStr s) ->
  exists fs w2,
    route_check_subscription (mk_request (JObj [("subscriptionId", JStr s)]) b) w1 =
      (Ok (res_json (JObj fs)), w2) /\ w_proc w2 = w_proc w1 /\
    js_get (json_of (JObj fs)) "id" = Ok (JStr s) /\
    exists st, js_get (json_of (JObj fs)) "status" = Ok (JStr st) /\ st ∈ subscription_statuses.
Proof.
  intros Hr Hs.
  destruct (subscribe_inv _ _ _ _ _ Hr Hs) as (token & g & r & sub & Hc & Hsucc & Hsub).
  pose proof (create_then_find _ _ _ _ _ _ Hc Hsucc Hsub) as Hf.
  destruct (check_found _ b _ _ Hf) as (fs & w2 & Hrun & Hw2 & Hid & _ & Hst).
  exists fs, w2. split; [done|]. split; [done|]. split; [|done].
  rewrite Hid. unfold prop. by destruct Hsub as [_ ->].
Qed.

(** C9: after [POST /update-card/:id] succeeds, [GET /check-subscription/:id]
    shows the same subscription id, and the payment-method token that
    update-card reported. *)
Theorem update_card_then_check req w resp w1 b :
  route_update_card req w = (Ok resp, w1) -> res_status resp = 200%Z ->
  exists sid fs w2,
    js_destructure "req.params" (req_params req) "subscriptionId" = Ok sid /\
    route_check_subscription (mk_request (JObj [("subscriptionId", sid)]) b) w1 =
      (Ok (res_json (JObj fs)), w2) /\
    js_get (json_of (JObj fs)) "id" = js_get (res_body resp) "subscriptionId" /\
    js_get (json_of (JObj fs)) "paymentMethodToken" = js_get (res_body resp) "paymentMethodToken" /\
    js_get (res_body resp) "subscriptionId" = Ok (json_of sid).
Proof.
  intros Hr Hst.
  destruct (update_card_inv _ _ _ _ Hr Hst) as (sid & p & g & r2 & sub & Hsid & Hupd & Hs2 & Hsub & ->).
  destruct (update_then_find _ _ _ _ _ _ Hupd Hs2 Hsub) as (Hf & Hid & _).
  destruct (check_found _ b _ _ Hf) as (fs & w2 & Hrun & _ & Hfid & Hftok & _).
  exists sid, fs, w2. cbn [res_body res_json].
  rewrite Hfid, Hftok, !js_get_json_obj by decide_lit. cbn.
  split; [done|]. split; [done|]. split; [done|]. split; [done|].
  unfold prop. by rewrite Hid.
Qed.
End Contract.
End Routes.
