(* ===== verification/SandboxBraintree.v ===== *)
(** * A reference Braintree gateway

    The Braintree service is not part of the repository: this file models
    the behaviour of its API that the routes depend on, as the Braintree
    documentation describes it, and instantiates [BraintreeGateway] with
    it.  Its state holds the single-use nonces the client SDK issued, the
    vaulted payment methods, the customers and the subscriptions, in
    stdpp finite maps; ids are drawn from a counter.  The instance
    satisfies [BraintreeContract], which shows that the contract the
    theorems of [Braintree] assume is consistent, and it is the concrete
    processor of the witnesses and of the scenarios of the spec.  Its
    operations keep [sb_wf] (every subscription is charged to a vaulted
    payment method), an instance of [gateway_keeps]. *)

From S2P Require Import Prelude Js Braintree.
Import Routes.
From stdpp Require Import gmap pretty.

Open Scope string_scope.

Inductive bt_status := Active | Canceled | Expired | PastDue | Pending.

#[export] Instance bt_status_eq_dec : EqDecision bt_status.
Proof. solve_decision. Defined.

Definition status_name (s : bt_status) : string :=
  match s with
  | Active => "Active" | Canceled => "Canceled" | Expired => "Expired"
  | PastDue => "Past Due" | Pending => "Pending"
  end.

Record bt_subscription := mk_sub {
  sub_status : bt_status;
  sub_token : string;
  sub_price : jsval;
  sub_currency : jsval;
  sub_cycles : jsval;
  sub_created : nat;
  sub_updated : nat
}.

Record sandbox := mk_sandbox {
  sb_nonces : gset string;                 (** issued, not yet consumed *)
  sb_methods : gmap string (option string); (** token -> owning customer *)
  sb_customers : gmap string (list string); (** customer -> its tokens *)
  sb_subs : gmap string bt_subscription;
  sb_next : nat;
  sb_require_customer : bool  (** [paymentMethod.create] needs [customerId] *)
}.

Module Sandbox.

Definition fresh (prefix : string) (g : sandbox) : string := prefix +:+ pretty (sb_next g).

Definition bump (g : sandbox) : sandbox :=
  mk_sandbox (sb_nonces g) (sb_methods g) (sb_customers g) (sb_subs g) (S (sb_next g))
    (sb_require_customer g).

Definition failure (message : string) : jsval :=
  JObj [("success", JBool false); ("message", JStr message); ("errors", JObj [])].

Definition encode (id : string) (s : bt_subscription) : jsval :=
  JObj [("id", JStr id); ("status", JStr (status_name (sub_status s)));
        ("paymentMethodToken", JStr (sub_token s)); ("price", sub_price s);
        ("currencyIsoCode", sub_currency s); ("numberOfBillingCycles", sub_cycles s);
        ("billingCyclesCompleted", JNum 0); ("failureCount", JNum 0);
        ("createdAt", JNum (Z.of_nat (sub_created s)));
        ("updatedAt", JNum (Z.of_nat (sub_updated s)))].

Definition not_found : jserror :=
  {| err_name := "notFoundError"; err_message := "Not Found"; err_response := None |}.

(** A valid nonce is consumed; the customer gets the payment method it
    vaults. Without a nonce the customer is created with no payment
    method. *)
Definition customer_create (p : jsval) (g : sandbox) : outcome jserror jsval * sandbox :=
  let cid := fresh "customer_" g in
  match prop p "paymentMethodNonce" with
  | JUndef =>
      (Ok (JObj [("success", JBool true);
                 ("customer", JObj [("id", JStr cid); ("paymentMethods", JArr [])])]),
       bump (mk_sandbox (sb_nonces g) (sb_methods g) (<[cid := []]> (sb_customers g))
               (sb_subs g) (sb_next g) (sb_require_customer g)))
  | JStr n =>
      if decide (n ∈ sb_nonces g) then
        let tok := fresh "token_" g in
        (Ok (JObj [("success", JBool true);
                   ("customer", JObj [("id", JStr cid);
                                      ("paymentMethods", JArr [JObj [("token", JStr tok)]])])]),
         bump (mk_sandbox (sb_nonces g ∖ {[n]}) (<[tok := Some cid]> (sb_methods g))
                 (<[cid := [tok]]> (sb_customers g)) (sb_subs g) (sb_next g)
                 (sb_require_customer g)))
      else (Ok (failure "Unknown or expired payment_method_nonce."), g)
  | _ => (Ok (failure "Unknown or expired payment_method_nonce."), g)
  end.

Definition subscription_create (p : jsval) (g : sandbox) : outcome jserror jsval * sandbox :=
  match prop p "paymentMethodToken" with
  | JStr tok =>
      if decide (is_Some (sb_methods g !! tok)) then
        let sid := fresh "sub_" g in
        let s := mk_sub Active tok (prop p "price") (prop p "currencyIsoCode")
                   (prop p "numberOfBillingCycles") (sb_next g) (sb_next g) in
        (Ok (JObj [("success", JBool true); ("subscription", encode sid s)]),
         bump (mk_sandbox (sb_nonces g) (sb_methods g) (sb_customers g)
                 (<[sid := s]> (sb_subs g)) (sb_next g) (sb_require_customer g)))
      else (Ok (failure "Payment method token is invalid."), g)
  | _ => (Ok (failure "Payment method token is invalid."), g)
  end.

Definition subscription_find (id : jsval) (g : sandbox) : outcome jserror jsval * sandbox :=
  match id with
  | JStr s => match sb_subs g !! s with
              | Some sub => (Ok (encode s sub), g)
              | None => (Throw not_found, g)
              end
  | _ => (Throw not_found, g)
  end.

Definition subscription_update (id p : jsval) (g : sandbox) : outcome jserror jsval * sandbox :=
  match id with
  | JStr s =>
      match sb_subs g !! s with
      | None => (Throw not_found, g)
      | Some sub =>
          if decide (sub_status sub = Canceled) then
            (Ok (failure "Cannot edit a canceled subscription."), g) else
          match prop p "paymentMethodToken" with
          | JStr tok =>
              if decide (is_Some (sb_methods g !! tok)) then
                let sub' := mk_sub (sub_status sub) tok (sub_price sub) (sub_currency sub)
                              (sub_cycles sub) (sub_created sub) (sb_next g) in
                (Ok (JObj [("success", JBool true); ("subscription", encode s sub')]),
                 bump (mk_sandbox (sb_nonces g) (sb_methods g) (sb_customers g)
                         (<[s := sub']> (sb_subs g)) (sb_next g) (sb_require_customer g)))
              else (Ok (failure "Payment method token is invalid."), g)
          | _ => (Ok (failure "Payment method token is invalid."), g)
          end
      end
  | _ => (Throw not_found, g)
  end.

Definition paymentMethod_create (p : jsval) (g : sandbox) : outcome jserror jsval * sandbox :=
  let owner := match prop p "customerId" with JStr c => Some c | _ => None end in
  if sb_require_customer g && bool_decide (owner = None) then
    (Ok (failure "Customer ID is required."), g)
  else
    match prop p "paymentMethodNonce" with
    | JStr n =>
        if decide (n ∈ sb_nonces g) then
          let tok := fresh "token_" g in
          (Ok (JObj [("success", JBool true); ("paymentMethod", JObj [("token", JStr tok)])]),
           bump (mk_sandbox (sb_nonces g ∖ {[n]}) (<[tok := owner]> (sb_methods g))
                   (sb_customers g) (sb_subs g) (sb_next g) (sb_require_customer g)))
        else (Ok (failure "Unknown or expired payment_method_nonce."), g)
    | _ => (Ok (failure "Unknown or expired payment_method_nonce."), g)
    end.

Definition clientToken_generate (g : sandbox) : outcome jserror jsval * sandbox :=
  (Ok (JObj [("success", JBool true); ("clientToken", JStr (fresh "client_token_" g))]), bump g).

#[export] Instance gateway : BraintreeGateway sandbox := {
  Braintree.customer_create := customer_create;
  Braintree.subscription_create := subscription_create;
  Braintree.subscription_find := subscription_find;
  Braintree.subscription_update := subscription_update;
  Braintree.paymentMethod_create := paymentMethod_create;
  Braintree.clientToken_generate := clientToken_generate
}.


(** Reads of the literal objects the sandbox returns. *)
Ltac js_simpl :=
  repeat (rewrite ?js_get_obj in *; unfold field, prop, truthy in *; cbn [assoc_lookup default] in *;
          simplify_eq/=).

Lemma encode_id s sub : js_get (encode s sub) "id" = Ok (JStr s).
Proof. reflexivity. Qed.

Lemma encode_token s sub :
  js_get (encode s sub) "paymentMethodToken" = Ok (JStr (sub_token sub)).
Proof. reflexivity. Qed.

Lemma failure_not_succeeded m : ~ succeeded (failure m).
Proof. intros (x & Hx & Ht). unfold failure in Hx. by js_simpl. Qed.

#[export] Instance contract : BraintreeContract sandbox.
Proof.
  split.
  - intros id g o g'. cbn. unfold subscription_find.
    repeat case_match; congruence.
  - intros id g sub g'. cbn. unfold subscription_find.
    repeat case_match; intros; simplify_eq. split; [by eexists|].
    eexists; split; [reflexivity|]. destruct (sub_status _); cbn; set_solver.
  - intros p g r g' sub id. cbn. unfold subscription_create.
    repeat case_match; intros; simplify_eq;
      try (exfalso; by eapply failure_not_succeeded).
    match goal with H : subscription_with _ _ _ |- _ => destruct H as [Hs Hid] end.
    rewrite js_get_obj in Hs. unfold field in Hs. cbn [assoc_lookup default] in Hs.
    simplify_eq/=. rewrite encode_id in Hid. simplify_eq/=.
    unfold subscription_find. cbn. by rewrite lookup_insert_eq.
  - intros id p g r g' sub. cbn. unfold subscription_update.
    repeat case_match; intros; simplify_eq;
      try (exfalso; by eapply failure_not_succeeded).
    match goal with H : js_get (JObj _) _ = Ok _ |- _ =>
      rewrite js_get_obj in H; unfold field in H; cbn -[encode] in H end.
    simplify_eq. unfold subscription_find. cbn -[encode]. rewrite lookup_insert_eq.
    split; [done|]. rewrite encode_id, encode_token. split; [done|].
    symmetry. by apply prop_js_get.
Qed.

(** ** What the gateway keeps

    Every subscription is charged to a payment method the vault holds:
    methods are never removed, and a subscription is created or moved
    only onto a token the vault has. *)
Definition subs_vaulted (ms : gmap string (option string)) (ss : gmap string bt_subscription) : Prop :=
  map_Forall (fun _ sub => is_Some (ms !! sub_token sub)) ss.

Definition sb_wf (g : sandbox) : Prop := subs_vaulted (sb_methods g) (sb_subs g).

Lemma subs_vaulted_vault ms ss tok o : subs_vaulted ms ss -> subs_vaulted (<[tok := o]> ms) ss.
Proof. intros H. eapply map_Forall_impl; [exact H|]. intros k sub. rewrite lookup_insert_is_Some'. auto. Qed.

Lemma subs_vaulted_insert ms ss sid sub :
  is_Some (ms !! sub_token sub) -> subs_vaulted ms ss -> subs_vaulted ms (<[sid := sub]> ss).
Proof. intros Hs H. by apply map_Forall_insert_2. Qed.

Lemma sandbox_keeps : gateway_keeps sb_wf.
Proof.
  unfold gateway_keeps, op_keeps, sb_wf; cbn.
  repeat split; intros *;
    unfold customer_create, subscription_create, subscription_update, paymentMethod_create,
      clientToken_generate, subscription_find;
    intros Hwf; repeat case_match; intros; simplify_eq/=;
    auto using subs_vaulted_vault, subs_vaulted_insert.
Qed.

(** One call of any client on the gateway, and any sequence of them. *)
Inductive bt_step (g : sandbox) : sandbox -> Prop :=
| step_customer_create p o g' : customer_create p g = (o, g') -> bt_step g g'
| step_subscription_create p o g' : subscription_create p g = (o, g') -> bt_step g g'
| step_subscription_find id o g' : subscription_find id g = (o, g') -> bt_step g g'
| step_subscription_update id p o g' : subscription_update id p g = (o, g') -> bt_step g g'
| step_paymentMethod_create p o g' : paymentMethod_create p g = (o, g') -> bt_step g g'
| step_clientToken_generate o g' : clientToken_generate g = (o, g') -> bt_step g g'.

Lemma bt_step_wf g g' : bt_step g g' -> sb_wf g -> sb_wf g'.
Proof.
  destruct sandbox_keeps as (H1 & H2 & H3 & H4 & H5 & H6).
  destruct 1 as [p o g' E|p o g' E|id o g' E|id p o g' E|p o g' E|o g' E]; intros Hg;
    [eapply H1|eapply H2|eapply H3|eapply H4|eapply H5|eapply H6]; (exact Hg || exact E).
Qed.

(** Every subscription stays charged to a vaulted method, whatever
    calls the clients of the gateway make. *)
Lemma bt_reach_wf g g' : rtc bt_step g g' -> sb_wf g -> sb_wf g'.
Proof. induction 1; eauto using bt_step_wf. Qed.

End Sandbox.

(** ** Scenarios of the spec, and witnesses *)

Module Scenarios.
Import Sandbox.

(** Discharges the hypotheses of a theorem at a concrete sandbox: the
    calls are evaluated, and the results they name are read off. *)
Ltac solve_concrete :=
  unfold succeeded, failed, first_token, customer_with, subscription_with;
  repeat match goal with |- ex _ => eexists | |- _ /\ _ => split end;
  match goal with
  | |- ?l = ?r => let v := eval vm_compute in l in unify r v; vm_compute; reflexivity
  end.

(** A sandbox where the client SDK issued two nonces; [strict] says
    whether [paymentMethod.create] insists on a [customerId], as the
    Braintree API does. *)
Definition sandbox0 (strict : bool) : sandbox :=
  mk_sandbox {["fake-valid-nonce"; "fake-valid-visa-nonce"]} ∅ ∅ ∅ 1 strict.

Definition world0 (strict : bool) : world sandbox := mk_world (sandbox0 strict) [] 0.

Definition body_nonce (nonce : string) : request :=
  mk_request (JObj []) (JObj [("paymentMethodNonce", JStr nonce)]).

Definition no_body : request := mk_request (JObj []) (JObj []).

Definition params_id (sid : string) (body : jsval) : request :=
  mk_request (JObj [("subscriptionId", JStr sid)]) body.

Definition update_req (sid nonce : string) : request :=
  params_id sid (JObj [("paymentMethodNonce", JStr nonce)]).

Definition subscribed_msg : jsval := JStr "Braintree subscription created successfully.".
Definition updated_msg : jsval := JStr "Braintree payment method updated successfully.".

(** The world after [POST /subscribe] with ["fake-valid-nonce"]. *)
Definition world1 (strict : bool) : world sandbox :=
  snd (route_subscribe (body_nonce "fake-valid-nonce") (world0 strict)).

(** The lenient sandbox after subscription [sid] was canceled. *)
Definition cancel (sid : string) (g : sandbox) : sandbox :=
  mk_sandbox (sb_nonces g) (sb_methods g) (sb_customers g)
    (alter (fun s => mk_sub Canceled (sub_token s) (sub_price s) (sub_currency s)
                       (sub_cycles s) (sub_created s) (sub_updated s)) sid (sb_subs g))
    (sb_next g) (sb_require_customer g).

Definition world_canceled : world sandbox :=
  mk_world (cancel "sub_2" (w_proc (world1 false))) [] 0.

(** The spec's scenario: subscribing with ["fake-valid-nonce"] creates
    subscription ["sub_2"], and checking it reports it [Active]. *)
Example subscribe_and_check_scenario :
  fst (route_subscribe (body_nonce "fake-valid-nonce") (world0 true)) =
    Ok (res_json (JObj [("subscriptionId", JStr "sub_2"); ("message", subscribed_msg)])) /\
  js_get (res_body (match fst (route_check_subscription (params_id "sub_2" JUndef) (world1 true))
                    with Ok r => r | Throw _ => res_json JUndef end)) "status" =
    Ok (JStr "Active").
Proof. split; vm_compute; reflexivity. Qed.

(** Without a nonce, the customer is created with no payment method and
    stays on the processor while the client gets a 500. *)
Example orphan_customer :
  sb_customers (w_proc (snd (route_subscribe no_body (world0 true)))) !! "customer_1" = Some [].
Proof. vm_compute. reflexivity. Qed.

(** The update of a canceled subscription fails after the new payment
    method was vaulted: [token_3] stays on the processor, and no
    subscription uses it. *)
Example orphan_method :
  let g := w_proc (snd (route_update_card (update_req "sub_2" "fake-valid-visa-nonce")
                                          world_canceled)) in
  sb_methods g !! "token_3" = Some None /\
  map_Forall (fun _ s => sub_token s <> "token_3") (sb_subs g).
Proof.
  split; [vm_compute; reflexivity|].
  apply map_Forall_lookup. intros i x Hi. vm_compute in Hi.
  repeat (case_match; simplify_eq); discriminate.
Qed.

Lemma braintree_routes_total_witness :
  @nothrow (world sandbox) jserror response (handle Subscribe (body_nonce "fake-valid-nonce")).
Proof. apply braintree_routes_total. split; reflexivity. Defined.

Lemma subscribe_success_witness :
  exists g w', route_subscribe (body_nonce "fake-valid-nonce") (world0 true) =
    (Ok (res_json (JObj [("subscriptionId", JStr "sub_2"); ("message", subscribed_msg)])), w')
    /\ w_proc w' = g.
Proof. eexists. eapply subscribe_success; solve_concrete. Defined.

Lemma test_connection_answers_witness :
  route_test_connection no_body (world0 true) =
    (Ok (res_json (JObj [("message", JStr "Braintree API connection successful");
                         ("clientToken", JStr "client_token_1")])),
     mk_world (bump (sandbox0 true)) [mk_log LogInfo [JStr "Client token generated:";
                                                      JStr "client_token_1"]] 0).
Proof. exact (test_connection_answers no_body (world0 true) (JStr "client_token_1") eq_refl). Defined.

Definition body_token (tok : string) : request :=
  mk_request (JObj []) (JObj [("paymentMethodToken", JStr tok)]).

Lemma test_subscription_success_witness :
  exists g w', route_test_subscription (body_token "token_1") (world1 true) =
    (Ok (res_json (JObj [("subscriptionId", JStr "sub_3");
                         ("message", JStr "Subscription created successfully.")])), w')
    /\ w_proc w' = g.
Proof. eexists. eapply test_subscription_success; solve_concrete. Defined.

Lemma test_subscription_rejected_witness :
  exists g w', route_test_subscription (body_token "token_9") (world1 true) =
    (Ok (res_status_json 500 (JObj [("error", JStr "Payment method token is invalid.")])), w')
    /\ w_proc w' = g.
Proof.
  eexists. eapply (test_subscription_rejected _ _ _ _ _ (JStr "Payment method token is invalid."));
    solve_concrete.
Defined.

Lemma subscribe_customer_rejected_witness :
  exists g w', route_subscribe (body_nonce "bad-nonce") (world0 true) =
    (Ok (res_status_json 500 (JObj [("error", JStr "Unknown or expired payment_method_nonce.")])), w')
    /\ w_proc w' = g.
Proof.
  eexists. eapply (subscribe_customer_rejected _ _ _ _ _ (JStr "Unknown or expired payment_method_nonce."));
    solve_concrete.
Defined.

Lemma subscribe_customer_without_method_witness :
  exists g w', route_subscribe no_body (world0 true) =
    (Ok (res_status_json 500 (JObj [("error",
           JStr "Cannot read properties of undefined (reading 'token')")])), w')
    /\ w_proc w' = g.
Proof. eexists. eapply subscribe_customer_without_method; solve_concrete. Defined.

Lemma update_card_success_witness :
  exists g w', route_update_card (update_req "sub_2" "fake-valid-visa-nonce") (world1 false) =
    (Ok (res_json (JObj [("message", updated_msg); ("subscriptionId", JStr "sub_2");
                         ("paymentMethodToken", JStr "token_3")])), w')
    /\ w_proc w' = g.
Proof. eexists. eapply update_card_success; solve_concrete. Defined.

Lemma update_card_orphans_method_witness :
  exists g w', route_update_card (update_req "sub_2" "fake-valid-visa-nonce") world_canceled =
    (Ok (res_status_json 500 (JObj [("error", JStr "Cannot edit a canceled subscription.")])), w')
    /\ w_proc w' = g.
Proof.
  eexists. eapply (update_card_orphans_method _ _ _ _ _ _ _ _ _ _ (JStr "Cannot edit a canceled subscription."));
    solve_concrete.
Defined.

Lemma subscribe_then_check_witness :
  exists fs w2,
    route_check_subscription (params_id "sub_2" (JObj [])) (world1 true) =
      (Ok (res_json (JObj fs)), w2) /\ w_proc w2 = w_proc (world1 true) /\
    js_get (json_of (JObj fs)) "id" = Ok (JStr "sub_2") /\
    exists st, js_get (json_of (JObj fs)) "status" = Ok (JStr st) /\ st ∈ subscription_statuses.
Proof.
  apply (subscribe_then_check (body_nonce "fake-valid-nonce") (world0 true)
           (res_json (JObj [("subscriptionId", JStr "sub_2"); ("message", subscribed_msg)]))
           (world1 true) "sub_2" (JObj [])); vm_compute; reflexivity.
Defined.

Lemma update_card_then_check_witness :
  exists sid fs w2,
    js_destructure "req.params" (req_params (update_req "sub_2" "fake-valid-visa-nonce"))
      "subscriptionId" = Ok sid /\
    route_check_subscription (mk_request (JObj [("subscriptionId", sid)]) (JObj []))
      (snd (route_update_card (update_req "sub_2" "fake-valid-visa-nonce") (world1 false))) =
      (Ok (res_json (JObj fs)), w2) /\
    js_get (json_of (JObj fs)) "id" =
      js_get (json_of (JObj [("message", updated_msg); ("subscriptionId", JStr "sub_2");
                             ("paymentMethodToken", JStr "token_3")])) "subscriptionId" /\
    js_get (json_of (JObj fs)) "paymentMethodToken" =
      js_get (json_of (JObj [("message", updated_msg); ("subscriptionId", JStr "sub_2");
                             ("paymentMethodToken", JStr "token_3")])) "paymentMethodToken" /\
    js_get (json_of (JObj [("message", updated_msg); ("subscriptionId", JStr "sub_2");
                           ("paymentMethodToken", JStr "token_3")])) "subscriptionId" =
      Ok (json_of sid).
Proof.
  apply (update_card_then_check (update_req "sub_2" "fake-valid-visa-nonce") (world1 false)
           (res_json (JObj [("message", updated_msg); ("subscriptionId", JStr "sub_2");
                            ("paymentMethodToken", JStr "token_3")]))
           (snd (route_update_card (update_req "sub_2" "fake-valid-visa-nonce") (world1 false)))
           (JObj [])); vm_compute; reflexivity.
Defined.

(** C10: against the Braintree API, which requires the [customerId] of
    the customer the new payment method belongs to, [POST /update-card]
    can never succeed: [updatePaymentMethod] passes only the nonce, so
    every request is answered 500 "Customer ID is required." and the
    processor is left unchanged. *)
Theorem update_card_strict_fails req (w : world sandbox) sid nonce :
  sb_require_customer (w_proc w) = true ->
  js_destructure "req.params" (req_params req) "subscriptionId" = Ok sid ->
  js_destructure "req.body" (req_body req) "paymentMethodNonce" = Ok nonce ->
  exists w', route_update_card req w =
    (Ok (res_status_json 500 (JObj [("error", JStr "Customer ID is required.")])), w')
    /\ w_proc w' = w_proc w.
Proof.
  intros Hstrict Hp Hn.
  assert (Hpm : Sandbox.paymentMethod_create (JObj [("paymentMethodNonce", nonce)]) (w_proc w) =
                (Ok (failure "Customer ID is required."), w_proc w)).
  { unfold Sandbox.paymentMethod_create, prop. rewrite js_get_obj, Hstrict. reflexivity. }
  unfold route_update_card, updatePaymentMethod, respond_500, log_rethrow.
  eexists; split; [vp_eval; reflexivity | reflexivity].
Qed.

Lemma update_card_strict_fails_witness :
  exists w', route_update_card (update_req "sub_2" "fake-valid-visa-nonce") (world1 true) =
    (Ok (res_status_json 500 (JObj [("error", JStr "Customer ID is required.")])), w')
    /\ w_proc w' = w_proc (world1 true).
Proof. eapply update_card_strict_fails; reflexivity. Defined.
End Scenarios.
