(* ===== verification/PayPal.v ===== *)
(** * The PayPal integration (src/config/paypal.js, src/routes/payment.js)

    [PayPalApi] is the PayPal REST API as the program reaches it: one
    HTTP exchange, which returns a status and a parsed body or fails at
    the network level, and may change the server's state [P].  [axios]
    gives axios' semantics on top of it (a status outside 2xx rejects
    with an error carrying [error.response]).  [Config] translates
    src/config/paypal.js (the base URL chosen from [PAYPAL_MODE], the
    client id printed at module load, and [getAccessToken]); [Payment]
    translates the helpers and the three routes of src/routes/payment.js.
    Both are generic in the server and in the process environment, which
    the program reads but never writes.  [PayPalContract] states what
    [GET /check-subscription] relies on from PayPal, and C36 proves that
    a subscription [POST /subscribe] reports is then found. *)

From S2P Require Import Prelude Js Base64 IsoDate.
From stdpp Require Import pretty.

Open Scope string_scope.

(** ** HTTP, as axios sees it *)

Inductive http_method := GET | POST.

Record http_request := mk_http {
  hr_method : http_method;
  hr_url : string;
  hr_headers : list (string * string);
  hr_body : jsval
}.

(** The value of header [k] of a request, as the server reads it. *)
Fixpoint header_value (k : string) (hs : list (string * string)) : option string :=
  match hs with
  | [] => None
  | (k', v) :: hs' => if String.eqb k k' then Some v else header_value k hs'
  end.

Definition header (k : string) (r : http_request) : option string :=
  header_value k (hr_headers r).

(** What comes back from one exchange: a reply, or a transport failure. *)
Inductive transport :=
| Reply (status : Z) (data : jsval)
| NetworkError (message : string).

Class PayPalApi (P : Type) := {
  send : http_request -> P -> transport * P
}.

(** axios' default [validateStatus]: a 2xx status resolves. *)
Definition validate_status (status : Z) : bool := (200 <=? status)%Z && (status <? 300)%Z.

(** The message of the error axios rejects with on a status outside 2xx. *)
Definition status_message (status : Z) : string :=
  "Request failed with status code " +:+ pretty status.

Section Axios.
Context {P : Type} `{!PayPalApi P}.

Definition axios_error (message : string) (resp : option http_reply) : jserror :=
  {| err_name := "AxiosError"; err_message := message; err_response := resp |}.

(** [await axios(request)]: resolves with [{ data, status }] on a 2xx
    status, rejects with [error.response = { status, data }] otherwise,
    and without [error.response] when no reply came back. *)
Definition axios (req : http_request) : JS P jsval :=
  let* t := call (fun p => let '(t, p') := send req p in (Ok t, p')) in
  match t with
  | Reply status data =>
      if validate_status status then
        ret (JObj [("data", data); ("status", JNum status)])
      else throw (axios_error (status_message status) (Some (mk_reply status data)))
  | NetworkError message => throw (axios_error message None)
  end.
(** [api_keeps I]: every exchange with the server keeps the invariant [I]
    of its state. *)
Definition api_keeps (I : P -> Prop) : Prop :=
  forall req p t p', I p -> send req p = (t, p') -> I p'.

End Axios.

(** ** src/config/paypal.js *)

Module Config.
Section Config.
Context {P : Type} `{!PayPalApi P} (e : env).

(** [PAYPAL_API] (lines 4-6). *)
Definition PAYPAL_API : string :=
  if js_eq_str (process_env e "PAYPAL_MODE") "sandbox" then "https://api-m.sandbox.paypal.com"
  else "https://api-m.paypal.com".

(** The statement run when the module is loaded (line 7). *)
Definition module_load : JS P unit :=
  console_log [process_env e "PAYPAL_CLIENT_ID"].

(** [auth] (line 9). *)
Definition auth : string :=
  base64_of_string (js_to_string (process_env e "PAYPAL_CLIENT_ID") +:+ ":" +:+
                    js_to_string (process_env e "PAYPAL_SECRET")).

(** The token request of [getAccessToken] (lines 11-20). *)
Definition token_request : http_request :=
  mk_http POST (PAYPAL_API +:+ "/v1/oauth2/token")
    [("Authorization", "Basic " +:+ auth);
     ("Content-Type", "application/x-www-form-urlencoded")]
    (JStr "grant_type=client_credentials").

(** [getAccessToken()] (lines 8-26). *)
Definition getAccessToken : JS P jsval :=
  catch
    (let* response := axios token_request in
     let* data := get response "data" in
     get data "access_token")
    (fun error =>
       console_error [JStr "Error getting PayPal access token:";
                      js_or (error_response_data error) (error_message error)] ;;;
       throw error).
End Config.
End Config.

Arguments axios {P _} req /.

(** ** src/routes/payment.js *)

Module Payment.
Section Routes.
Context {P : Type} `{!PayPalApi P} (e : env).

(** The headers of the authenticated calls: the bearer token, and for the
    creating calls a [PayPal-Request-Id]. *)
Definition bearer_headers (token : jsval) (request_id : option string) : list (string * string) :=
  [("Authorization", "Bearer " +:+ js_to_string token); ("Content-Type", "application/json")] ++
  match request_id with Some r => [("PayPal-Request-Id", r)] | None => [] end.

(** [productData] (lines 8-13). *)
Definition productData : jsval :=
  JObj [("name", JStr "Monthly Subscription");
        ("description", JStr "Monthly recurring payment for premium access");
        ("type", JStr "SERVICE"); ("category", JStr "SOFTWARE")].

(** The request of [createProduct] at time [now] (lines 15-21). *)
Definition product_request (token : jsval) (now : Z) : http_request :=
  mk_http POST (Config.PAYPAL_API e +:+ "/v1/catalogs/products")
    (bearer_headers token (Some ("PRODUCT-" +:+ pretty now))) productData.

(** [createProduct(token)] (lines 7-23). *)
Definition createProduct (token : jsval) : JS P jsval :=
  let* now := date_now in
  let* response := axios (product_request token now) in
  let* data := get response "data" in
  get data "id".

(** [planData] (lines 27-46). *)
Definition planData (productId : jsval) : jsval :=
  JObj [("product_id", productId);
        ("name", JStr "Monthly Premium Plan");
        ("description", JStr "Monthly subscription for $10");
        ("status", JStr "ACTIVE");
        ("billing_cycles", JArr [JObj [
           ("frequency", JObj [("interval_unit", JStr "MONTH"); ("interval_count", JNum 1)]);
           ("tenure_type", JStr "REGULAR");
           ("sequence", JNum 1);
           ("total_cycles", JNum 0);
           ("pricing_scheme", JObj [("fixed_price", JObj [("value", JStr "10.00");
                                                          ("currency_code", JStr "USD")])])]]);
        ("payment_preferences", JObj [("auto_bill_outstanding", JBool true);
                                      ("setup_fee_failure_action", JStr "CONTINUE");
                                      ("payment_failure_threshold", JNum 3)])].

(** The request of [createPlan] at time [now] (lines 48-54). *)
Definition plan_request (token productId : jsval) (now : Z) : http_request :=
  mk_http POST (Config.PAYPAL_API e +:+ "/v1/billing/plans")
    (bearer_headers token (Some ("PLAN-" +:+ pretty now))) (planData productId).

(** [createPlan(token, productId)] (lines 26-56). *)
Definition createPlan (token productId : jsval) : JS P jsval :=
  let* now := date_now in
  let* response := axios (plan_request token productId now) in
  let* data := get response "data" in
  get data "id".

(** [subscriptionData] (lines 61-68). *)
Definition subscriptionData (planId : jsval) (startTime : string) : jsval :=
  JObj [("plan_id", planId);
        ("start_time", JStr startTime);
        ("subscriber", JObj [("name", JObj [("given_name", JStr "John"); ("surname", JStr "Doe")]);
                             ("email_address", JStr "customer@example.com")])].

(** The request of [createSubscription] at time [now] (lines 70-76). *)
Definition subscription_request (token data : jsval) (now : Z) : http_request :=
  mk_http POST (Config.PAYPAL_API e +:+ "/v1/billing/subscriptions")
    (bearer_headers token (Some ("SUB-" +:+ pretty now))) data.

(** [link => link.rel === 'approve'] *)
Definition is_approve (link : jsval) : outcome jserror bool :=
  match js_get link "rel" with
  | Ok rel => Ok (js_eq_str rel "approve")
  | Throw err => Throw err
  end.

(** [createSubscription(token, planId)] (lines 59-81). *)
Definition createSubscription (token planId : jsval) : JS P jsval :=
  let* now := date_now in
  let* startTime := lift (iso_string (now + 10 * 60 * 1000)) in
  let* now' := date_now in
  let* response := axios (subscription_request token (subscriptionData planId startTime) now') in
  let* data := get response "data" in
  let* links := get data "links" in
  let* link := lift (js_find "response.data.links.find" links is_approve) in
  let* approvalUrl := get link "href" in
  let* data := get response "data" in
  let* subscriptionId := get data "id" in
  ret (JObj [("approvalUrl", approvalUrl); ("subscriptionId", subscriptionId)]).

(** The request of [checkSubscriptionStatus] (lines 85-90). *)
Definition status_request (token subscriptionId : jsval) : http_request :=
  mk_http GET (Config.PAYPAL_API e +:+ "/v1/billing/subscriptions/" +:+ js_to_string subscriptionId)
    (bearer_headers token None) JUndef.

(** [checkSubscriptionStatus(token, subscriptionId)] (lines 84-92). *)
Definition checkSubscriptionStatus (token subscriptionId : jsval) : JS P jsval :=
  let* response := axios (status_request token subscriptionId) in
  get response "data".

(** [catch (error) { res.status(500).json({ error: error.response?.data || error.message }); }] *)
Definition respond_error (error : jserror) : JS P response :=
  ret (res_status_json 500 (JObj [("error", js_or (error_response_data error) (error_message error))])).

(** [GET /create-plan] (lines 95-104). *)
Definition route_create_plan (req : request) : JS P response :=
  catch
    (let* token := Config.getAccessToken e in
     let* productId := createProduct token in
     let* planId := createPlan token productId in
     ret (res_json (JObj [("planId", planId)])))
    respond_error.

(** [POST /subscribe] (lines 106-115). *)
Definition route_subscribe (req : request) : JS P response :=
  let* planId := destructure "req.body" (req_body req) "planId" in
  catch
    (let* token := Config.getAccessToken e in
     let* result := createSubscription token planId in
     ret (res_json result))
    respond_error.

(** The projection of [GET /check-subscription/:subscriptionId]
    (lines 122-129): [billing_info] is read with optional chaining. *)
Definition details_snapshot (details : jsval) : JS P jsval :=
  let* id := get details "id" in
  let* status := get details "status" in
  let* plan_id := get details "plan_id" in
  let* start_time := get details "start_time" in
  let* billing_info := get details "billing_info" in
  let next_billing_time := js_opt_get billing_info "next_billing_time" in
  let* billing_info := get details "billing_info" in
  let last_payment := js_opt_get billing_info "last_payment" in
  ret (JObj [("id", id); ("status", status); ("plan_id", plan_id); ("start_time", start_time);
             ("next_billing_time", next_billing_time); ("last_payment", last_payment)]).

(** [GET /check-subscription/:subscriptionId] (lines 117-133). *)
Definition route_check_subscription (req : request) : JS P response :=
  let* subscriptionId := destructure "req.params" (req_params req) "subscriptionId" in
  catch
    (let* token := Config.getAccessToken e in
     let* details := checkSubscriptionStatus token subscriptionId in
     let* body := details_snapshot details in
     ret (res_json body))
    respond_error.

(** The router (lines 95-135). *)
Inductive route := CreatePlan | Subscribe | CheckSubscription.

Definition handle (r : route) : request -> JS P response :=
  match r with
  | CreatePlan => route_create_plan
  | Subscribe => route_subscribe
  | CheckSubscription => route_check_subscription
  end.
End Routes.

(** ** Properties of the routes, for every PayPal server *)

Section Properties.
Context {P : Type} `{!PayPalApi P} (e : env).

Lemma nothrow_respond_error err : nothrow (respond_error (P:=P) err).
Proof. apply nothrow_ret. Qed.

#[local] Hint Resolve nothrow_respond_error : vp.

(** C11: every route of the PayPal router answers every well-formed
    request: whatever the PayPal server answers (an error status, a
    network failure, a body without the expected fields), no exception
    escapes the handler. *)
Theorem paypal_routes_total (r : route) (req : request) :
  well_formed req -> nothrow (handle e r req).
Proof.
  intros [Hp Hb].
  destruct r; cbn [handle]; unfold route_create_plan, route_subscribe, route_check_subscription;
    solve_nothrow.
Qed.

(** C12: [GET /create-plan] when the three exchanges succeed: the token
    is fetched, the product is created with [PRODUCT-<now>] and the plan
    with [PLAN-<now>], both with that token, the plan referring to the
    product the first call created; the response carries the plan's id;
    the server is left as the third exchange left it and nothing is
    logged. *)
Theorem paypal_create_plan_success req w s0 fs0 p1 s1 fs1 p2 s2 fs2 p3 :
  send (Config.token_request e) (w_proc w) = (Reply s0 (JObj fs0), p1) ->
  validate_status s0 = true ->
  send (product_request e (field "access_token" fs0) (w_clock w)) p1 = (Reply s1 (JObj fs1), p2) ->
  validate_status s1 = true ->
  send (plan_request e (field "access_token" fs0) (field "id" fs1) (w_clock w)) p2 =
    (Reply s2 (JObj fs2), p3) ->
  validate_status s2 = true ->
  route_create_plan e req w =
    (Ok (res_json (JObj [("planId", field "id" fs2)])), mk_world p3 (w_log w) (w_clock w)).
Proof.
  intros. unfold route_create_plan, createProduct, createPlan, Config.getAccessToken.
  vp_eval. reflexivity.
Qed.

(** C13: [GET /create-plan] when PayPal rejects the credentials (any
    status outside 2xx): the token exchange is the only call made, the
    failure is logged once, and the client gets a 500 carrying PayPal's
    error payload (or axios' message when the payload is falsy). *)
Theorem paypal_create_plan_auth_rejected req w s d p1 :
  send (Config.token_request e) (w_proc w) = (Reply s d, p1) ->
  validate_status s = false ->
  route_create_plan e req w =
    (Ok (res_status_json 500 (JObj [("error", js_or d (JStr (status_message s)))])),
     mk_world p1 (w_log w ++ [mk_log LogError [JStr "Error getting PayPal access token:";
                                              js_or d (JStr (status_message s))]])
              (w_clock w)).
Proof.
  intros. unfold route_create_plan, Config.getAccessToken, respond_error.
  vp_eval. reflexivity.
Qed.

(** C18: the idempotency key of each creating call is a function of the
    millisecond clock alone: two [createSubscription] calls send the same
    [PayPal-Request-Id] exactly when they read the same [Date.now()],
    whatever plans and tokens they carry (and likewise for
    [createProduct] and [createPlan]).  Two subscriptions requested in
    the same millisecond therefore share their key. *)
Theorem paypal_request_id_collision t1 t2 d1 d2 p1 p2 n1 n2 :
  (header "PayPal-Request-Id" (subscription_request e t1 d1 n1) =
   header "PayPal-Request-Id" (subscription_request e t2 d2 n2) <-> n1 = n2) /\
  (header "PayPal-Request-Id" (product_request e t1 n1) =
   header "PayPal-Request-Id" (product_request e t2 n2) <-> n1 = n2) /\
  (header "PayPal-Request-Id" (plan_request e t1 p1 n1) =
   header "PayPal-Request-Id" (plan_request e t2 p2 n2) <-> n1 = n2).
Proof.
  cbn. repeat split; intros H; subst; try done;
    injection H as H; apply (inj pretty); eauto with vp.
Qed.

(** C14: [POST /subscribe] when the token and subscription exchanges
    succeed: the subscription is requested for the body's [planId], a
    start time ten minutes after [Date.now()] in ISO form and the key
    [SUB-<now>]; the response carries the [href] of the first link whose
    [rel] is ["approve"] and the new subscription's id. *)
Theorem paypal_subscribe_success req w planId start s0 fs0 p1 s1 fs1 p2 link url :
  js_destructure "req.body" (req_body req) "planId" = Ok planId ->
  send (Config.token_request e) (w_proc w) = (Reply s0 (JObj fs0), p1) ->
  validate_status s0 = true ->
  iso_string (w_clock w + 10 * 60 * 1000) = Ok start ->
  send (subscription_request e (field "access_token" fs0) (subscriptionData planId start) (w_clock w)) p1 =
    (Reply s1 (JObj fs1), p2) ->
  validate_status s1 = true ->
  js_find "response.data.links.find" (field "links" fs1) is_approve = Ok link ->
  js_get link "href" = Ok url ->
  route_subscribe e req w =
    (Ok (res_json (JObj [("approvalUrl", url); ("subscriptionId", field "id" fs1)])),
     mk_world p2 (w_log w) (w_clock w)).
Proof.
  intros. unfold route_subscribe, createSubscription, Config.getAccessToken.
  vp_eval. reflexivity.
Qed.

(** C15: [POST /subscribe] when PayPal creates the subscription but its
    [links] carry no ["approve"] link: [.find] yields [undefined], reading
    its [href] throws a [TypeError], and the client gets a 500 with that
    message although the subscription now exists on PayPal's side (the
    server is left as the creating exchange left it). *)
Theorem paypal_subscribe_without_approve_link req w planId start s0 fs0 p1 s1 fs1 p2 :
  js_destructure "req.body" (req_body req) "planId" = Ok planId ->
  send (Config.token_request e) (w_proc w) = (Reply s0 (JObj fs0), p1) ->
  validate_status s0 = true ->
  iso_string (w_clock w + 10 * 60 * 1000) = Ok start ->
  send (subscription_request e (field "access_token" fs0) (subscriptionData planId start) (w_clock w)) p1 =
    (Reply s1 (JObj fs1), p2) ->
  validate_status s1 = true ->
  js_find "response.data.links.find" (field "links" fs1) is_approve = Ok JUndef ->
  route_subscribe e req w =
    (Ok (res_status_json 500 (JObj [("error",
           JStr "Cannot read properties of undefined (reading 'href')")])),
     mk_world p2 (w_log w) (w_clock w)).
Proof.
  intros. unfold route_subscribe, createSubscription, Config.getAccessToken, respond_error.
  vp_eval. reflexivity.
Qed.

(** C16: [GET /check-subscription/:subscriptionId] when the exchanges
    succeed: one [GET] of the subscription with the path parameter, and a
    response that projects PayPal's object on [id], [status], [plan_id],
    [start_time] and the two [billing_info] fields read with optional
    chaining (absent when [billing_info] is); the call changes nothing
    but what the [GET] itself does on the server. *)
Theorem paypal_check_subscription req w sid s0 fs0 p1 s1 fs1 p2 :
  js_destructure "req.params" (req_params req) "subscriptionId" = Ok sid ->
  send (Config.token_request e) (w_proc w) = (Reply s0 (JObj fs0), p1) ->
  validate_status s0 = true ->
  send (status_request e (field "access_token" fs0) sid) p1 = (Reply s1 (JObj fs1), p2) ->
  validate_status s1 = true ->
  route_check_subscription e req w =
    (Ok (res_json (JObj [("id", field "id" fs1); ("status", field "status" fs1);
                         ("plan_id", field "plan_id" fs1); ("start_time", field "start_time" fs1);
                         ("next_billing_time", js_opt_get (field "billing_info" fs1) "next_billing_time");
                         ("last_payment", js_opt_get (field "billing_info" fs1) "last_payment")])),
     mk_world p2 (w_log w) (w_clock w)).
Proof.
  intros. unfold route_check_subscription, checkSubscriptionStatus, details_snapshot,
    Config.getAccessToken.
  vp_eval. reflexivity.
Qed.

(** C17: [GET /check-subscription/:subscriptionId] when PayPal answers the
    [GET] with an error status (an unknown id gives 404): the client gets
    a 500 whose [error] is PayPal's payload, not a not-found status. *)
Theorem paypal_check_subscription_upstream_error req w sid s0 fs0 p1 s1 d p2 :
  js_destructure "req.params" (req_params req) "subscriptionId" = Ok sid ->
  send (Config.token_request e) (w_proc w) = (Reply s0 (JObj fs0), p1) ->
  validate_status s0 = true ->
  send (status_request e (field "access_token" fs0) sid) p1 = (Reply s1 d, p2) ->
  validate_status s1 = false ->
  route_check_subscription e req w =
    (Ok (res_status_json 500 (JObj [("error", js_or d (JStr (status_message s1)))])),
     mk_world p2 (w_log w) (w_clock w)).
Proof.
  intros. unfold route_check_subscription, checkSubscriptionStatus, Config.getAccessToken,
    respond_error.
  vp_eval. reflexivity.
Qed.

(** C21: when the token exchange succeeds with a body that has no
    [access_token], [getAccessToken] resolves with [undefined] instead of
    failing, and [GET /create-plan] goes on to send the product request
    with the header [Authorization: Bearer undefined]; its rejection
    reaches the client as a 500. *)
Theorem paypal_token_without_access_token req w s0 fs0 p1 s1 d p2 :
  send (Config.token_request e) (w_proc w) = (Reply s0 (JObj fs0), p1) ->
  validate_status s0 = true -> field "access_token" fs0 = JUndef ->
  send (product_request e JUndef (w_clock w)) p1 = (Reply s1 d, p2) ->
  validate_status s1 = false ->
  header "Authorization" (product_request e JUndef (w_clock w)) = Some "Bearer undefined" /\
  route_create_plan e req w =
    (Ok (res_status_json 500 (JObj [("error", js_or d (JStr (status_message s1)))])),
     mk_world p2 (w_log w) (w_clock w)).
Proof.
  intros. split; [reflexivity|].
  unfold route_create_plan, createProduct, Config.getAccessToken, respond_error.
  vp_eval. reflexivity.
Qed.
(** *** Error lines *)

(** [await axios(...)] prints nothing. *)
Lemma guarded_axios req : guarded (axios (P:=P) req).
Proof. unfold axios. apply guarded_bind; [apply guarded_call|]. intros [s d|m]; solve_guarded. Qed.

#[local] Hint Resolve guarded_axios : core.

(** A route prints to [console.error] only on the way to a 500: the one
    [console.error] of the router's code, in [getAccessToken]'s [catch]
    block (src/config/paypal.js lines 22-25), is followed by
    [throw error], and each route's [catch] block answers 500 (lines
    101-103, 112-114, 130-132). *)
Lemma paypal_error_500 r req : error_500 (handle e r req).
Proof.
  destruct r; cbn [handle]; unfold route_create_plan, route_subscribe, route_check_subscription,
    Config.getAccessToken, createProduct, createPlan, createSubscription, checkSubscriptionStatus,
    details_snapshot, respond_error;
    repeat first [ apply guarded_axios | match goal with |- guarded (bind (axios _) _) =>
                                          apply guarded_bind; [apply guarded_axios|] end
                 | progress solve_guarded ].
Qed.

(** A success of [POST /subscribe] that reports subscription [s] was
    produced by a granted token request and by a 2xx reply of the
    subscription request made with that token, whose data has id [s]. *)
Lemma paypal_subscribe_inv req w resp w1 s :
  route_subscribe e req w = (Ok resp, w1) ->
  js_get (res_body resp) "subscriptionId" = Ok (JStr s) ->
  exists st0 d0 p0 tok data n st d,
    send (Config.token_request e) (w_proc w) = (Reply st0 d0, p0) /\
    validate_status st0 = true /\ js_get d0 "access_token" = Ok tok /\
    send (subscription_request e tok data n) p0 = (Reply st d, w_proc w1) /\
    validate_status st = true /\ js_get d "id" = Ok (JStr s).
Proof.
  unfold route_subscribe, createSubscription, Config.getAccessToken, respond_error.
  intros H Hs. vp_invert H; rewrite js_get_json_obj in Hs by decide_lit; unfold field in Hs;
    cbn in Hs; simplify_eq.
  rewrite !js_get_obj in *. unfold field in *. cbn in *. simplify_eq.
  apply json_of_eq_str in Hs as ->. eexists _, _, _, _, _, _, _, _. eauto 10.
Qed.

End Properties.

(** ** The contract of the PayPal server

    What [GET /check-subscription] relies on from PayPal, for the
    exchanges the routes make, under an invariant [inv] of the server's
    state: a token request with the environment's credentials is granted
    a token [valid] from then on, and loses no subscription; a 2xx reply
    to a subscription request made with a valid token names a
    subscription the server now holds ([has_sub]); and a [GET] of a held
    subscription with a valid token returns it, with its id and one of
    PayPal's statuses, and changes nothing. *)

Definition paypal_statuses : list string :=
  ["APPROVAL_PENDING"; "APPROVED"; "ACTIVE"; "SUSPENDED"; "CANCELLED"; "EXPIRED"].

Section Contract.
Context {P : Type} `{!PayPalApi P} (e : env).
Context (inv : P -> Prop) (has_sub : P -> string -> Prop) (valid : P -> string -> Prop).

Class PayPalContract : Prop := {
  token_granted p :
    inv p -> exists data tok p',
      send (Config.token_request e) p = (Reply 200 data, p') /\
      js_get data "access_token" = Ok (JStr tok) /\ inv p' /\ valid p' tok /\
      (forall s, has_sub p s -> has_sub p' s);
  create_kept p tok data n st d p' s :
    inv p -> valid p tok ->
    send (subscription_request e (JStr tok) data n) p = (Reply st d, p') ->
    validate_status st = true -> js_get d "id" = Ok (JStr s) ->
    inv p' /\ has_sub p' s;
  find_sub p tok s :
    inv p -> valid p tok -> has_sub p s ->
    exists d st, send (status_request e (JStr tok) (JStr s)) p = (Reply 200 d, p) /\
      js_get d "id" = Ok (JStr s) /\ js_get d "status" = Ok (JStr st) /\ st ∈ paypal_statuses
}.

Context `{!PayPalContract}.

(** A subscription [POST /subscribe] reports is held by the server, which
    still satisfies its invariant. *)
Lemma subscribe_held req w resp w1 s :
  inv (w_proc w) ->
  route_subscribe e req w = (Ok resp, w1) ->
  js_get (res_body resp) "subscriptionId" = Ok (JStr s) ->
  inv (w_proc w1) /\ has_sub (w_proc w1) s.
Proof.
  intros Hinv Hr Hs.
  destruct (paypal_subscribe_inv _ _ _ _ _ _ Hr Hs)
    as (st0 & d0 & p0 & tok & data & n & st & d & Ht & _ & Htok & Hsub & Hv & Hid).
  destruct (token_granted _ Hinv) as (data1 & tok1 & p1 & Ht1 & Hat1 & Hinv1 & Hval1 & _).
  rewrite Ht in Ht1. injection Ht1 as -> -> ->. rewrite Hat1 in Htok. injection Htok as <-.
  exact (create_kept _ _ _ _ _ _ _ _ Hinv1 Hval1 Hsub Hv Hid).
Qed.

(** [GET /check-subscription/:id] of a held subscription answers its
    snapshot, with its id and one of PayPal's statuses. *)
Lemma check_held w s b :
  inv (w_proc w) -> has_sub (w_proc w) s ->
  exists fs w2,
    route_check_subscription e (mk_request (JObj [("subscriptionId", JStr s)]) b) w =
      (Ok (res_json (JObj fs)), w2) /\ inv (w_proc w2) /\
    js_get (json_of (JObj fs)) "id" = Ok (JStr s) /\
    exists st, js_get (json_of (JObj fs)) "status" = Ok (JStr st) /\ st ∈ paypal_statuses.
Proof.
  intros Hinv Hhas.
  destruct (token_granted _ Hinv) as (data3 & tok3 & p3 & Ht3 & Hat3 & Hinv3 & Hval3 & Hkeep).
  destruct (find_sub _ _ _ Hinv3 Hval3 (Hkeep _ Hhas)) as (d4 & st4 & Hget & Hid4 & Hst4 & Hin).
  assert (Hn4 : nullish d4 = false) by (eapply js_get_nullish; exact Hid4).
  eexists _, _. split.
  { unfold route_check_subscription, checkSubscriptionStatus, details_snapshot, Config.getAccessToken.
    vp_eval. rewrite !(js_get_prop d4 "plan_id"), !(js_get_prop d4 "start_time"),
      !(js_get_prop d4 "billing_info") by done. reflexivity. }
  cbn. split; [done|]. rewrite !js_get_json_obj by decide_lit. cbn.
  split; [done|]. by exists st4.
Qed.

(** C30: against a PayPal server meeting the contract, the subscription
    id [POST /subscribe] returns is found by the following
    [GET /check-subscription/:id]: the snapshot carries the same id and
    one of PayPal's statuses, and the server still satisfies its
    invariant. *)
Theorem paypal_subscribe_then_check req w resp w1 s b :
  inv (w_proc w) ->
  route_subscribe e req w = (Ok resp, w1) ->
  js_get (res_body resp) "subscriptionId" = Ok (JStr s) ->
  exists fs w2,
    route_check_subscription e (mk_request (JObj [("subscriptionId", JStr s)]) b) w1 =
      (Ok (res_json (JObj fs)), w2) /\ inv (w_proc w2) /\
    js_get (json_of (JObj fs)) "id" = Ok (JStr s) /\
    exists st, js_get (json_of (JObj fs)) "status" = Ok (JStr st) /\ st ∈ paypal_statuses.
Proof.
  intros Hinv Hr Hs. destruct (subscribe_held _ _ _ _ _ Hinv Hr Hs) as [Hinv1 Hhas].
  exact (check_held _ _ b Hinv1 Hhas).
Qed.
End Contract.

#[export] Hint Resolve nothrow_respond_error : vp.
End Payment.

(** ** Properties of the credential provider *)

Module Credentials.

(** C22: the [Authorization] header of the token request carries the
    client id and secret of the environment: a server that decodes its
    Basic credentials (base64, then UTF-8) reads [id:secret] back, for
    all strings [id] and [secret]. *)
Theorem paypal_basic_auth_roundtrip e id secret :
  env_lookup "PAYPAL_CLIENT_ID" e = Some id -> env_lookup "PAYPAL_SECRET" e = Some secret ->
  exists x, header "Authorization" (Config.token_request e) = Some ("Basic " +:+ x) /\
            (b64_decode x ≫= utf8_decode) = Some (id +:+ ":" +:+ secret).
Proof.
  intros Hid Hs. exists (Config.auth e). split; [reflexivity|].
  unfold Config.auth, process_env. rewrite Hid, Hs. apply base64_string_roundtrip.
Qed.

(** With the variables unset, the template literal turns them into the
    string ["undefined"]: the provider sends [undefined:undefined]. *)
Example basic_auth_unset : Config.auth [] = base64_of_string "undefined:undefined".
Proof. reflexivity. Qed.
End Credentials.
