(* ===== verification/SandboxPayPal.v ===== *)
(** * A PayPal REST server, as the routes of src/routes/payment.js reach it

    An executable model of the PayPal sandbox API the PayPal routes
    call, written from PayPal's REST documentation: an instance of
    [PayPalApi] on a server state [paypal].  It issues access tokens for
    the Basic credentials of its one client, keeps the products, plans and
    subscriptions it created as resources addressed by their path, and
    honours the [PayPal-Request-Id] idempotency key: a creating request
    whose key it has seen is answered with the stored reply and creates
    nothing.  The URL a request names is resolved as the WHATWG URL
    parser (which axios applies) resolves it: its path is split at [/]
    and the [.] and [..] segments are removed before the server sees it.

    [Contract] proves that the server meets [PayPalContract] under its
    invariant (subscriptions kept at their paths, [SUB-] replies naming
    held subscriptions, ids that are single path segments).  [Scenarios]
    runs the routes on this server: the scenarios of the spec, and the
    witnesses of the theorems of PayPal.v. *)

From S2P Require Import Prelude Js Base64 IsoDate PayPal.
From stdpp Require Import pretty.
From Stdlib Require Import Ascii.

Open Scope string_scope.

Record paypal := mk_paypal {
  pp_client : string;                          (* the client id of the app *)
  pp_secret : string;                          (* its secret *)
  pp_tokens : list string;                     (* access tokens issued *)
  pp_resources : list (list string * jsval);   (* resources by path, newest first *)
  pp_keys : list (string * (Z * jsval));       (* replies by PayPal-Request-Id *)
  pp_next : Z                                  (* next serial number *)
}.

Module Rest.

(** ** URLs *)

Definition host : string := "https://api-m.sandbox.paypal.com".

Fixpoint strip_prefix (p s : string) : option string :=
  match p, s with
  | EmptyString, _ => Some s
  | String c p', String d s' => if Ascii.eqb c d then strip_prefix p' s' else None
  | _, _ => None
  end.

(** Dot-segment removal: [..] drops the segment before it, [.] is
    skipped. [acc] holds the resolved segments, the last one first. *)
Fixpoint remove_dots (acc : list string) (segs : list string) : list string :=
  match segs with
  | [] => reverse acc
  | seg :: segs' =>
      if String.eqb seg ".." then remove_dots (tail acc) segs'
      else if String.eqb seg "." then remove_dots acc segs'
      else remove_dots (seg :: acc) segs'
  end.

(** The resource path of a URL of the server: [https://api-m.../a/b]
    gives [["a"; "b"]]. *)
Definition resolve (url : string) : option (list string) :=
  match strip_prefix host url with
  | Some (String "/"%char path) => Some (remove_dots [] (split_path path))
  | _ => None
  end.

(** ** Replies *)

Definition error_body (name message : string) : jsval :=
  JObj [("name", JStr name); ("message", JStr message)].

Definition unauthorized : transport :=
  Reply 401 (error_body "AUTHENTICATION_FAILURE"
    "Authentication failed due to invalid authentication credentials or a missing Authorization header.").

Definition not_found : transport :=
  Reply 404 (error_body "RESOURCE_NOT_FOUND" "The specified resource does not exist.").

Definition invalid (what : string) : transport :=
  Reply 422 (error_body "UNPROCESSABLE_ENTITY"
    ("The requested action could not be performed: " +:+ what)).

Definition lookup_resource (path : list string) (st : paypal) : option jsval :=
  (snd ∘ snd) <$> list_find (fun r => bool_decide (r.1 = path)) (pp_resources st).

Definition add_resource (path : list string) (v : jsval) (st : paypal) : paypal :=
  mk_paypal (pp_client st) (pp_secret st) (pp_tokens st) ((path, v) :: pp_resources st)
    (pp_keys st) (pp_next st + 1).

(** The reply stored under idempotency key [k]. *)
Definition key_reply (k : string) (st : paypal) : option (Z * jsval) :=
  (snd ∘ snd) <$> list_find (fun kr => String.eqb kr.1 k) (pp_keys st).

Definition str (v : jsval) : option string := match v with JStr s => Some s | _ => None end.

(** ** Operations *)

(** [POST /v1/oauth2/token]: the Basic credentials of the client give a
    new bearer token. *)
Definition token_of (n : Z) : string := "A21AA" +:+ pretty n.

Definition token_reply (n : Z) : jsval :=
  JObj [("scope", JStr "https://uri.paypal.com/services/subscriptions");
        ("access_token", JStr (token_of n)); ("token_type", JStr "Bearer");
        ("expires_in", JNum 32400)].

Definition with_token (st : paypal) : paypal :=
  mk_paypal (pp_client st) (pp_secret st) (token_of (pp_next st) :: pp_tokens st)
    (pp_resources st) (pp_keys st) (pp_next st + 1).

Definition issue_token (req : http_request) (st : paypal) : transport * paypal :=
  if bool_decide (header "Authorization" req =
                  Some ("Basic " +:+ base64_of_string (pp_client st +:+ ":" +:+ pp_secret st)))
  then (Reply 200 (token_reply (pp_next st)), with_token st)
  else (Reply 401 (JObj [("error", JStr "invalid_client");
                         ("error_description", JStr "Client Authentication failed")]), st).

Definition authorized (req : http_request) (st : paypal) : bool :=
  match header "Authorization" req with
  | Some h => existsb (fun t => String.eqb h ("Bearer " +:+ t)) (pp_tokens st)
  | None => false
  end.

(** [POST /v1/catalogs/products] *)
Definition create_product (body : jsval) (st : paypal) : transport * paypal :=
  let id := "PROD-" +:+ pretty (pp_next st) in
  let v := JObj [("id", JStr id); ("name", prop body "name");
                 ("description", prop body "description"); ("type", prop body "type");
                 ("category", prop body "category")] in
  (Reply 201 v, add_resource ["v1"; "catalogs"; "products"; id] v st).

(** [POST /v1/billing/plans]: the product must exist. *)
Definition create_plan (body : jsval) (st : paypal) : transport * paypal :=
  match str (prop body "product_id") with
  | Some pid =>
      match lookup_resource ["v1"; "catalogs"; "products"; pid] st with
      | Some _ =>
          let id := "P-" +:+ pretty (pp_next st) in
          let v := JObj [("id", JStr id); ("product_id", JStr pid); ("name", prop body "name");
                         ("status", JStr "ACTIVE");
                         ("billing_cycles", prop body "billing_cycles")] in
          (Reply 201 v, add_resource ["v1"; "billing"; "plans"; id] v st)
      | None => (invalid "the product does not exist.", st)
      end
  | None => (invalid "product_id is missing.", st)
  end.

(** [POST /v1/billing/subscriptions]: the plan must exist and be active;
    the subscription waits for the buyer's approval. *)
Definition create_subscription (body : jsval) (st : paypal) : transport * paypal :=
  match str (prop body "plan_id") with
  | Some pid =>
      match lookup_resource ["v1"; "billing"; "plans"; pid] st with
      | Some plan =>
          if js_eq_str (prop plan "status") "ACTIVE" then
            let id := "I-" +:+ pretty (pp_next st) in
            let v := JObj [("id", JStr id); ("plan_id", JStr pid);
                           ("status", JStr "APPROVAL_PENDING");
                           ("start_time", prop body "start_time");
                           ("links", JArr [
                              JObj [("href", JStr ("https://www.sandbox.paypal.com/webapps/billing/subscriptions?ba_token=BA-" +:+ pretty (pp_next st)));
                                    ("rel", JStr "approve"); ("method", JStr "GET")];
                              JObj [("href", JStr (host +:+ "/v1/billing/subscriptions/" +:+ id));
                                    ("rel", JStr "self"); ("method", JStr "GET")]])] in
            (Reply 201 v, add_resource ["v1"; "billing"; "subscriptions"; id] v st)
          else (invalid "the plan is not active.", st)
      | None => (invalid "the plan does not exist.", st)
      end
  | None => (invalid "plan_id is missing.", st)
  end.

Definition store_key (k : string) (r : Z * jsval) (st : paypal) : paypal :=
  mk_paypal (pp_client st) (pp_secret st) (pp_tokens st) (pp_resources st)
    ((k, r) :: pp_keys st) (pp_next st).

(** A creating call under its idempotency key: a key seen before gives
    the reply stored with it, and nothing is created. *)
Definition idempotent (req : http_request)
    (create : jsval -> paypal -> transport * paypal) (st : paypal) : transport * paypal :=
  match header "PayPal-Request-Id" req with
  | Some k =>
      match key_reply k st with
      | Some (status, data) => (Reply status data, st)
      | None =>
          match create (hr_body req) st with
          | (Reply status data, st') => (Reply status data, store_key k (status, data) st')
          | r => r
          end
      end
  | None => create (hr_body req) st
  end.

Definition creator (path : list string) : option (jsval -> paypal -> transport * paypal) :=
  if bool_decide (path = ["v1"; "catalogs"; "products"]) then Some create_product
  else if bool_decide (path = ["v1"; "billing"; "plans"]) then Some create_plan
  else if bool_decide (path = ["v1"; "billing"; "subscriptions"]) then Some create_subscription
  else None.

(** One exchange with the server. *)
Definition exchange (req : http_request) (st : paypal) : transport * paypal :=
  match resolve (hr_url req) with
  | None => (NetworkError ("getaddrinfo ENOTFOUND " +:+ hr_url req), st)
  | Some path =>
      match hr_method req with
      | POST =>
          if bool_decide (path = ["v1"; "oauth2"; "token"]) then issue_token req st
          else if negb (authorized req st) then (unauthorized, st)
          else match creator path with
               | Some create => idempotent req create st
               | None => (not_found, st)
               end
      | GET =>
          if negb (authorized req st) then (unauthorized, st)
          else match lookup_resource path st with
               | Some v => (Reply 200 v, st)
               | None => (not_found, st)
               end
      end
  end.

#[export] Instance api : PayPalApi paypal := { send := exchange }.
End Rest.

(** ** What the server keeps

    [reaches st st']: the server goes from [st] to [st'] through a
    sequence of exchanges, whatever requests (of this process or of
    others) they serve.  Along such a sequence the server keeps its
    client's credentials, the tokens it issued and every reply it
    stored under an idempotency key. *)

Module OnSandbox.
Import Rest Payment.

Inductive reaches : paypal -> paypal -> Prop :=
| reaches_refl st : reaches st st
| reaches_step st req t st' st'' :
    exchange req st = (t, st') -> reaches st' st'' -> reaches st st''.

Definition persists (st st' : paypal) : Prop :=
  pp_client st' = pp_client st /\ pp_secret st' = pp_secret st /\
  (forall t, t ∈ pp_tokens st -> t ∈ pp_tokens st') /\
  (forall k r, key_reply k st = Some r -> key_reply k st' = Some r).

(** The environment of a deployment against this server. *)
Definition sandbox_env (e : env) (st : paypal) : Prop :=
  env_lookup "PAYPAL_MODE" e = Some "sandbox" /\
  env_lookup "PAYPAL_CLIENT_ID" e = Some (pp_client st) /\
  env_lookup "PAYPAL_SECRET" e = Some (pp_secret st).

Lemma persists_refl st : persists st st.
Proof. by repeat split. Qed.

Lemma persists_trans st1 st2 st3 : persists st1 st2 -> persists st2 st3 -> persists st1 st3.
Proof.
  intros (Hc1 & Hs1 & Ht1 & Hk1) (Hc2 & Hs2 & Ht2 & Hk2).
  split; [congruence|]. split; [congruence|]. split; auto.
Qed.

Lemma add_resource_persists path v st : persists st (add_resource path v st).
Proof. by repeat split. Qed.

Lemma with_token_persists st : persists st (with_token st).
Proof. repeat split; [|done]. intros t Ht. by right. Qed.

Lemma creator_persists path create :
  creator path = Some create -> forall body st, persists st (create body st).2.
Proof.
  unfold creator. intros Hc body st. repeat case_bool_decide; simplify_eq;
    unfold create_product, create_plan, create_subscription; cbn;
    repeat case_match; cbn; auto using persists_refl, add_resource_persists.
Qed.

Lemma key_reply_store k r st k0 :
  key_reply k0 (store_key k r st) = if String.eqb k k0 then Some r else key_reply k0 st.
Proof.
  unfold key_reply, store_key. cbn. destruct (String.eqb k k0); cbn; [done|].
  by destruct (list_find _ _).
Qed.

Lemma idempotent_persists req create st :
  (forall body st, persists st (create body st).2) -> persists st (idempotent req create st).2.
Proof.
  intros Hc. unfold idempotent.
  destruct (header "PayPal-Request-Id" req) as [k|]; [|apply Hc].
  destruct (key_reply k st) as [[]|] eqn:Hk; [apply persists_refl|].
  pose proof (Hc (hr_body req) st) as Hp.
  destruct (create (hr_body req) st) as [[] st']; [|exact Hp].
  destruct Hp as (Hc' & Hs' & Ht' & Hk'). cbn [snd] in *. split; [done|]. split; [done|]. split; [done|].
  intros k0 r Hr. rewrite key_reply_store.
  destruct (String.eqb_spec k k0); [congruence|auto].
Qed.

Lemma exchange_persists req st : persists st (exchange req st).2.
Proof.
  unfold exchange. destruct (resolve (hr_url req)) as [path|]; [|apply persists_refl].
  destruct (hr_method req).
  - destruct (negb _); [apply persists_refl|]. by destruct (lookup_resource _ _).
  - case_bool_decide.
    { unfold issue_token. case_bool_decide; [apply with_token_persists | apply persists_refl]. }
    destruct (negb _); [apply persists_refl|].
    destruct (creator path) eqn:Hc; [|apply persists_refl].
    apply idempotent_persists. by eapply creator_persists.
Qed.

Lemma reaches_persists st st' : reaches st st' -> persists st st'.
Proof.
  induction 1 as [st|st req t st' st'' Hx _ IH]; [apply persists_refl|].
  eapply persists_trans; [|exact IH].
  pose proof (exchange_persists req st) as Hp. by rewrite Hx in Hp.
Qed.

(** So what the server had at [st0] is an invariant of every exchange. *)
Lemma exchange_keeps st0 : api_keeps (persists st0).
Proof.
  intros req st t st' Hp Hx. eapply persists_trans; [exact Hp|].
  pose proof (exchange_persists req st) as H. cbn in Hx. by rewrite Hx in H.
Qed.

(** ** The server behind the routes *)

Lemma api_host e : env_lookup "PAYPAL_MODE" e = Some "sandbox" -> Config.PAYPAL_API e = host.
Proof. intros H. unfold Config.PAYPAL_API, process_env. by rewrite H. Qed.

(** The token request of a deployment of this server's client is
    granted a fresh token. *)
Lemma exchange_token e st :
  sandbox_env e st ->
  exchange (Config.token_request e) st =
    (Reply 200 (JObj [("scope", JStr "https://uri.paypal.com/services/subscriptions");
                      ("access_token", JStr (token_of (pp_next st))); ("token_type", JStr "Bearer");
                      ("expires_in", JNum 32400)]), with_token st).
Proof.
  intros (Hm & Hc & Hs). unfold exchange.
  replace (resolve _) with (Some ["v1"; "oauth2"; "token"])
    by (cbn [hr_url Config.token_request]; rewrite api_host by done; reflexivity).
  cbn [hr_method Config.token_request]. rewrite bool_decide_true by done.
  unfold issue_token. rewrite bool_decide_true; [reflexivity|].
  unfold header, Config.token_request, Config.auth, process_env. rewrite Hc, Hs. reflexivity.
Qed.

(** A subscription request whose key has a stored reply gets that
    reply, whatever it asks for, and creates nothing. *)
Lemma exchange_replay e st tok data n s d :
  env_lookup "PAYPAL_MODE" e = Some "sandbox" -> tok ∈ pp_tokens st ->
  key_reply ("SUB-" +:+ pretty n) st = Some (s, d) ->
  exchange (subscription_request e (JStr tok) data n) st = (Reply s d, st).
Proof.
  intros Hm Ht Hk. unfold exchange.
  replace (resolve _) with (Some ["v1"; "billing"; "subscriptions"])
    by (cbn [hr_url subscription_request]; rewrite api_host by done; reflexivity).
  cbn [hr_method subscription_request]. rewrite bool_decide_false by done.
  replace (authorized _ st) with true.
  2: { symmetry. unfold authorized. replace (header _ _) with (Some ("Bearer " +:+ tok)) by reflexivity.
       apply existsb_exists. exists tok. split; [by apply list_elem_of_In | apply String.eqb_refl]. }
  replace (creator _) with (Some create_subscription) by reflexivity.
  cbn [negb]. unfold idempotent.
  replace (header "PayPal-Request-Id" _) with (Some ("SUB-" +:+ pretty n)) by reflexivity.
  by rewrite Hk.
Qed.

(** A path parameter [../plans/<pid>] names the plan [pid]: the
    [GET] of [checkSubscriptionStatus] resolves to [/v1/billing/plans/<pid>]. *)
Lemma resolve_traversal e tok pid :
  env_lookup "PAYPAL_MODE" e = Some "sandbox" ->
  split_path pid = [pid] -> String.eqb pid ".." = false -> String.eqb pid "." = false ->
  resolve (hr_url (status_request e tok (JStr ("../plans/" +:+ pid)))) =
    Some ["v1"; "billing"; "plans"; pid].
Proof.
  intros Hm Hs Hdd Hd. cbn [hr_url status_request js_to_string]. rewrite api_host by done.
  unfold resolve, host. rewrite !string_app_cons. cbn [strip_prefix Ascii.eqb Bool.eqb].
  rewrite !string_app_nil_l. cbn [split_path]. rewrite Hs. cbn. by rewrite Hdd, Hd.
Qed.

(** A [GET] with a token the server issued reads the resource its URL
    resolves to. *)
Lemma exchange_get e st tok sid path v :
  tok ∈ pp_tokens st -> resolve (hr_url (status_request e (JStr tok) sid)) = Some path ->
  lookup_resource path st = Some v ->
  exchange (status_request e (JStr tok) sid) st = (Reply 200 v, st).
Proof.
  intros Ht Hr Hl. unfold exchange. rewrite Hr. cbn [hr_method status_request].
  replace (authorized _ st) with true.
  2: { symmetry. unfold authorized. replace (header _ _) with (Some ("Bearer " +:+ tok)) by reflexivity.
       apply existsb_exists. exists tok. split; [by apply list_elem_of_In | apply String.eqb_refl]. }
  cbn [negb]. by rewrite Hl.
Qed.

#[local] Arguments exchange : simpl never.

(** C19: [PayPal-Request-Id: SUB-<Date.now()>] makes every [POST /subscribe]
    of one millisecond the same request for PayPal.  Once a reply is
    stored under the key of millisecond [n] (by the first subscription of
    that millisecond), any number of exchanges later (other routes,
    other clients), two [POST /subscribe] requests run at [n] for any two
    plans have the same run: the same response (the first
    subscription's id and approval link) and the same final state. *)
Theorem paypal_same_ms_subscribe_replays e (w0 w : world paypal) req1 req2 planId1 planId2 s d :
  sandbox_env e (w_proc w0) ->
  key_reply ("SUB-" +:+ pretty (w_clock w)) (w_proc w0) = Some (s, d) ->
  reaches (w_proc w0) (w_proc w) ->
  js_destructure "req.body" (req_body req1) "planId" = Ok planId1 ->
  js_destructure "req.body" (req_body req2) "planId" = Ok planId2 ->
  route_subscribe e req1 w = route_subscribe e req2 w.
Proof.
  intros (Hm & Hc & Hs) Hk Hr H1 H2.
  destruct (reaches_persists _ _ Hr) as (Hc' & Hs' & _ & Hk').
  assert (Htok := exchange_token e (w_proc w) ltac:(unfold sandbox_env; rewrite Hc', Hs'; by repeat split)).
  assert (Hrep : forall data, exchange (subscription_request e (JStr (token_of (pp_next (w_proc w))))
                                         data (w_clock w)) (with_token (w_proc w)) =
                              (Reply s d, with_token (w_proc w))).
  { intros data. apply exchange_replay; [done | by left |].
    apply (with_token_persists (w_proc w)), Hk', Hk. }
  unfold route_subscribe, createSubscription, Config.getAccessToken.
  vp_eval. destruct (iso_string _); vp_eval; [rewrite !Hrep; vp_eval|]; reflexivity.
Qed.

(** C20: [GET /check-subscription/:subscriptionId] puts the path
    parameter into the URL unescaped.  Express decodes [%2F] in a
    parameter, so the request [/check-subscription/..%2Fplans%2F<pid>]
    has [subscriptionId = "../plans/<pid>"], the URL resolves to the
    billing plan [pid], and the route answers with the plan's fields as
    if they were a subscription's (its [id], and its [status], ["ACTIVE"]
    for every plan this server creates). *)
Theorem paypal_check_subscription_traversal e (w : world paypal) b pid fs :
  sandbox_env e (w_proc w) ->
  split_path pid = [pid] -> String.eqb pid ".." = false -> String.eqb pid "." = false ->
  lookup_resource ["v1"; "billing"; "plans"; pid] (w_proc w) = Some (JObj fs) ->
  fst (route_check_subscription e (mk_request (JObj [("subscriptionId", JStr ("../plans/" +:+ pid))]) b) w) =
    Ok (res_json (JObj [("id", field "id" fs); ("status", field "status" fs);
                        ("plan_id", field "plan_id" fs); ("start_time", field "start_time" fs);
                        ("next_billing_time", js_opt_get (field "billing_info" fs) "next_billing_time");
                        ("last_payment", js_opt_get (field "billing_info" fs) "last_payment")])).
Proof.
  intros (Hm & Hc & Hs) Hsp Hdd Hd Hl.
  assert (Htok := exchange_token e (w_proc w) (conj Hm (conj Hc Hs))).
  assert (Hget := exchange_get e (with_token (w_proc w)) (token_of (pp_next (w_proc w)))
                    (JStr ("../plans/" +:+ pid)) _ _ ltac:(by left)
                    (resolve_traversal e _ pid Hm Hsp Hdd Hd) Hl).
  unfold route_check_subscription, checkSubscriptionStatus, details_snapshot, Config.getAccessToken.
  vp_eval. reflexivity.
Qed.
End OnSandbox.

(** ** The sandbox meets the contract of the PayPal routes

    The server keeps every subscription it created at its path, with its
    id and status; a reply it stored under a [SUB-] key names a
    subscription it holds; and the ids it gives are single path segments
    the URL parser leaves alone.  Under these invariants the exchanges
    of the routes satisfy [PayPalContract]. *)

Module Contract.
Import Rest Payment OnSandbox.

Definition sub_path (s : string) : list string := ["v1"; "billing"; "subscriptions"; s].

(** An id that resolves to one segment of a URL path. *)
Definition safe_id (s : string) : bool :=
  negb (has_slash s) && negb (String.eqb s "..") && negb (String.eqb s ".").

Definition holds (st : paypal) (s : string) : Prop :=
  safe_id s = true /\ is_Some (lookup_resource (sub_path s) st).

Definition subs_ok (st : paypal) : Prop :=
  forall s v, In (sub_path s, v) (pp_resources st) ->
    js_get v "id" = Ok (JStr s) /\ js_get v "status" = Ok (JStr "APPROVAL_PENDING").

Definition keys_ok (st : paypal) : Prop :=
  forall (n : Z) status d, key_reply ("SUB-" +:+ pretty n) st = Some (status, d) ->
    validate_status status = true -> exists s, js_get d "id" = Ok (JStr s) /\ holds st s.

Definition sb_inv (e : env) (st : paypal) : Prop := sandbox_env e st /\ subs_ok st /\ keys_ok st.

Definition issued (st : paypal) (tok : string) : Prop := tok ∈ pp_tokens st.

(** *** Lemmas *)

Lemma pretty_N_go_no_slash x s : has_slash s = false -> has_slash (pretty_N_go x s) = false.
Proof.
  revert s. induction (N.lt_wf_0 x) as [x _ IH]; intros s Hs.
  destruct (decide (x = 0%N)) as [->|Hx]; [by rewrite pretty_N_go_0|].
  rewrite pretty_N_go_step by lia. apply IH; [apply N.div_lt; lia|].
  cbn. rewrite Hs, orb_false_r. unfold pretty_N_char. by repeat case_match.
Qed.

Lemma pretty_Z_no_slash (n : Z) : has_slash (pretty n) = false.
Proof.
  assert (HN : forall x : N, has_slash (pretty x) = false).
  { intros x. unfold pretty, pretty_N. case_decide; [done|]. by apply pretty_N_go_no_slash. }
  destruct n; [done|apply HN|]. cbn. rewrite has_slash_app. apply HN.
Qed.

Lemma safe_fresh (n : Z) : safe_id ("I-" +:+ pretty n) = true.
Proof.
  unfold safe_id. rewrite has_slash_app, pretty_Z_no_slash. rewrite !string_app_cons. reflexivity.
Qed.

Lemma lookup_resource_in path st v :
  lookup_resource path st = Some v -> In (path, v) (pp_resources st).
Proof.
  unfold lookup_resource. destruct (list_find _ _) as [[i [p v']]|] eqn:Hf; [|done].
  intros [= ->]. apply list_find_Some in Hf as (Hl & Hp & _). apply bool_decide_unpack in Hp.
  cbn in Hp. subst p. apply list_elem_of_In. by eapply list_elem_of_lookup_2.
Qed.

Lemma lookup_add path' path v st :
  lookup_resource path' (add_resource path v st) =
    if bool_decide (path = path') then Some v else lookup_resource path' st.
Proof.
  unfold lookup_resource, add_resource. cbn. case_bool_decide; [done|].
  by destruct (list_find _ _).
Qed.

Lemma holds_add st path v s : holds st s -> holds (add_resource path v st) s.
Proof.
  intros [Hs Hl]. split; [done|]. rewrite lookup_add. by case_bool_decide.
Qed.

(** The [GET] of a safe subscription id resolves to the subscription's path. *)
Lemma resolve_status e tok s :
  env_lookup "PAYPAL_MODE" e = Some "sandbox" -> safe_id s = true ->
  resolve (hr_url (status_request e tok (JStr s))) = Some (sub_path s).
Proof.
  intros Hm Hs. unfold safe_id in Hs. apply andb_true_iff in Hs as [Hs Hd].
  apply andb_true_iff in Hs as [Hs Hdd]. apply negb_true_iff in Hs, Hdd, Hd.
  cbn [hr_url status_request js_to_string]. rewrite api_host by done.
  unfold resolve, host. rewrite !string_app_cons. cbn [strip_prefix Ascii.eqb Bool.eqb].
  rewrite !string_app_nil_l. cbn [split_path]. rewrite split_path_no_slash by done.
  cbn. by rewrite Hdd, Hd.
Qed.

(** The subscription request reaches the creator of subscriptions. *)
Lemma exchange_subscription e st tok data n :
  env_lookup "PAYPAL_MODE" e = Some "sandbox" -> tok ∈ pp_tokens st ->
  exchange (subscription_request e (JStr tok) data n) st =
    idempotent (subscription_request e (JStr tok) data n) create_subscription st.
Proof.
  intros Hm Ht. unfold exchange.
  replace (resolve _) with (Some ["v1"; "billing"; "subscriptions"])
    by (cbn [hr_url subscription_request]; rewrite api_host by done; reflexivity).
  cbn [hr_method subscription_request]. rewrite bool_decide_false by done.
  replace (authorized _ st) with true.
  2: { symmetry. unfold authorized. replace (header _ _) with (Some ("Bearer " +:+ tok)) by reflexivity.
       apply existsb_exists. exists tok. split; [by apply list_elem_of_In | apply String.eqb_refl]. }
  reflexivity.
Qed.

(** A subscription just created is held, and keeps the invariants. *)
Lemma create_fresh e st k body v st' :
  sb_inv e st -> create_subscription body st = (Reply 201 v, st') ->
  exists s, js_get v "id" = Ok (JStr s) /\ sb_inv e (store_key k (201%Z, v) st') /\
    holds (store_key k (201%Z, v) st') s.
Proof.
  intros (Henv & Hsubs & Hkeys) Hc. unfold create_subscription in Hc.
  repeat case_match; try discriminate. injection Hc as Hv <-. rewrite Hv.
  set (id := "I-" +:+ pretty (pp_next st)) in *.
  assert (Hh : holds (store_key k (201%Z, v) (add_resource (sub_path id) v st)) id).
  { split; [apply safe_fresh|].
    change (is_Some (lookup_resource (sub_path id) (add_resource (sub_path id) v st))).
    rewrite (lookup_add _ _ v st). rewrite bool_decide_true by done.
    by eexists. }
  exists id. split; [by rewrite <- Hv|]. split; [|exact Hh]. split; [exact Henv|]. split.
  - intros s0 v0 [Hin|Hin]; [|by apply Hsubs]. injection Hin as Hs0 <-. subst s0.
    by rewrite <- Hv.
  - intros m status d Hk Hok. rewrite key_reply_store in Hk.
    destruct (String.eqb k _); [injection Hk as <- <-; exists id; split; [by rewrite <- Hv | exact Hh]|].
    destruct (Hkeys m status d Hk Hok) as (s1 & Hid & Hh1). exists s1. split; [done|].
    by apply (holds_add _ (sub_path id) v s1) in Hh1.
Qed.

#[export] Instance sandbox_contract (e : env) : PayPalContract e (sb_inv e) holds issued.
Proof.
  split.
  - intros p (Henv & Hsubs & Hkeys).
    exists (token_reply (pp_next p)), (token_of (pp_next p)), (with_token p).
    split; [exact (exchange_token e p Henv)|]. split; [reflexivity|].
    split; [split; [exact Henv|split; [exact Hsubs|exact Hkeys]]|]. split; [by left|].
    intros s Hs. exact Hs.
  - intros p tok data n st d p' s Hinv Hval Hx Hv Hid. cbn in Hx.
    destruct Hinv as [Henv Hrest].
    rewrite exchange_subscription in Hx by (done || apply Henv). unfold idempotent in Hx.
    replace (header "PayPal-Request-Id" _) with (Some ("SUB-" +:+ pretty n)) in Hx by reflexivity.
    destruct (key_reply _ p) as [[st1 d1]|] eqn:Hk.
    + injection Hx as -> -> ->. destruct Hrest as [Hsubs Hkeys].
      destruct (Hkeys n st d Hk Hv) as (s1 & Hid1 & Hh). rewrite Hid in Hid1. injection Hid1 as <-.
      split; [split; [exact Henv|split; [exact Hsubs|exact Hkeys]] | exact Hh].
    + destruct (create_subscription _ p) as [[status data'|msg] p1] eqn:Hc; [|discriminate].
      injection Hx as <- <- <-.
      assert (H201 : status = 201%Z).
      { unfold create_subscription in Hc. repeat case_match; unfold invalid in *; simplify_eq; try done;
          vm_compute in Hv; congruence. }
      subst status.
      destruct (create_fresh e p ("SUB-" +:+ pretty n) _ _ _ (conj Henv Hrest) Hc)
        as (s1 & Hid1 & Hinv' & Hh). rewrite Hid in Hid1. injection Hid1 as <-. done.
  - intros p tok s (Henv & Hsubs & Hkeys) Hval [Hsafe [v Hl]].
    destruct Henv as (Hm & Hc & Hs').
    pose proof (exchange_get e p tok (JStr s) _ v Hval (resolve_status e (JStr tok) s Hm Hsafe) Hl) as Hg.
    destruct (Hsubs s v (lookup_resource_in _ _ _ Hl)) as [Hid Hst].
    exists v, "APPROVAL_PENDING". split; [exact Hg|]. split; [done|]. split; [done|]. by left.
Qed.

End Contract.


(** ** A stub server

    A server that answers each request from a fixed table and records
    the requests it receives: it stands for PayPal answering in ways the
    sandbox above never does (a token reply without [access_token], a
    subscription without an approval link). *)

Record stub := mk_stub {
  stub_reply : http_request -> transport;
  stub_seen : list http_request
}.

Module Stub.
#[export] Instance api : PayPalApi stub :=
  { send req st := (stub_reply st req, mk_stub (stub_reply st) (stub_seen st ++ [req])) }.
End Stub.

(** ** Scenarios and witnesses *)

Module Scenarios.
Import Rest Stub Payment OnSandbox Contract.

(** The environment of a sandbox deployment, and the server that knows
    its client. *)
Definition env0 : env :=
  [("PAYPAL_MODE", "sandbox"); ("PAYPAL_CLIENT_ID", "AbC"); ("PAYPAL_SECRET", "s3cr")].

Definition server0 : paypal := mk_paypal "AbC" "s3cr" [] [] [] 1.

(** [Date.now()] during the scenarios: 2023-11-14T22:13:20.000Z. *)
Definition now0 : Z := 1700000000000.

Definition world0 : world paypal := mk_world server0 [] now0.

Definition no_request : request := mk_request (JObj []) (JObj []).

Definition subscribe_req (planId : string) : request :=
  mk_request (JObj []) (JObj [("planId", JStr planId)]).

Definition check_req (sid : string) : request :=
  mk_request (JObj [("subscriptionId", JStr sid)]) (JObj []).

(** The world after [GET /create-plan]. *)
Definition world1 : world paypal := snd (route_create_plan env0 no_request world0).


(** A deployment whose secret PayPal does not know. *)
Definition env_bad : env :=
  [("PAYPAL_MODE", "sandbox"); ("PAYPAL_CLIENT_ID", "AbC"); ("PAYPAL_SECRET", "wrong")].

(** Discharges the hypotheses of a theorem at a concrete run: each call
    is evaluated, and the results the theorem names are read off. *)
Ltac solve_concrete :=
  match goal with
  | |- ?l = ?r => let v := eval vm_compute in l in unify r v; vm_compute; reflexivity
  end.

(** The spec's scenario: creating the plan, subscribing to it, and
    checking the subscription, which PayPal reports as waiting for the
    buyer's approval. *)
Example plan_subscribe_check_scenario :
  fst (route_create_plan env0 no_request world0) =
    Ok (res_json (JObj [("planId", JStr "P-3")])) /\
  fst (route_subscribe env0 (subscribe_req "P-3") world1) =
    Ok (res_json (JObj [("approvalUrl", JStr "https://www.sandbox.paypal.com/webapps/billing/subscriptions?ba_token=BA-5");
                        ("subscriptionId", JStr "I-5")])) /\
  fst (route_check_subscription env0 (check_req "I-5")
         (snd (route_subscribe env0 (subscribe_req "P-3") world1))) =
    Ok (res_json (JObj [("id", JStr "I-5"); ("status", JStr "APPROVAL_PENDING");
                        ("plan_id", JStr "P-3"); ("start_time", JStr "2023-11-14T22:23:20.000Z");
                        ("next_billing_time", JUndef); ("last_payment", JUndef)])).
Proof. split; [|split]; vm_compute; reflexivity. Qed.

Lemma paypal_routes_total_witness :
  @nothrow (world paypal) jserror response (handle env0 Subscribe (subscribe_req "P-3")).
Proof. apply paypal_routes_total. split; reflexivity. Defined.

Lemma paypal_create_plan_success_witness :
  (exists v p, route_create_plan env0 no_request world0 =
     (Ok (res_json (JObj [("planId", v)])), mk_world p (w_log world0) (w_clock world0))
     /\ v = JStr "P-3").
Proof.
  eexists _, _. split; [eapply paypal_create_plan_success; solve_concrete | vm_compute; reflexivity].
Defined.

Lemma paypal_create_plan_auth_rejected_witness :
  exists d s p, route_create_plan env_bad no_request world0 =
    (Ok (res_status_json 500 (JObj [("error", js_or d (JStr (status_message s)))])),
     mk_world p (w_log world0 ++ [mk_log LogError [JStr "Error getting PayPal access token:";
                                                   js_or d (JStr (status_message s))]])
              (w_clock world0)) /\ s = 401%Z.
Proof.
  eexists _, _, _. split; [eapply paypal_create_plan_auth_rejected; solve_concrete | reflexivity].
Defined.

Lemma paypal_subscribe_success_witness :
  exists url sid p, route_subscribe env0 (subscribe_req "P-3") world1 =
    (Ok (res_json (JObj [("approvalUrl", url); ("subscriptionId", sid)])),
     mk_world p (w_log world1) (w_clock world1)) /\ sid = JStr "I-5".
Proof.
  eexists _, _, _. split; [eapply paypal_subscribe_success; solve_concrete | vm_compute; reflexivity].
Defined.

Lemma paypal_check_subscription_witness :
  exists body p, route_check_subscription env0 (check_req "I-5")
      (snd (route_subscribe env0 (subscribe_req "P-3") world1)) =
    (Ok (res_json body), p) /\ js_get body "id" = Ok (JStr "I-5").
Proof.
  eexists _, _. split; [eapply paypal_check_subscription; solve_concrete | vm_compute; reflexivity].
Defined.

Lemma paypal_check_subscription_upstream_error_witness :
  exists body p, route_check_subscription env0 (check_req "I-404") world1 =
    (Ok (res_status_json 500 body), p) /\
    body = JObj [("error", error_body "RESOURCE_NOT_FOUND" "The specified resource does not exist.")].
Proof.
  eexists _, _. split; [eapply paypal_check_subscription_upstream_error; solve_concrete
                       | vm_compute; reflexivity].
Defined.

Lemma paypal_basic_auth_roundtrip_witness :
  exists x, header "Authorization" (Config.token_request env0) = Some ("Basic " +:+ x) /\
            (b64_decode x ≫= utf8_decode) = Some ("AbC" +:+ ":" +:+ "s3cr").
Proof. apply Credentials.paypal_basic_auth_roundtrip; reflexivity. Defined.

(** A stub that answers the token request of [env0] with [body] and
    everything else with [other]. *)
Definition stub_token (body : jsval) (other : transport) : stub :=
  mk_stub (fun req => if String.eqb (hr_url req) (hr_url (Config.token_request env0))
                      then Reply 200 body else other) [].

(** PayPal creating a subscription whose [links] have no approval link. *)
Definition stub_no_approve : stub :=
  stub_token (JObj [("access_token", JStr "A21AA1")])
    (Reply 201 (JObj [("id", JStr "I-1"); ("status", JStr "APPROVAL_PENDING");
                      ("links", JArr [JObj [("href", JStr "https://api-m.sandbox.paypal.com/v1/billing/subscriptions/I-1");
                                            ("rel", JStr "self")]])])).

(** A token reply without [access_token]; every other call is refused. *)
Definition stub_no_token : stub :=
  stub_token (JObj [("token_type", JStr "Bearer")]) unauthorized.

Lemma paypal_subscribe_without_approve_link_witness :
  exists p, route_subscribe env0 (subscribe_req "P-1") (mk_world stub_no_approve [] now0) =
    (Ok (res_status_json 500 (JObj [("error",
           JStr "Cannot read properties of undefined (reading 'href')")])), mk_world p [] now0).
Proof. eexists. eapply paypal_subscribe_without_approve_link; solve_concrete. Defined.

Lemma paypal_token_without_access_token_witness :
  exists d s p,
    header "Authorization" (product_request env0 JUndef now0) = Some "Bearer undefined" /\
    route_create_plan env0 no_request (mk_world stub_no_token [] now0) =
      (Ok (res_status_json 500 (JObj [("error", js_or d (JStr (status_message s)))])),
       mk_world p [] now0).
Proof. eexists _, _, _. eapply paypal_token_without_access_token; solve_concrete. Defined.

(** The world after a first [POST /subscribe] for plan [P-3], in the
    millisecond of [world1]. *)
Definition world2 : world paypal := snd (route_subscribe env0 (subscribe_req "P-3") world1).

(** In the same millisecond, a second buyer asking for plan [P-7] (which
    does not even exist) is answered with the first buyer's subscription
    and approval link. *)
Example same_ms_replay_scenario :
  fst (route_subscribe env0 (subscribe_req "P-7") world2) =
    Ok (res_json (JObj [("approvalUrl", JStr "https://www.sandbox.paypal.com/webapps/billing/subscriptions?ba_token=BA-5");
                        ("subscriptionId", JStr "I-5")])) /\
  fst (route_subscribe env0 (subscribe_req "P-7")
         (mk_world (w_proc world2) (w_log world2) (now0 + 1))) =
    Ok (res_status_json 500 (JObj [("error", error_body "UNPROCESSABLE_ENTITY"
          "The requested action could not be performed: the plan does not exist.")])).
Proof. split; vm_compute; reflexivity. Qed.

Lemma paypal_same_ms_subscribe_replays_witness :
  route_subscribe env0 (subscribe_req "P-3") world2 = route_subscribe env0 (subscribe_req "P-7") world2.
Proof.
  eapply (paypal_same_ms_subscribe_replays env0 world2 world2);
    [repeat split | solve_concrete | apply reaches_refl | solve_concrete | solve_concrete].
Defined.

Lemma paypal_check_subscription_traversal_witness :
  exists fs,
    fst (route_check_subscription env0
           (mk_request (JObj [("subscriptionId", JStr ("../plans/" +:+ "P-3"))]) (JObj [])) world1) =
      Ok (res_json (JObj [("id", field "id" fs); ("status", field "status" fs);
                          ("plan_id", field "plan_id" fs); ("start_time", field "start_time" fs);
                          ("next_billing_time", js_opt_get (field "billing_info" fs) "next_billing_time");
                          ("last_payment", js_opt_get (field "billing_info" fs) "last_payment")])) /\
    field "status" fs = JStr "ACTIVE".
Proof.
  eexists. split; [eapply paypal_check_subscription_traversal; [repeat split | solve_concrete..]
                  | vm_compute; reflexivity].
Defined.
(** After [GET /create-plan] the server satisfies the invariant of the
    contract: it holds a product and a plan, and no reply under a
    [SUB-] key. *)
Lemma world1_inv : Contract.sb_inv env0 (w_proc world1).
Proof.
  split; [repeat split; reflexivity|]. split.
  - intros s v Hin. vm_compute in Hin.
    destruct Hin as [Hin|[Hin|[]]]; injection Hin; intros; discriminate.
  - intros n status d Hk. rewrite !string_app_cons in Hk. vm_compute in Hk. discriminate.
Qed.

Lemma paypal_subscribe_then_check_witness :
  Contract.sb_inv env0 (w_proc world1) /\
  exists fs w2,
    route_check_subscription env0 (check_req "I-5")
      (snd (route_subscribe env0 (subscribe_req "P-3") world1)) = (Ok (res_json (JObj fs)), w2) /\
    Contract.sb_inv env0 (w_proc w2) /\
    js_get (json_of (JObj fs)) "id" = Ok (JStr "I-5") /\
    exists st, js_get (json_of (JObj fs)) "status" = Ok (JStr st) /\ st ∈ paypal_statuses.
Proof.
  split; [exact world1_inv|].
  apply (paypal_subscribe_then_check env0 (Contract.sb_inv env0) Contract.holds Contract.issued
           (subscribe_req "P-3") world1
           (match fst (route_subscribe env0 (subscribe_req "P-3") world1) with
            | Ok r => r | Throw _ => res_json JUndef end));
    [exact world1_inv | vm_compute; reflexivity | vm_compute; reflexivity].
Defined.

End Scenarios.
