(* ===== verification/Server.v ===== *)
(** * The Express application (src/server.js)

    src/server.js loads the two routers, installs [express.json()], mounts
    the PayPal router under [/payment] and the Braintree router under
    [/braintree], and listens on [process.env.PORT || 3000].  This file
    models what the application does with a request before a handler of
    the routers runs: the body parser, the mount points, Express' route
    matching (case-insensitive, a trailing slash tolerated, one extra
    slash after a mount point taken, [:param] matching one segment of
    the raw path) and the decoding of route
    parameters with [decodeURIComponent] (a malformed escape answers
    400), and the state of the application, the pair of the two
    processors' states.  [serve_all] answers a sequence of requests and
    [startup] is the sequence of effects of loading and starting the
    server, in which the construction of the Braintree gateway can throw
    before [listen].  [Facts] proves that the server answers every
    request once (liveness), that a request that prints an error line is
    answered 500, that its matcher is the flat route table [route_table]
    (equivalence), what starting the server prints and when it fails,
    and that a subscription id a client receives, sent back in a
    check-subscription URL, is found (the composition of the server, the
    routers, [decodeURIComponent] and the routes, against each
    processor's contract). *)

From S2P Require Import Prelude Js Base64 Braintree SandboxBraintree PayPal SandboxPayPal.
From Stdlib Require Import Ascii.

Open Scope string_scope.

(** ** [decodeURIComponent], as Express applies it to route parameters *)

Module Uri.
Open Scope Z_scope.

Definition hex_value (c : ascii) : option Z :=
  let n := Z.of_N (N_of_ascii c) in
  if (48 <=? n) && (n <=? 57) then Some (n - 48)
  else if (65 <=? n) && (n <=? 70) then Some (n - 55)
  else if (97 <=? n) && (n <=? 102) then Some (n - 87)
  else None.

(** The bytes a percent-encoded string stands for: [%XX] is the byte
    [0xXX], any other character its code. *)
Fixpoint pct_bytes (s : string) : option (list Z) :=
  match s with
  | EmptyString => Some []
  | String c s' =>
      if Ascii.eqb c "%" then
        match s' with
        | String h (String l s'') =>
            match hex_value h, hex_value l with
            | Some a, Some b => cons (16 * a + b) <$> pct_bytes s''
            | _, _ => None
            end
        | _ => None
        end
      else cons (Z.of_N (N_of_ascii c)) <$> pct_bytes s'
  end.

(** [decodeURIComponent(s)]: the percent-decoded bytes read as UTF-8;
    [None] is the [URIError] it throws on a malformed escape or byte
    sequence. *)
Definition decodeURIComponent (s : string) : option string :=
  pct_bytes s ≫= utf8_decode.

(** [encodeURIComponent(s)], the encoding a client applies to a path
    parameter: the unreserved characters stay, every other byte of the
    UTF-8 form is written [%XX] with upper-case digits. *)
Definition unreserved (c : ascii) : bool :=
  let n := Z.of_N (N_of_ascii c) in
  ((48 <=? n) && (n <=? 57)) || ((65 <=? n) && (n <=? 90)) || ((97 <=? n) && (n <=? 122)) ||
  existsb (Ascii.eqb c) ["-"; "_"; "."; "!"; "~"; "*"; "'"; "("; ")"]%char.

Definition hex_digit (d : Z) : ascii :=
  ascii_of_N (Z.to_N (if d <? 10 then 48 + d else 55 + d)).

Definition encode_byte (b : Z) : string :=
  let c := ascii_of_N (Z.to_N b) in
  if (b <? 128) && unreserved c then String c ""
  else String "%" (String (hex_digit (b / 16)) (String (hex_digit (b mod 16)) "")).

Fixpoint encode_bytes (bs : list Z) : string :=
  match bs with
  | [] => ""
  | b :: bs' => encode_byte b +:+ encode_bytes bs'
  end.

Definition encodeURIComponent (s : string) : string := encode_bytes (utf8_bytes s).

(** *** Lemmas *)

Lemma hex_value_digit d : 0 <= d < 16 -> hex_value (hex_digit d) = Some d.
Proof.
  intros Hd.
  assert (d = 0 \/ d = 1 \/ d = 2 \/ d = 3 \/ d = 4 \/ d = 5 \/ d = 6 \/ d = 7 \/ d = 8 \/
          d = 9 \/ d = 10 \/ d = 11 \/ d = 12 \/ d = 13 \/ d = 14 \/ d = 15) as Hc by lia.
  repeat destruct Hc as [-> | Hc]; [reflexivity..|]. by subst.
Qed.

Lemma code_of_byte b : 0 <= b < 256 -> Z.of_N (N_of_ascii (ascii_of_N (Z.to_N b))) = b.
Proof.
  intros Hb. rewrite N_ascii_embedding by lia. lia.
Qed.

Lemma pct_bytes_encode_byte b rest :
  0 <= b < 256 -> pct_bytes (encode_byte b +:+ rest) = cons b <$> pct_bytes rest.
Proof.
  intros Hb. unfold encode_byte.
  destruct ((b <? 128) && unreserved (ascii_of_N (Z.to_N b))) eqn:Hu.
  - rewrite string_app_cons, string_app_nil_l. cbn [pct_bytes].
    destruct (Ascii.eqb _ "%") eqn:Hp.
    + apply Ascii.eqb_eq in Hp. rewrite Hp in Hu. by rewrite andb_false_r in Hu.
    + by rewrite code_of_byte.
  - rewrite !string_app_cons, string_app_nil_l. cbn [pct_bytes Ascii.eqb Bool.eqb].
    rewrite !hex_value_digit by (Z.to_euclidean_division_equations; lia).
    rewrite (Z.div_mod b 16) at 3 by lia. done.
Qed.

Lemma pct_bytes_encode bs : Forall byte_ok bs -> pct_bytes (encode_bytes bs) = Some bs.
Proof.
  induction 1 as [|b bs Hb Hbs IH]; [done|].
  cbn [encode_bytes]. by rewrite pct_bytes_encode_byte, IH.
Qed.
End Uri.

(** ** The application *)

Module App.
Import Uri.

(** Express matches paths case-insensitively. *)
Definition lower (c : ascii) : ascii :=
  let n := nat_of_ascii c in
  if (65 <=? n)%nat && (n <=? 90)%nat then ascii_of_nat (n + 32) else c.

Fixpoint lowercase (s : string) : string :=
  match s with
  | EmptyString => EmptyString
  | String c s' => String (lower c) (lowercase s')
  end.

Definition seg_is (lit seg : string) : bool := String.eqb (lowercase seg) lit.

(** Non-strict routing: one trailing slash is ignored. *)
Definition strip_trailing (segs : list string) : list string :=
  match reverse segs with
  | "" :: rest => reverse rest
  | _ => segs
  end.

(** The routes of src/routes/payment.js: a route and its raw
    [:subscriptionId] segment. *)
Definition paypal_router (m : http_method) (segs : list string)
    : option (PayPal.Payment.route * option string) :=
  match m, segs with
  | GET, [s] => if seg_is "create-plan" s then Some (PayPal.Payment.CreatePlan, None) else None
  | POST, [s] => if seg_is "subscribe" s then Some (PayPal.Payment.Subscribe, None) else None
  | GET, [s; p] =>
      if seg_is "check-subscription" s && negb (String.eqb p "")
      then Some (PayPal.Payment.CheckSubscription, Some p) else None
  | _, _ => None
  end.

(** The routes of src/routes/braintree.js. *)
Definition braintree_router (m : http_method) (segs : list string)
    : option (Braintree.Routes.route * option string) :=
  match m, segs with
  | POST, [s] =>
      if seg_is "subscribe" s then Some (Braintree.Routes.Subscribe, None)
      else if seg_is "test-subscription" s then Some (Braintree.Routes.TestSubscription, None)
      else None
  | GET, [s] => if seg_is "test-connection" s then Some (Braintree.Routes.TestConnection, None) else None
  | GET, [s; p] =>
      if seg_is "check-subscription" s && negb (String.eqb p "")
      then Some (Braintree.Routes.CheckSubscription, Some p) else None
  | POST, [s; p] =>
      if seg_is "update-card" s && negb (String.eqb p "")
      then Some (Braintree.Routes.UpdateCard, Some p) else None
  | _, _ => None
  end.

Inductive app_route :=
| PayPalRoute (r : PayPal.Payment.route)
| BraintreeRoute (r : Braintree.Routes.route).

(** The path a router sees below its mount point.  The mount's pattern,
    [/^\/payment\/?(?=\/|$)/i], takes one more slash when two follow the
    mount point, so that [/payment//subscribe] reaches the router as
    [/subscribe]. *)
Definition mount_rest (rest : list string) : list string :=
  match rest with
  | "" :: ((_ :: _) as rest') => rest'
  | _ => rest
  end.

(** [app.use('/payment', ...)] and [app.use('/braintree', ...)] (lines 8
    and 11): the first segment chooses the router, which matches the rest. *)
Definition app_match (m : http_method) (segs : list string) : option (app_route * option string) :=
  match strip_trailing segs with
  | "" :: mount :: rest =>
      let rest := mount_rest rest in
      if seg_is "payment" mount then (fun '(r, p) => (PayPalRoute r, p)) <$> paypal_router m rest
      else if seg_is "braintree" mount then
        (fun '(r, p) => (BraintreeRoute r, p)) <$> braintree_router m rest
      else None
  | _ => None
  end.

(** A request as it reaches the application: its method, its path (the
    URL without the query) and, when its content type is JSON, the value
    its body parses to. *)
Record incoming := mk_incoming {
  in_method : http_method;
  in_path : string;
  in_json : option jsval
}.

(** [express.json()] (line 5), as Express 4's body parser behaves:
    without a JSON body [req.body] is [{}];
    in strict mode only an object or an array is accepted, any other
    value is rejected with a 400. *)
Definition json_body (j : option jsval) : option jsval :=
  match j with
  | None => Some (JObj [])
  | Some (JObj fs) => Some (JObj fs)
  | Some (JArr l) => Some (JArr l)
  | Some _ => None
  end.

(** [req.params], from the raw segment: [decode_param] applies
    [decodeURIComponent] and turns its [URIError] into a 400. *)
Definition decode_params (raw : option string) : option jsval :=
  match raw with
  | None => Some (JObj [])
  | Some p => (fun v => JObj [("subscriptionId", JStr v)]) <$> decodeURIComponent p
  end.

Definition method_name (m : http_method) : string :=
  match m with GET => "GET" | POST => "POST" end.

(** *** The interface as a flat table

    The routes of the application as one table: method, path pattern
    (literal segments and the [:subscriptionId] parameter) and route;
    the spec's interface table (section 6) with [/payment] for its
    [/wallet] and [/braintree] for its [/braintree-like], plus the
    [test-subscription] route the code adds. *)
Inductive seg_pat := Lit (s : string) | Param.

Definition route_table : list (http_method * list seg_pat * app_route) :=
  [(GET, [Lit "payment"; Lit "create-plan"], PayPalRoute PayPal.Payment.CreatePlan);
   (POST, [Lit "payment"; Lit "subscribe"], PayPalRoute PayPal.Payment.Subscribe);
   (GET, [Lit "payment"; Lit "check-subscription"; Param], PayPalRoute PayPal.Payment.CheckSubscription);
   (POST, [Lit "braintree"; Lit "subscribe"], BraintreeRoute Braintree.Routes.Subscribe);
   (GET, [Lit "braintree"; Lit "check-subscription"; Param],
    BraintreeRoute Braintree.Routes.CheckSubscription);
   (POST, [Lit "braintree"; Lit "update-card"; Param], BraintreeRoute Braintree.Routes.UpdateCard);
   (GET, [Lit "braintree"; Lit "test-connection"], BraintreeRoute Braintree.Routes.TestConnection);
   (POST, [Lit "braintree"; Lit "test-subscription"], BraintreeRoute Braintree.Routes.TestSubscription)].

(** A pattern against the segments of a path: [Some p] with the
    parameter's value [p], if the pattern has one. *)
Fixpoint match_pat (pat : list seg_pat) (segs : list string) : option (option string) :=
  match pat, segs with
  | [], [] => Some None
  | Lit l :: pat', s :: segs' => if seg_is l s then match_pat pat' segs' else None
  | Param :: pat', s :: segs' =>
      if String.eqb s "" then None else (fun _ => Some s) <$> match_pat pat' segs'
  | _, _ => None
  end.

Definition method_eqb (m m' : http_method) : bool :=
  match m, m' with GET, GET | POST, POST => true | _, _ => false end.

Fixpoint first_route (m : http_method) (segs : list string)
    (tbl : list (http_method * list seg_pat * app_route)) : option (app_route * option string) :=
  match tbl with
  | [] => None
  | (m', pat, r) :: tbl' =>
      match (if method_eqb m m' then match_pat pat segs else None) with
      | Some p => Some (r, p)
      | None => first_route m segs tbl'
      end
  end.

Definition table_match (m : http_method) (segs : list string) : option (app_route * option string) :=
  match strip_trailing segs with
  | "" :: mount :: rest => first_route m (mount :: mount_rest rest) route_table
  | _ => None
  end.

(** The application's state: the states of the two processors. *)
Section App.
Context {P G : Type} `{!PayPalApi P} `{!BraintreeGateway G} (e : env).

Definition on_paypal {A} (m : JS P A) : JS (P * G) A :=
  fun w => let '(o, w') := m (mk_world (w_proc w).1 (w_log w) (w_clock w)) in
           (o, mk_world (w_proc w', (w_proc w).2) (w_log w') (w_clock w')).

Definition on_braintree {A} (m : JS G A) : JS (P * G) A :=
  fun w => let '(o, w') := m (mk_world (w_proc w).2 (w_log w) (w_clock w)) in
           (o, mk_world ((w_proc w).1, w_proc w') (w_log w') (w_clock w')).

(** One request through the application: the body parser, then the
    routers; an unmatched request gets Express' 404 ["Cannot GET /x"]
    (the HTML page around the text is not modelled). *)
Definition serve (req : incoming) : JS (P * G) response :=
  match json_body (in_json req) with
  | None => ret (mk_response 400 JUndef)
  | Some body =>
      match app_match (in_method req) (split_path (in_path req)) with
      | None => ret (mk_response 404 (JStr ("Cannot " +:+ method_name (in_method req) +:+ " " +:+
                                            in_path req)))
      | Some (r, raw) =>
          match decode_params raw with
          | None => ret (mk_response 400 (JStr ("Failed to decode param '" +:+ default "" raw +:+ "'")))
          | Some params =>
              let request := mk_request params body in
              match r with
              | PayPalRoute r => on_paypal (PayPal.Payment.handle e r request)
              | BraintreeRoute r => on_braintree (Braintree.Routes.handle r request)
              end
          end
      end
  end.

(** The server answering a sequence of requests, one after the other
    (each handler runs to completion before the next request). *)
Fixpoint serve_all (reqs : list incoming) : JS (P * G) (list response) :=
  match reqs with
  | [] => ret []
  | req :: reqs' =>
      let* resp := serve req in
      let* resps := serve_all reqs' in
      ret (resp :: resps)
  end.

(** [const PORT = process.env.PORT || 3000] (line 13). *)
Definition PORT : jsval := js_or (process_env e "PORT") (JNum 3000).

(** Loading and starting the server: [require('./routes/payment')] loads
    src/config/paypal.js, which prints the client id (line 8);
    [require('./routes/braintree')] loads src/config/braintree.js, whose
    [new braintree.BraintreeGateway(...)] throws when a credential is
    missing (line 11): the exception escapes the module loader and the
    process ends before [app.listen]; otherwise the [listen] callback
    prints the port (lines 13-16). *)
Definition startup : JS (P * G) unit :=
  PayPal.Config.module_load e ;;;
  lift (Braintree.Config.BraintreeGateway_new e) ;;;
  console_log [JStr ("Server running on port " +:+ js_to_string PORT)].
End App.
End App.

(** ** Properties of the application *)

Module Facts.
Import Uri App.

Lemma hex_digit_not_slash d : (0 <= d < 16)%Z -> Ascii.eqb (hex_digit d) "/" = false.
Proof.
  intros Hd.
  assert (d = 0 \/ d = 1 \/ d = 2 \/ d = 3 \/ d = 4 \/ d = 5 \/ d = 6 \/ d = 7 \/ d = 8 \/
          d = 9 \/ d = 10 \/ d = 11 \/ d = 12 \/ d = 13 \/ d = 14 \/ d = 15)%Z as Hc by lia.
  repeat destruct Hc as [-> | Hc]; [reflexivity..|]. by subst.
Qed.

Lemma encode_byte_no_slash b : (0 <= b < 256)%Z -> has_slash (encode_byte b) = false.
Proof.
  intros Hb. unfold encode_byte.
  destruct ((b <? 128)%Z && unreserved _) eqn:Hu; cbn [has_slash].
  - destruct (Ascii.eqb _ "/") eqn:Hs; [|done].
    apply Ascii.eqb_eq in Hs. rewrite Hs in Hu. by rewrite andb_false_r in Hu.
  - rewrite !hex_digit_not_slash by (Z.to_euclidean_division_equations; lia). done.
Qed.

(** An encoded parameter is one path segment. *)
Lemma encode_no_slash s : has_slash (encodeURIComponent s) = false.
Proof.
  unfold encodeURIComponent. induction (utf8_bytes_ok s) as [|b bs Hb _ IH]; [done|].
  cbn [encode_bytes]. by rewrite has_slash_app, encode_byte_no_slash, IH.
Qed.

Lemma encode_nonempty s : s <> "" -> exists c x, encodeURIComponent s = String c x.
Proof.
  destruct s as [|ch s']; [done|]. intros _. unfold encodeURIComponent. cbn [utf8_bytes].
  unfold utf8_unit. destruct (_ <? 128)%Z; cbn [app encode_bytes]; unfold encode_byte;
    destruct (_ && _); eexists _, _; rewrite string_app_cons; reflexivity.
Qed.

Lemma decode_encode s : decodeURIComponent (encodeURIComponent s) = Some s.
Proof.
  unfold decodeURIComponent, encodeURIComponent.
  rewrite pct_bytes_encode by apply utf8_bytes_ok. apply utf8_roundtrip.
Qed.

(** The two [check-subscription] routes match any non-empty segment. *)
Lemma app_match_check p :
  p <> "" ->
  app_match GET [""; "payment"; "check-subscription"; p] = Some (PayPalRoute PayPal.Payment.CheckSubscription, Some p) /\
  app_match GET [""; "braintree"; "check-subscription"; p] =
    Some (BraintreeRoute Braintree.Routes.CheckSubscription, Some p).
Proof. destruct p; [done|]. by split. Qed.

Lemma seg_is_other a b s : seg_is a s = true -> seg_is b s = String.eqb a b.
Proof. unfold seg_is. intros Ha%String.eqb_eq. by rewrite Ha. Qed.

(** C26: the application's matcher is the route table: for every method
    and path, mounting the two routers under [/payment] and [/braintree]
    (with Express' case-insensitive, non-strict matching) selects the
    same route, with the same raw parameter, as a search of the flat
    table of the eight routes, the first entry that matches winning. *)
Theorem app_match_table (m : http_method) (segs : list string) :
  app_match m segs = table_match m segs.
Proof.
  unfold app_match, table_match. destruct (strip_trailing segs) as [|s0 rest]; [done|].
  destruct s0 as [|c s0]; [|done]. destruct rest as [|mount rest]; [done|].
  generalize (mount_rest rest). clear rest. intros rest.
  destruct (seg_is "payment" mount) eqn:Hp;
    [pose proof (seg_is_other _ "braintree" _ Hp) as Hb; cbn in Hb|
     destruct (seg_is "braintree" mount) eqn:Hb];
    destruct m, rest as [|a [|b [|c' more]]]; cbn; rewrite ?Hp, ?Hb; cbn; try done;
    repeat (case_match; simplify_eq/=; try done).
Qed.

Lemma encode_ne s : s <> "" -> encodeURIComponent s <> "".
Proof. intros Hs. by destruct (encode_nonempty s Hs) as (c & x & ->). Qed.

(** The segments of a check-subscription path with an encoded parameter. *)
Lemma check_paths s :
  s <> "" ->
  split_path ("/payment/check-subscription/" +:+ encodeURIComponent s) =
    [""; "payment"; "check-subscription"; encodeURIComponent s] /\
  split_path ("/braintree/check-subscription/" +:+ encodeURIComponent s) =
    [""; "braintree"; "check-subscription"; encodeURIComponent s].
Proof.
  intros Hs. pose proof (encode_no_slash s) as Hns.
  destruct (encode_nonempty s Hs) as (c & x & Hx). rewrite Hx in Hns |- *.
  rewrite !string_app_cons, !string_app_nil_l. cbn [has_slash] in Hns.
  apply orb_false_iff in Hns as [Hc Hns]. cbn [split_path].
  rewrite split_path_no_slash, Hc by done. split; reflexivity.
Qed.

Lemma decode_params_encode s :
  decode_params (Some (encodeURIComponent s)) = Some (JObj [("subscriptionId", JStr s)]).
Proof. unfold decode_params. by rewrite decode_encode. Qed.

Section Facts.
Context {P G : Type} `{!PayPalApi P} `{!BraintreeGateway G} (e : env).

(** *** Running a processor's computation inside the application *)

Lemma on_paypal_nothrow {A} (m : JS P A) : nothrow m -> nothrow (on_paypal (G:=G) m).
Proof.
  intros Hm w. unfold on_paypal.
  match goal with |- context [m ?w0] => destruct (Hm w0) as (a & w' & ->) end. eauto.
Qed.

Lemma on_braintree_nothrow {A} (m : JS G A) : nothrow m -> nothrow (on_braintree (P:=P) m).
Proof.
  intros Hm w. unfold on_braintree.
  match goal with |- context [m ?w0] => destruct (Hm w0) as (a & w' & ->) end. eauto.
Qed.

(** An error line printed by a handler, through the application. *)
Lemma on_paypal_error_500 (m : JS P response) : error_500 m -> error_500 (on_paypal (G:=G) m).
Proof.
  intros Hm w o w'. unfold on_paypal. destruct (m _) as [o1 w1] eqn:Hr. intros [= <- <-].
  destruct (Hm _ _ _ Hr) as (l & Hl & H). by exists l.
Qed.

Lemma on_braintree_error_500 (m : JS G response) : error_500 m -> error_500 (on_braintree (P:=P) m).
Proof.
  intros Hm w o w'. unfold on_braintree. destruct (m _) as [o1 w1] eqn:Hr. intros [= <- <-].
  destruct (Hm _ _ _ Hr) as (l & Hl & H). by exists l.
Qed.

Lemma json_body_not_nullish j b : json_body j = Some b -> nullish b = false.
Proof. destruct j as [[]|]; cbn; intros Hj; inversion Hj; done. Qed.

Lemma decode_params_not_nullish raw p : decode_params raw = Some p -> nullish p = false.
Proof. destruct raw; cbn; [destruct (decodeURIComponent _)|]; intros Hp; inversion Hp; done. Qed.

Lemma on_paypal_inv {A} (m : JS P A) w o w1 :
  on_paypal (G:=G) m w = (o, w1) ->
  exists w0, m (mk_world (w_proc w).1 (w_log w) (w_clock w)) = (o, w0) /\
    w1 = mk_world (w_proc w0, (w_proc w).2) (w_log w0) (w_clock w0).
Proof. unfold on_paypal. destruct (m _) as [o0 w0]. intros [= <- <-]. eauto. Qed.

Lemma on_braintree_inv {A} (m : JS G A) w o w1 :
  on_braintree (P:=P) m w = (o, w1) ->
  exists w0, m (mk_world (w_proc w).2 (w_log w) (w_clock w)) = (o, w0) /\
    w1 = mk_world ((w_proc w).1, w_proc w0) (w_log w0) (w_clock w0).
Proof. unfold on_braintree. destruct (m _) as [o0 w0]. intros [= <- <-]. eauto. Qed.

(** What [POST /payment/subscribe] and [POST /braintree/subscribe] run. *)
Lemma serve_subscribe j :
  serve e (mk_incoming POST "/payment/subscribe" j) =
    match json_body j with
    | None => ret (mk_response 400 JUndef)
    | Some b => on_paypal (PayPal.Payment.route_subscribe e (mk_request (JObj []) b))
    end /\
  serve e (mk_incoming POST "/braintree/subscribe" j) =
    match json_body j with
    | None => ret (mk_response 400 JUndef)
    | Some b => on_braintree (Braintree.Routes.route_subscribe (mk_request (JObj []) b))
    end.
Proof. unfold serve. cbn [in_json in_method in_path]. by destruct (json_body j). Qed.

(** C24: a route parameter reaches the handler as the client wrote it:
    for every non-empty string [s], a [GET] of
    [/payment/check-subscription/<encodeURIComponent(s)>] runs the PayPal
    handler, and one of [/braintree/check-subscription/...] the Braintree
    handler, with [req.params.subscriptionId = s] and [req.body = {}]
    (so any string, [../plans/P-3] included, can be delivered). *)
Theorem serve_check_subscription_param s :
  s <> "" ->
  serve e (mk_incoming GET ("/payment/check-subscription/" +:+ encodeURIComponent s) None) =
    on_paypal (PayPal.Payment.route_check_subscription e
                 (mk_request (JObj [("subscriptionId", JStr s)]) (JObj []))) /\
  serve e (mk_incoming GET ("/braintree/check-subscription/" +:+ encodeURIComponent s) None) =
    on_braintree (Braintree.Routes.route_check_subscription
                    (mk_request (JObj [("subscriptionId", JStr s)]) (JObj []))).
Proof.
  intros Hs. destruct (check_paths s Hs) as [Hp Hb].
  destruct (app_match_check _ (encode_ne s Hs)) as [Mp Mb].
  unfold serve. cbn [json_body in_json in_method in_path]. rewrite Hp, Hb, Mp, Mb.
  cbn -[decode_params]. rewrite decode_params_encode. done.
Qed.

(** C23: starting the server with [PAYPAL_CLIENT_ID] set, the three
    Braintree credentials set (non-empty) and [PORT] unset prints, in
    this order, the client id (when the PayPal router loads
    src/config/paypal.js) and ["Server running on port 3000"]. *)
Theorem server_startup_log id (w : world (P * G)) :
  env_lookup "PAYPAL_CLIENT_ID" e = Some id -> env_lookup "PORT" e = None ->
  truthy (process_env e "BRAINTREE_PUBLIC_KEY") = true ->
  truthy (process_env e "BRAINTREE_PRIVATE_KEY") = true ->
  truthy (process_env e "BRAINTREE_MERCHANT_ID") = true ->
  startup e w = (Ok tt, mk_world (w_proc w)
                   (w_log w ++ [mk_log LogInfo [JStr id];
                                mk_log LogInfo [JStr "Server running on port 3000"]]) (w_clock w)).
Proof.
  intros Hid Hport Hpk Hsk Hm.
  assert (Hgw : Braintree.Config.BraintreeGateway_new e = Ok tt)
    by (apply Braintree.Config.BraintreeGateway_new_ok; auto).
  unfold startup, PayPal.Config.module_load, PORT. rewrite ?Hgw.
  unfold process_env. rewrite Hid, Hport. cbn. by rewrite <- app_assoc.
Qed.

(** C33: starting the server with a Braintree credential missing (one
    of [BRAINTREE_PUBLIC_KEY], [BRAINTREE_PRIVATE_KEY],
    [BRAINTREE_MERCHANT_ID] unset or empty) prints the PayPal client id
    and then fails: loading src/config/braintree.js throws the SDK's
    [configurationError] naming the credential, and the server never
    listens (no ["Server running on port ..."] line). *)
Theorem server_startup_unconfigured id k (w : world (P * G)) :
  env_lookup "PAYPAL_CLIENT_ID" e = Some id ->
  Braintree.Config.missing_credential (Braintree.Config.gateway_options_of e) = Some k ->
  startup e w = (Throw (Braintree.Config.configuration_error ("Missing " +:+ k)),
                 mk_world (w_proc w) (w_log w ++ [mk_log LogInfo [JStr id]]) (w_clock w)).
Proof.
  intros Hid Hk. unfold startup, PayPal.Config.module_load, Braintree.Config.BraintreeGateway_new.
  rewrite Hk. unfold process_env. rewrite Hid. reflexivity.
Qed.

(** C25: the server answers every request, and answers it once: on
    every sequence of requests and in every state of the two processors,
    [serve_all] returns one response per request, whatever the processors
    answer; no request is left without a response by an escaping
    exception. *)
Theorem serve_all_answers (reqs : list incoming) (w : world (P * G)) :
  exists resps w', serve_all e reqs w = (Ok resps, w') /\ length resps = length reqs.
Proof.
  assert (Hs : forall req, nothrow (serve e req)).
  { intros req. unfold serve.
    destruct (json_body _) as [body|] eqn:Hb; [|apply nothrow_ret].
    destruct (app_match _ _) as [[r raw]|]; [|apply nothrow_ret].
    destruct (decode_params raw) as [params|] eqn:Hp; [|apply nothrow_ret].
    apply json_body_not_nullish in Hb. apply decode_params_not_nullish in Hp.
    destruct r as [r|r]; [apply on_paypal_nothrow|apply on_braintree_nothrow]; destruct r;
      cbn [PayPal.Payment.handle Braintree.Routes.handle];
      unfold PayPal.Payment.route_create_plan, PayPal.Payment.route_subscribe,
        PayPal.Payment.route_check_subscription, Braintree.Routes.route_subscribe,
        Braintree.Routes.route_check_subscription, Braintree.Routes.route_update_card,
        Braintree.Routes.route_test_connection, Braintree.Routes.route_test_subscription;
      solve_nothrow. }
  revert w. induction reqs as [|req reqs IH]; intros w; [by exists [], w|].
  cbn [serve_all]. destruct (Hs req w) as (resp & w1 & Hr).
  destruct (IH w1) as (resps & w2 & Hrs & Hl).
  exists (resp :: resps), w2. rewrite (bind_step_ok _ _ _ _ _ Hr), (bind_step_ok _ _ _ _ _ Hrs). cbn. auto.
Qed.

(** C34: a request that makes the server print an error line is
    answered with a 500: whatever the request and whatever the
    processors answer, if serving it appended a [console.error] line to
    the output, the response has status 500.  The routes print errors
    only on their failure paths, each of which ends in
    [res.status(500)]; the 400 and 404 answered before a handler runs
    print nothing. *)
Theorem serve_error_500 (req : incoming) w resp w' l :
  serve e req w = (Ok resp, w') -> w_log w' = (w_log w ++ l)%list -> logs_error l = true ->
  res_status resp = 500%Z.
Proof.
  intros Hr Hl He.
  assert (Hs : error_500 (serve e req)).
  { unfold serve. repeat case_match;
      first [ apply error_500_guarded, guarded_ret
            | apply on_paypal_error_500, PayPal.Payment.paypal_error_500
            | apply on_braintree_error_500, Braintree.Routes.braintree_error_500 ]. }
  destruct (Hs _ _ _ Hr) as (l0 & Hl0 & H). rewrite Hl0 in Hl. apply app_inv_head in Hl as ->.
  by apply H.
Qed.

(** C31: over HTTP, against a Braintree gateway meeting its contract: the
    subscription id a client receives from [POST /braintree/subscribe]
    (whatever JSON body it sent), requested back as
    [GET /braintree/check-subscription/<encodeURIComponent(id)>], is
    found: the snapshot carries the same id, and neither processor's
    state changes.  The id must be non-empty: an empty segment is not
    routed. *)
Theorem serve_braintree_subscribe_then_check `{!Braintree.Routes.BraintreeContract G} j w resp w1 s :
  serve e (mk_incoming POST "/braintree/subscribe" j) w = (Ok resp, w1) ->
  js_get (res_body resp) "subscriptionId" = Ok (JStr s) -> s <> "" ->
  exists fs w2,
    serve e (mk_incoming GET ("/braintree/check-subscription/" +:+ encodeURIComponent s) None) w1 =
      (Ok (res_json (JObj fs)), w2) /\ w_proc w2 = w_proc w1 /\
    js_get (json_of (JObj fs)) "id" = Ok (JStr s).
Proof.
  intros Hr Hs Hne. rewrite (proj2 (serve_subscribe j)) in Hr.
  destruct (json_body j) as [b|]; [|injection Hr as <- _; discriminate].
  apply on_braintree_inv in Hr as (w0 & Hr0 & ->).
  destruct (Braintree.Routes.subscribe_inv _ _ _ _ _ Hr0 Hs) as (token & g & r & sub & Hc & Hsucc & Hsub).
  pose proof (Braintree.Routes.create_then_find _ _ _ _ _ _ Hc Hsucc Hsub) as Hf.
  destruct (Braintree.Routes.check_found (JStr s) (JObj []) (mk_world (w_proc w0) (w_log w0) (w_clock w0))
              sub Hf) as (fs & w2 & Hrun & Hw2 & Hid & _).
  exists fs, (mk_world ((w_proc w).1, w_proc w2) (w_log w2) (w_clock w2)). split.
  { destruct (check_paths s Hne) as [_ Hb]. destruct (app_match_check _ (encode_ne s Hne)) as [_ Mb].
    unfold serve. cbn [json_body in_json in_method in_path]. rewrite Hb, Mb.
    cbn -[decode_params Braintree.Routes.route_check_subscription]. rewrite decode_params_encode.
    unfold on_braintree. cbn [w_proc w_log w_clock snd]. rewrite Hrun. reflexivity. }
  cbn. rewrite Hw2. split; [done|]. rewrite Hid. unfold prop. by destruct Hsub as [_ ->].
Qed.

(** C32: over HTTP, against a PayPal server meeting the contract of the
    routes: the subscription id a client receives from
    [POST /payment/subscribe], requested back as
    [GET /payment/check-subscription/<encodeURIComponent(id)>], is
    found with the same id and one of PayPal's statuses, and the PayPal
    server keeps its invariant. *)
Theorem serve_paypal_subscribe_then_check (inv : P -> Prop) has_sub valid
    `{!PayPal.Payment.PayPalContract e inv has_sub valid} j w resp w1 s :
  inv (w_proc w).1 ->
  serve e (mk_incoming POST "/payment/subscribe" j) w = (Ok resp, w1) ->
  js_get (res_body resp) "subscriptionId" = Ok (JStr s) -> s <> "" ->
  exists fs w2,
    serve e (mk_incoming GET ("/payment/check-subscription/" +:+ encodeURIComponent s) None) w1 =
      (Ok (res_json (JObj fs)), w2) /\ inv (w_proc w2).1 /\
    js_get (json_of (JObj fs)) "id" = Ok (JStr s) /\
    exists st, js_get (json_of (JObj fs)) "status" = Ok (JStr st) /\ st ∈ PayPal.Payment.paypal_statuses.
Proof.
  intros Hinv Hr Hs Hne. rewrite (proj1 (serve_subscribe j)) in Hr.
  destruct (json_body j) as [b|]; [|injection Hr as <- _; discriminate].
  apply on_paypal_inv in Hr as (w0 & Hr0 & ->).
  destruct (PayPal.Payment.subscribe_held e inv has_sub valid _
              (mk_world (w_proc w).1 (w_log w) (w_clock w)) _ _ _ Hinv Hr0 Hs) as [Hinv0 Hhas].
  destruct (PayPal.Payment.check_held e inv has_sub valid (mk_world (w_proc w0) (w_log w0) (w_clock w0))
              s (JObj []) Hinv0 Hhas) as (fs & w2 & Hrun & Hinv2 & Hid & Hst).
  exists fs, (mk_world (w_proc w2, (w_proc w).2) (w_log w2) (w_clock w2)). split.
  { destruct (check_paths s Hne) as [Hp _]. destruct (app_match_check _ (encode_ne s Hne)) as [Mp _].
    unfold serve. cbn [json_body in_json in_method in_path]. rewrite Hp, Mp.
    cbn -[decode_params PayPal.Payment.route_check_subscription]. rewrite decode_params_encode.
    unfold on_paypal. cbn [w_proc w_log w_clock fst]. rewrite Hrun. reflexivity. }
  split; [exact Hinv2|]. by split.
Qed.

End Facts.
End Facts.

(** ** Scenarios on the two reference processors *)

Module Scenarios.
Import Uri App Facts SandboxPayPal.Rest SandboxPayPal.OnSandbox SandboxPayPal.Contract SandboxBraintree.Sandbox.

Definition env0 : env := SandboxPayPal.Scenarios.env0.

Definition world0 : world (paypal * sandbox) :=
  mk_world (SandboxPayPal.Scenarios.server0, SandboxBraintree.Scenarios.sandbox0 true) [] 0.

Definition get (path : string) : incoming := mk_incoming GET path None.

(** The encoded traversal parameter is one segment, [..%2Fplans%2FP-3]. *)
Example encoded_traversal : encodeURIComponent "../plans/P-3" = "..%2Fplans%2FP-3".
Proof. reflexivity. Qed.

(** Express' matching: case-insensitive, a trailing slash tolerated, the
    mount point taking one extra slash; other paths and methods are not
    routed. *)
Example matching :
  app_match POST (split_path "/PAYMENT/Subscribe/") = Some (PayPalRoute PayPal.Payment.Subscribe, None) /\
  app_match GET (split_path "/braintree/test-connection") =
    Some (BraintreeRoute Braintree.Routes.TestConnection, None) /\
  app_match GET (split_path "/payment/subscribe") = None /\
  app_match GET (split_path "/payment/check-subscription/") = None /\
  app_match GET (split_path "/payment/check-subscription/a/b") = None /\
  app_match POST (split_path "/payment//subscribe") = Some (PayPalRoute PayPal.Payment.Subscribe, None) /\
  app_match POST (split_path "/payment///subscribe") = None.
Proof. repeat split; reflexivity. Qed.

(** A malformed escape answers 400, an unknown path 404, a JSON body
    that is not an object or array 400, before any handler runs. *)
Example rejected :
  fst (serve env0 (get "/payment/check-subscription/%E0%A4%A") world0) =
    Ok (mk_response 400 (JStr "Failed to decode param '%E0%A4%A'")) /\
  fst (serve env0 (get "/payment/plans") world0) =
    Ok (mk_response 404 (JStr "Cannot GET /payment/plans")) /\
  fst (serve env0 (mk_incoming POST "/payment/subscribe" (Some (JStr "P-3"))) world0) =
    Ok (mk_response 400 JUndef).
Proof. repeat split; vm_compute; reflexivity. Qed.

Lemma serve_check_subscription_param_witness :
  serve (P:=paypal) (G:=sandbox) env0
    (get ("/payment/check-subscription/" +:+ encodeURIComponent "../plans/P-3")) =
    on_paypal (PayPal.Payment.route_check_subscription env0
                 (mk_request (JObj [("subscriptionId", JStr "../plans/P-3")]) (JObj []))) /\
  serve (P:=paypal) (G:=sandbox) env0
    (get ("/braintree/check-subscription/" +:+ encodeURIComponent "../plans/P-3")) =
    on_braintree (Braintree.Routes.route_check_subscription
                    (mk_request (JObj [("subscriptionId", JStr "../plans/P-3")]) (JObj []))).
Proof. apply serve_check_subscription_param. done. Defined.

(** The environment of the scenarios with the Braintree credentials. *)
Definition env_bt : env :=
  (env0 ++ [("BRAINTREE_MERCHANT_ID", "m1"); ("BRAINTREE_PUBLIC_KEY", "pk1");
            ("BRAINTREE_PRIVATE_KEY", "sk1")])%list.

Lemma server_startup_log_witness :
  startup (P:=paypal) (G:=sandbox) env_bt world0 =
    (Ok tt, mk_world (w_proc world0)
              (w_log world0 ++ [mk_log LogInfo [JStr "AbC"];
                                mk_log LogInfo [JStr "Server running on port 3000"]]) (w_clock world0)).
Proof. apply server_startup_log; reflexivity. Defined.

(** [env0] sets no Braintree credential: the public key is reported. *)
Lemma server_startup_unconfigured_witness :
  startup (P:=paypal) (G:=sandbox) env0 world0 =
    (Throw (Braintree.Config.configuration_error "Missing publicKey"),
     mk_world (w_proc world0) (w_log world0 ++ [mk_log LogInfo [JStr "AbC"]]) (w_clock world0)).
Proof. apply (server_startup_unconfigured env0 "AbC" "publicKey"); reflexivity. Defined.

(** A nonce the sandbox never issued: the customer creation fails. *)
Definition post_stale : incoming :=
  mk_incoming POST "/braintree/subscribe" (Some (JObj [("paymentMethodNonce", JStr "stale-nonce")])).

Lemma serve_error_500_witness :
  res_status (match fst (serve env0 post_stale world0) with Ok r => r | Throw _ => mk_response 0 JUndef end) =
    500%Z.
Proof.
  apply (serve_error_500 env0 post_stale world0 _ (snd (serve env0 post_stale world0))
           (w_log (snd (serve env0 post_stale world0)))); vm_compute; reflexivity.
Defined.

Definition post_nonce : incoming :=
  mk_incoming POST "/braintree/subscribe" (Some (JObj [("paymentMethodNonce", JStr "fake-valid-nonce")])).

Lemma serve_braintree_subscribe_then_check_witness :
  exists fs w2,
    serve env0 (mk_incoming GET ("/braintree/check-subscription/" +:+ encodeURIComponent "sub_2") None)
      (snd (serve env0 post_nonce world0)) = (Ok (res_json (JObj fs)), w2) /\
    w_proc w2 = w_proc (snd (serve env0 post_nonce world0)) /\
    js_get (json_of (JObj fs)) "id" = Ok (JStr "sub_2").
Proof.
  apply (serve_braintree_subscribe_then_check env0
           (Some (JObj [("paymentMethodNonce", JStr "fake-valid-nonce")])) world0
           (match fst (serve env0 post_nonce world0) with Ok r => r | Throw _ => mk_response 0 JUndef end));
    [vm_compute; reflexivity | vm_compute; reflexivity | discriminate].
Defined.

(** Both processors, after [GET /payment/create-plan] made plan [P-3]. *)
Definition world_plan : world (paypal * sandbox) :=
  mk_world (w_proc SandboxPayPal.Scenarios.world1, SandboxBraintree.Scenarios.sandbox0 true) []
    SandboxPayPal.Scenarios.now0.

Definition post_plan : incoming :=
  mk_incoming POST "/payment/subscribe" (Some (JObj [("planId", JStr "P-3")])).

Lemma serve_paypal_subscribe_then_check_witness :
  SandboxPayPal.Contract.sb_inv env0 (w_proc world_plan).1 /\
  exists fs w2,
    serve env0 (mk_incoming GET ("/payment/check-subscription/" +:+ encodeURIComponent "I-5") None)
      (snd (serve env0 post_plan world_plan)) = (Ok (res_json (JObj fs)), w2) /\
    SandboxPayPal.Contract.sb_inv env0 (w_proc w2).1 /\
    js_get (json_of (JObj fs)) "id" = Ok (JStr "I-5") /\
    exists st, js_get (json_of (JObj fs)) "status" = Ok (JStr st) /\ st ∈ PayPal.Payment.paypal_statuses.
Proof.
  split; [exact SandboxPayPal.Scenarios.world1_inv|].
  apply (serve_paypal_subscribe_then_check env0 (SandboxPayPal.Contract.sb_inv env0)
           SandboxPayPal.Contract.holds SandboxPayPal.Contract.issued
           (Some (JObj [("planId", JStr "P-3")])) world_plan
           (match fst (serve env0 post_plan world_plan) with Ok r => r | Throw _ => mk_response 0 JUndef end));
    [exact SandboxPayPal.Scenarios.world1_inv | vm_compute; reflexivity | vm_compute; reflexivity
    | discriminate].
Defined.
End Scenarios.
